(** * Retrieval-and-ranking pipeline of the contextual code search engine

    A shallow embedding of the Python sources

      - [indexing/code_parser.py]        (module [CodeParser])
      - [search/query_processor.py]      (modules [QueryProcessor],
                                          [Suggestions])
      - [indexing/embedding_generator.py](modules [EmbeddingGenerator],
                                          [EmbeddingDispatch])
      - [search/ranking_engine.py]       (modules [RankingEngine],
                                          [Filtering])
      - [search/semantic_search.py]      (modules [SemanticSearch],
                                          [FloatSearch], [Similar])
      - [api/routes/search.py]           (module [SearchRoute])

    Conventions of the embedding.

      - Python [str] is modelled by [string] restricted to ASCII: the
        character classes ([str.isspace], the [\w] and [\s] classes of
        [re]) and [str.lower] are those of Python on code points below
        128; the codes above 127 are caseless symbols.
      - Python [float] is modelled by the exact rationals [Q]; rounding,
        infinities and NaN are not represented.  Where the rounding of
        a sum decides what is returned, the threshold test and the order
        of the results of [search], the code is given in binary64, on
        the kernel's primitive floats (module [FloatSearch]).
      - Python [int] is [Z]; list slicing follows Python's rules for
        negative and out-of-range bounds ([py_slice]).
      - [list.sort(key=..., reverse=True)] is the stable descending sort
        [sort_desc].
      - A [try ... except Exception] block is a total function whose
        result is the handler's value on the failing paths. *)

From Stdlib Require Import List Bool Arith ZArith Lia.
From Stdlib Require Import Ascii String.
From Stdlib Require Import QArith Qminmax Lqa.
From Stdlib Require Import Permutation Sorted.
From Stdlib Require DecimalString.
From Stdlib Require Floats.
Import ListNotations.

Set Implicit Arguments.

(* ===================================================================== *)
(** * Python strings *)
(* ===================================================================== *)

Module PyStr.

Local Open Scope char_scope.
Local Open Scope N_scope.

Definition chars := list ascii.

(** [str.isspace] on ASCII: TAB, LF, VT, FF, CR, FS, GS, RS, US, SPACE. *)
Definition is_space (c : ascii) : bool :=
  let n := N_of_ascii c in
  ((9 <=? n) && (n <=? 13)) || ((28 <=? n) && (n <=? 32)).

(** The class [\w] of [re] on ASCII: letters, digits and underscore. *)
Definition is_word (c : ascii) : bool :=
  let n := N_of_ascii c in
  ((48 <=? n) && (n <=? 57)) || ((65 <=? n) && (n <=? 90))
  || ((97 <=? n) && (n <=? 122)) || (n =? 95).

(** [str.lower] on one ASCII character. *)
Definition lower_char (c : ascii) : ascii :=
  let n := N_of_ascii c in
  if (65 <=? n) && (n <=? 90) then ascii_of_N (n + 32) else c.

Local Close Scope N_scope.
Local Open Scope list_scope.

Definition lower_chars (l : chars) : chars := map lower_char l.

(** [s.lower()] *)
Definition lower (s : string) : string :=
  string_of_list_ascii (lower_chars (list_ascii_of_string s)).

(** [s.lstrip()] *)
Fixpoint lstrip_chars (l : chars) : chars :=
  match l with
  | [] => []
  | c :: l' => if is_space c then lstrip_chars l' else l
  end.

(** [s.rstrip()]: the trailing run of whitespace is dropped. *)
Fixpoint rstrip_chars (l : chars) : chars :=
  match l with
  | [] => []
  | c :: l' =>
      match rstrip_chars l' with
      | [] => if is_space c then [] else [c]
      | r => c :: r
      end
  end.

(** [s.strip()] *)
Definition strip_chars (l : chars) : chars := rstrip_chars (lstrip_chars l).

Definition strip (s : string) : string :=
  string_of_list_ascii (strip_chars (list_ascii_of_string s)).

(** [s.startswith(p)] *)
Fixpoint startswith_chars (p l : chars) : bool :=
  match p, l with
  | [], _ => true
  | _ :: _, [] => false
  | a :: p', b :: l' => Ascii.eqb a b && startswith_chars p' l'
  end.

Definition startswith (s p : string) : bool :=
  startswith_chars (list_ascii_of_string p) (list_ascii_of_string s).

(** [s.startswith((p1, ..., pn))] *)
Definition startswith_any (s : string) (ps : list string) : bool :=
  existsb (startswith s) ps.

(** [needle in hay] *)
Fixpoint contains_chars (needle hay : chars) : bool :=
  startswith_chars needle hay ||
  match hay with
  | [] => false
  | _ :: hay' => contains_chars needle hay'
  end.

Definition contains (needle hay : string) : bool :=
  contains_chars (list_ascii_of_string needle) (list_ascii_of_string hay).

(** [s.split(sep)] for a one-character separator: never the empty list. *)
Fixpoint split_on_chars (sep : ascii) (l : chars) : list chars :=
  match l with
  | [] => [[]]
  | c :: l' =>
      if Ascii.eqb c sep then [] :: split_on_chars sep l'
      else match split_on_chars sep l' with
           | [] => [[c]]
           | w :: ws => (c :: w) :: ws
           end
  end.

Definition newline : ascii := "010".

(** The one-character string ['\n']. *)
Definition nl : string := String newline EmptyString.

(** [s.split('\n')] *)
Definition split_lines (s : string) : list string :=
  map string_of_list_ascii (split_on_chars newline (list_ascii_of_string s)).

(** [s.split()]: the maximal runs of non-whitespace characters. *)
Fixpoint split_ws_chars (cur : chars) (l : chars) : list chars :=
  match l with
  | [] => match cur with [] => [] | _ => [rev cur] end
  | c :: l' =>
      if is_space c
      then match cur with
           | [] => split_ws_chars [] l'
           | _ => rev cur :: split_ws_chars [] l'
           end
      else split_ws_chars (c :: cur) l'
  end.

Definition split (s : string) : list string :=
  map string_of_list_ascii (split_ws_chars [] (list_ascii_of_string s)).

(** [sep.join(parts)] *)
Definition join (sep : string) (parts : list string) : string :=
  String.concat sep parts.

(** [len(s)] *)
Definition len (s : string) : Z := Z.of_nat (String.length s).

(** [str(n)] for a non-negative integer, [-] prefixed otherwise. *)
Definition str_of_Z (n : Z) : string :=
  DecimalString.NilZero.string_of_int (Z.to_int n).

End PyStr.

(* ===================================================================== *)
(** * Python lists: slicing and the stable descending sort *)
(* ===================================================================== *)

Module PyList.

Section Slice.
Context {A : Type}.

(** Clamp an index the way a slice bound is clamped. *)
Definition slice_bound (n : Z) (i : Z) : Z :=
  if (i <? 0)%Z then Z.max (i + n) 0 else Z.min i n.

(** [l[lo:hi]] *)
Definition py_slice (lo hi : Z) (l : list A) : list A :=
  let n := Z.of_nat (List.length l) in
  let lo' := slice_bound n lo in
  let hi' := slice_bound n hi in
  firstn (Z.to_nat (hi' - lo')) (skipn (Z.to_nat lo') l).

(** [l[:k]] *)
Definition py_take (k : Z) (l : list A) : list A := py_slice 0 k l.
End Slice.

Section Sort.
Context {A : Type}.
Variable key : A -> Q.

(** Insertion that keeps [x] in front of the elements whose key is not
    larger: equal keys stay in their original order. *)
Fixpoint insert_desc (x : A) (l : list A) : list A :=
  match l with
  | [] => [x]
  | y :: l' =>
      if Qle_bool (key y) (key x) then x :: l
      else y :: insert_desc x l'
  end.

(** [l.sort(key=key, reverse=True)] *)
Definition sort_desc (l : list A) : list A :=
  fold_right insert_desc [] l.

Definition desc (x y : A) : Prop := (key y <= key x)%Q.
End Sort.

End PyList.

(* ===================================================================== *)
(** * Python exceptions *)
(* ===================================================================== *)

Module PyExn.

(** The exceptions the modelled code meets. *)
Inductive exn :=
| SyntaxError
| NameError
| ReError
| TypeError
| OtherException.

(** The outcome of a call that may raise. *)
Inductive result (A : Type) :=
| Ok (a : A)
| Raise (e : exn).

Arguments Ok {A} a.
Arguments Raise {A} e.

Definition raised {A : Type} (r : result A) : bool :=
  match r with Ok _ => false | Raise _ => true end.

End PyExn.

(* ===================================================================== *)
(** * indexing/code_parser.py *)
(* ===================================================================== *)

Module CodeParser.
Import PyStr PyList PyExn.

Local Open Scope list_scope.
Local Open Scope string_scope.
Local Open Scope Z_scope.

(** The dataclass [CodeSnippet] of the parser. *)
Record CodeSnippet := {
  id : string;
  content : string;
  language : string;
  file_path : string;
  line_start : Z;
  line_end : Z;
  name : string;
  type : string;
  complexity : string;
  quality_score : Q;
  tags : list string;
  description : string
}.

(** [enumerate(l, start)] *)
Fixpoint enumerate {A : Type} (start : Z) (l : list A) : list (Z * A) :=
  match l with
  | [] => []
  | x :: l' => (start, x) :: enumerate (start + 1) l'
  end.

(** [any(keyword in s for keyword in keywords)] *)
Definition any_in (keywords : list string) (s : string) : bool :=
  existsb (fun keyword => contains keyword s) keywords.

Definition complexity_bucket (complexity_score : Z) : string :=
  if complexity_score <=? 2 then "low"
  else if complexity_score <=? 5 then "medium"
  else "high".

(** [CodeParser._calculate_simple_complexity] *)
Definition _calculate_simple_complexity (content : string) : string :=
  let lines := split_lines content in
  let complexity_score :=
    fold_left
      (fun score line =>
         let stripped := strip line in
         let score :=
           if any_in ["if "; "for "; "while "; "try:"; "except"; "catch";
                      "switch"] stripped
           then score + 1 else score in
         if any_in ["def "; "function "; "class "; "method "] stripped
         then score + 2 else score)
      lines 0 in
  complexity_bucket complexity_score.

(** The comment lines counted by [_calculate_quality_score]. *)
Definition is_comment_line (line : string) : bool :=
  startswith_any (strip line) ["#"; "//"; "/*"].

Definition count_comment_lines (lines : list string) : Z :=
  Z.of_nat (List.length (filter is_comment_line lines)).

(** [CodeParser._calculate_quality_score] *)
Definition _calculate_quality_score (content complexity : string) : Q :=
  let score := 7%Q in
  let lines := split_lines content in
  let n := Z.of_nat (List.length lines) in
  let score :=
    if (5 <=? n) && (n <=? 50) then (score + 1)%Q
    else if 50 <? n then (score - 1)%Q
    else score in
  let score :=
    if String.eqb complexity "low" then (score + (1#2))%Q
    else if String.eqb complexity "high" then (score - (1#2))%Q
    else score in
  let comment_lines := count_comment_lines lines in
  let comment_ratio :=
    match lines with
    | [] => 0%Q
    | _ => (inject_Z comment_lines / inject_Z n)%Q
    end in
  let score :=
    if Qle_bool (1#10) comment_ratio && Qle_bool comment_ratio (3#10)
    then (score + (1#2))%Q
    else if negb (Qle_bool comment_ratio (1#2)) then (score - (1#2))%Q
    else score in
  Qmax 1 (Qmin 10 score).

(** The quality rule in the words of the specification, for comparison
    with the code: a base of 7, the three adjustments, the clamp. *)
Definition quality_spec (line_count : Z) (complexity : string)
    (comment_ratio : Q) : Q :=
  let length_term :=
    if (5 <=? line_count) && (line_count <=? 50) then 1%Q
    else if 50 <? line_count then (-1)%Q else 0%Q in
  let complexity_term :=
    if String.eqb complexity "low" then (1#2)%Q
    else if String.eqb complexity "high" then (-(1#2))%Q else 0%Q in
  let comment_term :=
    if Qle_bool (1#10) comment_ratio && Qle_bool comment_ratio (3#10)
    then (1#2)%Q
    else if negb (Qle_bool comment_ratio (1#2)) then (-(1#2))%Q else 0%Q in
  let raw := (7 + length_term + complexity_term + comment_term)%Q in
  if Qle_bool raw 1 then 1%Q else if Qle_bool 10 raw then 10%Q else raw.

Definition line_count (content : string) : Z :=
  Z.of_nat (List.length (split_lines content)).

Definition comment_ratio (content : string) : Q :=
  (inject_Z (count_comment_lines (split_lines content))
   / inject_Z (line_count content))%Q.

(** The source text of a file spanning the lines [first] to [last],
    both included and counted from 1. *)
Definition source_lines (content : string) (first last : Z) : string :=
  join nl (py_slice (first - 1) last (split_lines content)).

(** The nodes of [ast] the parser looks at. *)
Inductive node_kind :=
| FunctionDef | AsyncFunctionDef | ClassDef
| If | For | While | Try | ExceptHandler | OtherNode.

(** What the parser reads of one node of [ast.walk(tree)]: its kind and
    name, the reported lines, the leading string constant of its body and
    the kinds of the nodes of [ast.walk(node)]. *)
Record py_node := {
  kind : node_kind;
  node_name : string;
  lineno : Z;
  end_lineno : option Z;
  docstring : option string;
  walk : list node_kind
}.

(** The outcome of [ast.parse(content)]: the nodes in [ast.walk] order,
    a [SyntaxError], or another exception. *)
Inductive ast_result :=
| AstOk (nodes : list py_node)
| AstSyntaxError
| AstOtherError.

(** A regular-expression match: [start()], [end()] and [group(1)]. *)
Record re_match := {
  m_start : Z;
  m_end : Z;
  m_group1 : string
}.

(** What [Path] and [open] report of an existing path: [str(path)],
    [path.suffix] and the decoded content ([None] when reading raises). *)
Record file := {
  path_str : string;
  suffix : string;
  read : option string
}.

Definition supported_extensions : list (string * string) :=
  [(".py", "python"); (".js", "javascript"); (".ts", "typescript");
   (".java", "java"); (".cpp", "cpp"); (".c", "c"); (".go", "go");
   (".rs", "rust"); (".php", "php"); (".rb", "ruby"); (".swift", "swift");
   (".kt", "kotlin"); (".scala", "scala"); (".r", "r"); (".m", "matlab")].

Fixpoint lookup (k : string) (d : list (string * string)) : option string :=
  match d with
  | [] => None
  | (k', v) :: d' => if String.eqb k k' then Some v else lookup k d'
  end.

(** [content[lo:hi]] on a string. *)
Definition str_slice (lo hi : Z) (s : string) : string :=
  string_of_list_ascii (py_slice lo hi (list_ascii_of_string s)).

(** [s.count('\n')] *)
Definition count_newlines (s : string) : Z :=
  Z.of_nat (List.length
    (filter (Ascii.eqb newline) (list_ascii_of_string s))).

(** [s.title()] on the three node types the parser produces. *)
Definition title (node_type : string) : string :=
  if String.eqb node_type "function" then "Function"
  else if String.eqb node_type "async_function" then "Async_Function"
  else if String.eqb node_type "class" then "Class"
  else node_type.

Section Parser.

(** External collaborators: the regular-expression engine behind
    [_extract_tags] (whose result is a [set] turned into a list), the
    one behind [re.finditer], [ast.parse] and the file system. *)
Variable _extract_tags : string -> string -> list string.
Variable finditer : string -> string -> list re_match.
Variable ast_parse : string -> ast_result.
Variable fs : string -> option file.

(** [CodeParser._calculate_complexity] *)
Definition _calculate_complexity (node : py_node) : string :=
  let complexity_score :=
    fold_left
      (fun score child =>
         match child with
         | If | For | While | Try | ExceptHandler => score + 1
         | FunctionDef => score + 2
         | ClassDef => score + 3
         | _ => score
         end)
      (walk node) 0 in
  complexity_bucket complexity_score.

(** [CodeParser._generate_description], on an interpreter whose [ast]
    still provides [ast.Str]. *)
Definition _generate_description (node : py_node) (name node_type : string)
    : string :=
  match kind node with
  | FunctionDef | AsyncFunctionDef =>
      match docstring node with
      | Some s => strip s
      | None => title node_type ++ " " ++ name
      end
  | ClassDef =>
      match docstring node with
      | Some s => strip s
      | None => "Class " ++ name
      end
  | _ => title node_type ++ " " ++ name
  end.

(** [CodeParser._extract_python_node] *)
Definition _extract_python_node (node : py_node) (content file_path : string)
    : option CodeSnippet :=
  let lines := split_lines content in
  let start_line := lineno node in
  let end_line :=
    match end_lineno node with Some e => e | None => start_line end in
  let snippet_content :=
    join nl (py_slice (start_line - 1) end_line lines) in
  let node_type_name :=
    match kind node with
    | FunctionDef => Some ("function", node_name node)
    | AsyncFunctionDef => Some ("async_function", node_name node)
    | ClassDef => Some ("class", node_name node)
    | _ => None
    end in
  match node_type_name with
  | None => None
  | Some (node_type, name) =>
      let complexity := _calculate_complexity node in
      let quality_score :=
        _calculate_quality_score snippet_content complexity in
      let tags := _extract_tags snippet_content "python" in
      let description := _generate_description node name node_type in
      let snippet_id :=
        file_path ++ ":" ++ str_of_Z start_line ++ ":" ++ str_of_Z end_line in
      Some {| CodeParser.id := snippet_id;
              CodeParser.content := snippet_content;
              CodeParser.language := "python";
              CodeParser.file_path := file_path;
              CodeParser.line_start := start_line;
              CodeParser.line_end := end_line;
              CodeParser.name := name;
              CodeParser.type := node_type;
              CodeParser.complexity := complexity;
              CodeParser.quality_score := quality_score;
              CodeParser.tags := tags;
              CodeParser.description := description |}
  end.

(** [CodeParser._create_module_snippet] *)
Definition _create_module_snippet (content file_path : string)
    (start_line end_line : Z) : option CodeSnippet :=
  let lines := split_lines content in
  let snippet_content :=
    join nl (py_slice (start_line - 1) end_line lines) in
  if len (strip snippet_content) <? 10 then None
  else
    let complexity := _calculate_simple_complexity snippet_content in
    let quality_score :=
      _calculate_quality_score snippet_content complexity in
    let tags := _extract_tags snippet_content "python" in
    let snippet_id :=
      file_path ++ ":" ++ str_of_Z start_line ++ ":" ++ str_of_Z end_line in
    Some {| CodeParser.id := snippet_id;
            CodeParser.content := snippet_content;
            CodeParser.language := "python";
            CodeParser.file_path := file_path;
            CodeParser.line_start := start_line;
            CodeParser.line_end := end_line;
            CodeParser.name := "module_block_" ++ str_of_Z start_line;
            CodeParser.type := "module";
            CodeParser.complexity := complexity;
            CodeParser.quality_score := quality_score;
            CodeParser.tags := tags;
            CodeParser.description :=
              "Module-level code block starting at line "
              ++ str_of_Z start_line |}.

Definition append_opt {A : Type} (l : list A) (o : option A) : list A :=
  match o with Some x => (l ++ [x])%list | None => l end.

(** The block-closing step shared by the loop and the last block of
    [_extract_module_snippets]. *)
Definition close_module_block (content file_path : string)
    (snippets : list CodeSnippet) (block_start block_end : Z)
    : list CodeSnippet :=
  if 0 <? block_end - block_start
  then append_opt snippets
         (_create_module_snippet content file_path block_start block_end)
  else snippets.

(** The loop [for i in range(1, len(module_lines))] of
    [_extract_module_snippets]; [prev] is [module_lines[i-1][0]]. *)
Fixpoint group_module_lines (content file_path : string)
    (rest : list Z) (prev block_start block_end : Z)
    (snippets : list CodeSnippet) : list CodeSnippet * Z * Z :=
  match rest with
  | [] => (snippets, block_start, block_end)
  | i :: rest' =>
      if i =? prev + 1
      then group_module_lines content file_path rest' i block_start i
             snippets
      else group_module_lines content file_path rest' i i i
             (close_module_block content file_path snippets
                block_start block_end)
  end.

(** [CodeParser._extract_module_snippets] *)
Definition _extract_module_snippets (content file_path : string)
    : list CodeSnippet :=
  let lines := split_lines content in
  let module_lines :=
    filter
      (fun il =>
         let stripped := strip (snd il) in
         negb (String.eqb stripped "") && negb (startswith stripped "#"))
      (enumerate 1 lines) in
  match map fst module_lines with
  | [] => []
  | first :: rest =>
      let '(snippets, block_start, block_end) :=
        group_module_lines content file_path rest first first first [] in
      close_module_block content file_path snippets block_start block_end
  end.

(** The body shared by the two loops of [_parse_js_file]: one snippet
    per match, [code_type] being ["function"] or ["class"] and [label]
    the word that starts the description. *)
Definition js_snippet (content file_path language code_type label : string)
    (m : re_match) : CodeSnippet :=
  let start_pos := count_newlines (str_slice 0 (m_start m) content) + 1 in
  let end_pos := count_newlines (str_slice 0 (m_end m) content) + 1 in
  let snippet_content := str_slice (m_start m) (m_end m) content in
  let function_name := m_group1 m in
  let complexity := _calculate_simple_complexity snippet_content in
  let quality_score :=
    _calculate_quality_score snippet_content complexity in
  let tags := _extract_tags snippet_content language in
  let snippet_id :=
    file_path ++ ":" ++ str_of_Z start_pos ++ ":" ++ str_of_Z end_pos in
  {| CodeParser.id := snippet_id;
     CodeParser.content := snippet_content;
     CodeParser.language := language;
     CodeParser.file_path := file_path;
     CodeParser.line_start := start_pos;
     CodeParser.line_end := end_pos;
     CodeParser.name := function_name;
     CodeParser.type := code_type;
     CodeParser.complexity := complexity;
     CodeParser.quality_score := quality_score;
     CodeParser.tags := tags;
     CodeParser.description := label ++ " " ++ function_name |}.

Definition function_patterns : list string :=
  ["(?:export\s+)?(?:async\s+)?function\s+(\w+)\s*\([^)]*\)\s*\{[^}]*\}";
   "(?:export\s+)?const\s+(\w+)\s*=\s*(?:async\s+)?\([^)]*\)\s*=>\s*\{[^}]*\}";
   "(?:export\s+)?let\s+(\w+)\s*=\s*(?:async\s+)?\([^)]*\)\s*=>\s*\{[^}]*\}";
   "(?:export\s+)?var\s+(\w+)\s*=\s*(?:async\s+)?\([^)]*\)\s*=>\s*\{[^}]*\}"].

Definition class_patterns : list string :=
  ["(?:export\s+)?class\s+(\w+)\s*\{[^}]*\}";
   "(?:export\s+)?class\s+(\w+)\s+extends\s+\w+\s*\{[^}]*\}"].

(** [CodeParser._parse_js_file] *)
Definition _parse_js_file (content file_path language : string)
    : list CodeSnippet :=
  (flat_map
     (fun pattern =>
        map (js_snippet content file_path language "function" "Function")
            (finditer pattern content))
     function_patterns
   ++
   flat_map
     (fun pattern =>
        map (js_snippet content file_path language "class" "Class")
            (finditer pattern content))
     class_patterns)%list.

(** The snippet built at the end of a block of [_parse_generic_file]. *)
Definition block_snippet (file_path language : string)
    (current_block : list string) (current_start end_line : Z)
    : option CodeSnippet :=
  let snippet_content := join nl current_block in
  if 20 <? len (strip snippet_content) then
    let complexity := _calculate_simple_complexity snippet_content in
    let quality_score :=
      _calculate_quality_score snippet_content complexity in
    let tags := _extract_tags snippet_content language in
    let snippet_id :=
      file_path ++ ":" ++ str_of_Z current_start ++ ":"
      ++ str_of_Z end_line in
    Some {| CodeParser.id := snippet_id;
            CodeParser.content := snippet_content;
            CodeParser.language := language;
            CodeParser.file_path := file_path;
            CodeParser.line_start := current_start;
            CodeParser.line_end := end_line;
            CodeParser.name := "code_block_" ++ str_of_Z current_start;
            CodeParser.type := "block";
            CodeParser.complexity := complexity;
            CodeParser.quality_score := quality_score;
            CodeParser.tags := tags;
            CodeParser.description :=
              "Code block starting at line " ++ str_of_Z current_start |}
  else None.

(** The state of the loop of [_parse_generic_file]. *)
Record block_state := {
  snippets : list CodeSnippet;
  current_block : list string;
  current_start : Z
}.

Definition is_code_line (line : string) : bool :=
  let stripped := strip line in
  negb (String.eqb stripped "")
  && negb (startswith stripped "//")
  && negb (startswith stripped "/*").

(** One iteration of [for i, line in enumerate(lines, 1)]. *)
Definition generic_step (file_path language : string)
    (st : block_state) (il : Z * string) : block_state :=
  let '(i, line) := il in
  if is_code_line line then
    {| snippets := snippets st;
       current_block := (current_block st ++ [line])%list;
       current_start := current_start st |}
  else
    match current_block st with
    | [] => st
    | _ :: _ =>
        {| snippets :=
             append_opt (snippets st)
               (block_snippet file_path language (current_block st)
                  (current_start st) (i - 1));
           current_block := [];
           current_start := i + 1 |}
    end.

(** [CodeParser._parse_generic_file] *)
Definition _parse_generic_file (content file_path language : string)
    : list CodeSnippet :=
  let lines := split_lines content in
  let st :=
    fold_left (generic_step file_path language) (enumerate 1 lines)
      {| snippets := []; current_block := []; current_start := 1 |} in
  match current_block st with
  | [] => snippets st
  | _ :: _ =>
      append_opt (snippets st)
        (block_snippet file_path language (current_block st)
           (current_start st) (Z.of_nat (List.length lines)))
  end.

Definition is_definition (node : py_node) : bool :=
  match kind node with
  | FunctionDef | AsyncFunctionDef | ClassDef => true
  | _ => false
  end.

(** [CodeParser._parse_python_file]: the [SyntaxError] of [ast.parse]
    is caught and leaves [snippets] empty; any other exception of
    [ast.parse] leaves the function. *)
Definition _parse_python_file (content file_path : string)
    : result (list CodeSnippet) :=
  match ast_parse content with
  | AstOk nodes =>
      let snippets :=
        fold_left
          (fun snippets node =>
             if is_definition node
             then append_opt snippets
                    (_extract_python_node node content file_path)
             else snippets)
          nodes [] in
      Ok (snippets ++ _extract_module_snippets content file_path)%list
  | AstSyntaxError => Ok []
  | AstOtherError => Raise OtherException
  end.

(** [CodeParser.parse_file] *)
Definition parse_file (file_path : string) : list CodeSnippet :=
  match fs file_path with
  | None => []
  | Some f =>
      let extension := lower (suffix f) in
      match lookup extension supported_extensions with
      | None => []
      | Some language =>
          match read f with
          | None => []
          | Some content =>
              if String.eqb language "python" then
                match _parse_python_file content (path_str f) with
                | Ok snippets => snippets
                | Raise _ => []
                end
              else if String.eqb language "javascript"
                      || String.eqb language "typescript" then
                _parse_js_file content (path_str f) language
              else
                _parse_generic_file content (path_str f) language
          end
      end
  end.

End Parser.

(** A span that does not end before it starts. *)
Definition ordered (s : CodeSnippet) : Prop := line_start s <= line_end s.

(** The invariant of the loop of [_parse_generic_file] before line [i]:
    the spans built so far are ordered and the open block fits between
    its start and [i]. *)
Definition loop_inv (i : Z) (st : block_state) : Prop :=
  Forall ordered (snippets st)
  /\ current_start st + Z.of_nat (List.length (current_block st)) <= i.

End CodeParser.

(* ===================================================================== *)
(** * models/search_result.py, models/code_snippet.py *)
(* ===================================================================== *)

Module Models.

Local Open Scope string_scope.

(** [SearchIntent] *)
Inductive SearchIntent :=
| FIND_FUNCTION | FIND_CLASS | FIND_ALGORITHM | FIND_EXAMPLE | FIND_PATTERN
| FIND_API | DEBUG_ERROR | LEARN_CONCEPT | COMPARE_IMPLEMENTATIONS.

(** [intent.value] *)
Definition intent_value (i : SearchIntent) : string :=
  match i with
  | FIND_FUNCTION => "find_function"
  | FIND_CLASS => "find_class"
  | FIND_ALGORITHM => "find_algorithm"
  | FIND_EXAMPLE => "find_example"
  | FIND_PATTERN => "find_pattern"
  | FIND_API => "find_api"
  | DEBUG_ERROR => "debug_error"
  | LEARN_CONCEPT => "learn_concept"
  | COMPARE_IMPLEMENTATIONS => "compare_implementations"
  end.

(** The fields of [SearchQuery] the pipeline reads or writes. *)
Record SearchQuery := {
  query : string;
  intent : option SearchIntent;
  languages : list string;
  repositories : list string;
  complexity_levels : list string;
  expand_query : bool;
  query_keywords : list string;
  query_topics : list string
}.

(** A [datetime]: timezone-naive, or timezone-aware; either way the
    instant it denotes, in seconds.  Python refuses to subtract or to
    order a naive and an aware value ([TypeError]). *)
Inductive datetime :=
| naive (seconds : Z)
| aware (seconds : Z).

Definition instant (d : datetime) : Z :=
  match d with
  | naive seconds => seconds
  | aware seconds => seconds
  end.

Definition same_kind (a b : datetime) : bool :=
  match a, b with
  | naive _, naive _ => true
  | aware _, aware _ => true
  | _, _ => false
  end.

(** The fields of the model [CodeSnippet] the ranking engine reads.
    Enumerations are held by their [value].  The declared model has no
    attribute [repository]: [repository_stars] is [None] unless the
    object was given one. *)
Record CodeSnippet := {
  content : string;
  language : string;
  repository_id : string;
  code_type : string;
  name : option string;
  parameters : option (list string);
  return_type : option string;
  docstring : option string;
  complexity_score : Q;
  complexity_level : string;
  quality_score : Q;
  readability_score : Q;
  keywords : list string;
  usage_count : Z;
  created_at : option datetime;
  repository_stars : option Z
}.

(** The fields of the model [SearchResult] the ranking engine uses. *)
Record SearchResult := {
  snippet : CodeSnippet;
  similarity_score : Q;
  relevance_score : Q;
  quality_boost : Q;
  popularity_boost : Q;
  recency_boost : Q;
  documentation_boost : Q;
  view_count : Z
}.

End Models.

(* ===================================================================== *)
(** * search/query_processor.py *)
(* ===================================================================== *)

Module QueryProcessor.
Import PyStr PyList PyExn Models.

Local Open Scope list_scope.
Local Open Scope string_scope.

(** [re.sub(r'\s+', ' ', s)]: every maximal run of whitespace becomes one
    space; [in_run] tells that the run was already replaced. *)
Fixpoint collapse_from (in_run : bool) (l : chars) : chars :=
  match l with
  | [] => []
  | c :: l' =>
      if is_space c
      then if in_run then collapse_from true l'
           else " "%char :: collapse_from true l'
      else c :: collapse_from false l'
  end.

Definition collapse_ws (l : chars) : chars := collapse_from false l.

(** The characters kept by [[^\w\s\-_\.]]. *)
Definition is_syntax (c : ascii) : bool :=
  is_word c || is_space c
  || Ascii.eqb c "-" || Ascii.eqb c "_" || Ascii.eqb c ".".

(** [re.sub(r'[^\w\s\-_\.]', ' ', s)] *)
Definition keep_syntax (l : chars) : chars :=
  map (fun c => if is_syntax c then c else " "%char) l.

Definition normalize_chars (l : chars) : chars :=
  let query := collapse_ws (strip_chars l) in
  let query := lower_chars query in
  let query := keep_syntax query in
  collapse_ws (strip_chars query).

(** [QueryProcessor._normalize_query] *)
Definition _normalize_query (query : string) : string :=
  string_of_list_ascii (normalize_chars (list_ascii_of_string query)).

(** ** The shape of a normalized query *)

(** No whitespace at the head, and none at the end. *)
Definition no_lead (l : chars) : Prop :=
  match l with
  | [] => True
  | c :: _ => is_space c = false
  end.

Definition no_trail (l : chars) : Prop :=
  l = [] \/ exists l0 c, l = (l0 ++ [c])%list /\ is_space c = false.

(** Every whitespace character is one space that follows no other. *)
Fixpoint single (after_space : bool) (l : chars) : Prop :=
  match l with
  | [] => True
  | c :: l' =>
      if is_space c
      then after_space = false /\ c = " "%char /\ single true l'
      else single false l'
  end.

(** The characters of a normalized query: lower-case, and kept by the
    filter of punctuation. *)
Definition plain (c : ascii) : Prop :=
  lower_char c = c /\ is_syntax c = true.

(** [re.findall(r'\b\w+\b', s)]: the maximal runs of word characters. *)
Fixpoint word_runs (cur : chars) (l : chars) : list chars :=
  match l with
  | [] => match cur with [] => [] | _ => [rev cur] end
  | c :: l' =>
      if is_word c then word_runs (c :: cur) l'
      else match cur with
           | [] => word_runs [] l'
           | _ => rev cur :: word_runs [] l'
           end
  end.

Definition findall_words (s : string) : list string :=
  map string_of_list_ascii (word_runs [] (list_ascii_of_string s)).

Definition mem (x : string) (l : list string) : bool :=
  existsb (String.eqb x) l.

Definition stop_words : list string :=
  ["the"; "a"; "an"; "and"; "or"; "but"; "in"; "on"; "at"; "to"; "for";
   "of"; "with"; "by"; "is"; "are"; "was"; "were"; "be"; "been"; "being";
   "have"; "has"; "had"; "do"; "does"; "did"; "will"; "would"; "could";
   "should"; "may"; "might"; "can"; "this"; "that"; "these"; "those"].

Definition common_terms : list string :=
  ["function"; "class"; "method"; "variable"; "constant"; "import";
   "export"; "module"; "package"; "library"; "framework"; "api";
   "algorithm"; "data structure"; "sorting"; "searching"; "recursion";
   "iteration"; "loop"; "condition"; "exception"; "error"; "debug";
   "test"; "unit"; "integration"; "database"; "query"; "sql";
   "http"; "rest"; "graphql"; "authentication"; "authorization";
   "encryption"; "security"; "performance"; "optimization"; "cache";
   "memory"; "cpu"; "thread"; "process"; "async"; "await"; "promise";
   "callback"; "event"; "listener"; "middleware"; "router"; "controller";
   "model"; "view"; "template"; "component"; "service"; "repository"].

(** [settings.SUPPORTED_LANGUAGES] of [src/config/settings.py] *)
Definition settings_SUPPORTED_LANGUAGES : list string :=
  ["python"; "javascript"; "typescript"; "java"; "cpp"; "c"; "go";
   "rust"; "php"; "ruby"; "swift"; "kotlin"; "scala"; "r"; "matlab"].

Definition language_terms (language : string) : list string :=
  if String.eqb language "python" then
    ["def"; "class"; "import"; "from"; "as"; "if"; "else"; "elif"; "for";
     "while"; "try"; "except"; "finally"; "with"; "lambda"; "yield";
     "async"; "await"]
  else if String.eqb language "javascript" then
    ["function"; "const"; "let"; "var"; "if"; "else"; "for"; "while";
     "try"; "catch"; "finally"; "async"; "await"; "export"; "import";
     "class"; "extends"; "super"]
  else if String.eqb language "typescript" then
    ["interface"; "type"; "enum"; "namespace"; "module"; "declare";
     "function"; "const"; "let"; "var"; "if"; "else"; "for"; "while";
     "try"; "catch"; "finally"; "async"; "await"; "export"; "import";
     "class"; "extends"; "super"]
  else if String.eqb language "java" then
    ["public"; "private"; "protected"; "static"; "final"; "class";
     "interface"; "extends"; "implements"; "import"; "package"; "try";
     "catch"; "finally"; "throw"; "throws"; "new"; "this"; "super"]
  else if String.eqb language "cpp" then
    ["class"; "struct"; "enum"; "namespace"; "template"; "typename";
     "const"; "static"; "virtual"; "public"; "private"; "protected";
     "friend"; "inline"; "explicit"; "operator"; "new"; "delete"; "this";
     "super"]
  else [].

(** [QueryProcessor._get_programming_keywords], a set held as a list. *)
Definition _get_programming_keywords : list string :=
  (common_terms ++ flat_map language_terms settings_SUPPORTED_LANGUAGES)%list.

(** [QueryProcessor._rule_based_intent_detection] *)
Definition _rule_based_intent_detection (query : string)
    : option SearchIntent :=
  let query_lower := lower query in
  let any terms := existsb (fun term => contains term query_lower) terms in
  if any ["function"; "def "; "func "; "method"] then Some FIND_FUNCTION
  else if any ["class"; "struct"; "interface"] then Some FIND_CLASS
  else if any ["algorithm"; "sort"; "search"; "binary"; "quick"; "merge"]
       then Some FIND_ALGORITHM
  else if any ["example"; "sample"; "how to"; "tutorial"]
       then Some FIND_EXAMPLE
  else if any ["api"; "endpoint"; "rest"; "graphql"] then Some FIND_API
  else if any ["error"; "exception"; "bug"; "fix"; "debug"]
       then Some DEBUG_ERROR
  else if any ["learn"; "understand"; "explain"; "what is"]
       then Some LEARN_CONCEPT
  else if any ["compare"; "difference"; "vs"; "versus"]
       then Some COMPARE_IMPLEMENTATIONS
  else None.

Definition intent_labels : list (SearchIntent * string) :=
  [(FIND_FUNCTION, "function search"); (FIND_CLASS, "class search");
   (FIND_ALGORITHM, "algorithm search"); (FIND_EXAMPLE, "example search");
   (FIND_PATTERN, "pattern search"); (FIND_API, "api search");
   (DEBUG_ERROR, "error debugging"); (LEARN_CONCEPT, "learning concept");
   (COMPARE_IMPLEMENTATIONS, "implementation comparison")].

Definition synonyms : list (string * list string) :=
  [("sort", ["sorting"; "order"; "arrange"]);
   ("search", ["finding"; "lookup"; "query"]);
   ("function", ["method"; "procedure"; "routine"]);
   ("class", ["type"; "object"; "struct"]);
   ("error", ["exception"; "bug"; "issue"; "problem"]);
   ("api", ["endpoint"; "service"; "interface"]);
   ("database", ["db"; "storage"; "repository"]);
   ("authentication", ["auth"; "login"; "security"]);
   ("performance", ["speed"; "efficiency"; "optimization"]);
   ("test", ["testing"; "unit test"; "integration test"]);
   ("algorithm", ["algo"; "procedure"; "method"]);
   ("data structure", ["ds"; "container"; "collection"]);
   ("recursion", ["recursive"; "recursively"]);
   ("iteration", ["loop"; "iterate"; "for loop"]);
   ("async", ["asynchronous"; "non-blocking"]);
   ("cache", ["caching"; "memoization"]);
   ("middleware", ["interceptor"; "filter"]);
   ("template", ["template"; "view"; "component"])].

(** [QueryProcessor._expand_query] *)
Definition _expand_query (query : string) : list string :=
  let query_lower := lower query in
  let expanded_terms :=
    flat_map
      (fun entry =>
         if contains (fst entry) query_lower then snd entry else [])
      synonyms in
  py_take 5 expanded_terms.

Definition frameworks : list (string * string) :=
  [("react", "frontend"); ("vue", "frontend"); ("angular", "frontend");
   ("django", "backend"); ("flask", "backend"); ("express", "backend");
   ("spring", "backend"); ("tensorflow", "machine_learning");
   ("pytorch", "machine_learning"); ("scikit", "machine_learning");
   ("pandas", "data_analysis"); ("numpy", "data_analysis");
   ("matplotlib", "data_visualization")].

Definition domains : list (string * list string) :=
  [("web", ["web"; "http"; "html"; "css"; "javascript"]);
   ("mobile", ["mobile"; "ios"; "android"; "react native"]);
   ("data", ["data"; "database"; "sql"; "nosql"; "analytics"]);
   ("ai", ["ai"; "machine learning"; "ml"; "neural"; "deep learning"]);
   ("security", ["security"; "cryptography"; "encryption";
                 "authentication"]);
   ("devops", ["devops"; "docker"; "kubernetes"; "ci/cd"; "deployment"])].

(** The names bound at module level in [query_processor.py]: its imports
    and its class. *)
Definition module_globals : list string :=
  ["re"; "List"; "Dict"; "Any"; "Optional"; "logging"; "pipeline";
   "SearchQuery"; "SearchType"; "SearchIntent"; "settings";
   "QueryProcessor"].

(** The lookup of the global [SUPPORTED_LANGUAGES] and its [.keys()]: the
    dictionary of that name lives in another module and is not imported,
    so the name is unbound here. *)
Definition SUPPORTED_LANGUAGES_keys (bound : list string)
    (value : list string) : result (list string) :=
  if mem "SUPPORTED_LANGUAGES" bound then Ok value else Raise NameError.

(** [QueryProcessor._extract_topics], for a given binding of the module's
    global names; [value] is what [SUPPORTED_LANGUAGES] would hold. *)
Definition _extract_topics_in (bound value : list string) (query : string)
    : result (list string) :=
  match SUPPORTED_LANGUAGES_keys bound value with
  | Raise e => Raise e
  | Ok languages =>
      let topics :=
        flat_map
          (fun lang =>
             if contains lang (lower query) then ["language:" ++ lang]
             else [])
          languages in
      let topics :=
        app topics
          (flat_map
             (fun entry =>
                if contains (fst entry) (lower query)
                then ["framework:" ++ fst entry; "category:" ++ snd entry]
                else [])
             frameworks) in
      let topics :=
        app topics
          (flat_map
             (fun entry =>
                if existsb (fun keyword => contains keyword (lower query))
                     (snd entry)
                then ["domain:" ++ fst entry] else [])
             domains) in
      Ok topics
  end.

(** [QueryProcessor._extract_topics] as the module runs it. *)
Definition _extract_topics (query : string) : result (list string) :=
  _extract_topics_in module_globals [] query.

(** ** The stages of [process_query] and the query object they mutate *)

(** The five stage functions called by [process_query]; each may raise. *)
Record stages := {
  extract_keywords : string -> result (list string);
  detect_intent : string -> result (option SearchIntent);
  expand : string -> result (list string);
  extract_topics : string -> result (list string);
  normalize : string -> result string
}.

(** A computation on the query object: it returns the object as it left
    it, together with its value or the exception raised. *)
Definition M (A : Type) : Type := SearchQuery -> SearchQuery * result A.

Definition ret {A : Type} (a : A) : M A := fun q => (q, Ok a).

Definition bind {A B : Type} (m : M A) (k : A -> M B) : M B :=
  fun q =>
    match m q with
    | (q', Ok a) => k a q'
    | (q', Raise e) => (q', Raise e)
    end.

Definition call {A : Type} (r : result A) : M A := fun q => (q, r).

Definition get_query : M string := fun q => (q, Ok (query q)).

(** The assignments [query.query = ...], [query.intent = ...],
    [query.query_keywords = ...] and [query.query_topics = ...]. *)
Definition with_query (s : string) (q : SearchQuery) : SearchQuery :=
  {| query := s; intent := intent q; languages := languages q;
     repositories := repositories q;
     complexity_levels := complexity_levels q;
     expand_query := expand_query q;
     query_keywords := query_keywords q;
     query_topics := query_topics q |}.

Definition with_intent (i : option SearchIntent) (q : SearchQuery)
    : SearchQuery :=
  {| query := query q; intent := i; languages := languages q;
     repositories := repositories q;
     complexity_levels := complexity_levels q;
     expand_query := expand_query q;
     query_keywords := query_keywords q;
     query_topics := query_topics q |}.

Definition with_query_keywords (kw : list string) (q : SearchQuery)
    : SearchQuery :=
  {| query := query q; intent := intent q; languages := languages q;
     repositories := repositories q;
     complexity_levels := complexity_levels q;
     expand_query := expand_query q;
     query_keywords := kw;
     query_topics := query_topics q |}.

Definition with_query_topics (topics : list string) (q : SearchQuery)
    : SearchQuery :=
  {| query := query q; intent := intent q; languages := languages q;
     repositories := repositories q;
     complexity_levels := complexity_levels q;
     expand_query := expand_query q;
     query_keywords := query_keywords q;
     query_topics := topics |}.

Definition set_query (s : string) : M unit :=
  fun q => (with_query s q, Ok tt).

Definition set_intent (i : option SearchIntent) : M unit :=
  fun q => (with_intent i q, Ok tt).

Definition set_query_keywords (kw : list string) : M unit :=
  fun q => (with_query_keywords kw q, Ok tt).

Definition set_query_topics (topics : list string) : M unit :=
  fun q => (with_query_topics topics q, Ok tt).

Definition get_expand_query : M bool := fun q => (q, Ok (expand_query q)).

Notation "x <- m ;; k" := (bind m (fun x => k))
  (at level 61, m at next level, right associativity).
Notation "m ;;; k" := (bind m (fun _ => k))
  (at level 61, right associativity).

(** The [try] block of [process_query]. *)
Definition process_query_body (S : stages) : M unit :=
  text <- get_query ;;
  kw <- call (extract_keywords S text) ;;
  set_query_keywords kw ;;;
  text <- get_query ;;
  i <- call (detect_intent S text) ;;
  set_intent i ;;;
  do_expand <- get_expand_query ;;
  (if do_expand : bool then
     text <- get_query ;;
     expanded_terms <- call (expand S text) ;;
     text <- get_query ;;
     set_query (text ++ " " ++ join " " expanded_terms)
   else ret tt) ;;;
  text <- get_query ;;
  topics <- call (extract_topics S text) ;;
  set_query_topics topics ;;;
  text <- get_query ;;
  normalized <- call (normalize S text) ;;
  set_query normalized.

(** [QueryProcessor.process_query]: the [try] block, then [return query]
    on both the normal and the [except Exception] path. *)
Definition process_query (S : stages) (q : SearchQuery)
    : result SearchQuery :=
  match process_query_body S q with
  | (q', Ok _) => Ok q'
  | (q', Raise _) => Ok q'
  end.

(** ** The stages read as a sequence of steps

    Each step is one stage together with the assignment of its result;
    [run_steps] performs the steps in order and stops at the first one
    that raises, keeping the query as the earlier steps left it. *)

Definition step := SearchQuery -> result SearchQuery.

Definition on_result {A : Type} (r : result A) (k : A -> SearchQuery)
    : result SearchQuery :=
  match r with
  | Ok a => Ok (k a)
  | Raise e => Raise e
  end.

Definition keywords_step (S : stages) : step :=
  fun q =>
    on_result (extract_keywords S (query q))
      (fun kw => with_query_keywords kw q).

Definition intent_step (S : stages) : step :=
  fun q => on_result (detect_intent S (query q)) (fun i => with_intent i q).

Definition expanded_text (text : string) (terms : list string) : string :=
  text ++ " " ++ join " " terms.

Definition expansion_step (S : stages) : step :=
  fun q =>
    if expand_query q
    then on_result (expand S (query q))
           (fun terms => with_query (expanded_text (query q) terms) q)
    else Ok q.

Definition topics_step (S : stages) : step :=
  fun q =>
    on_result (extract_topics S (query q))
      (fun topics => with_query_topics topics q).

Definition normalization_step (S : stages) : step :=
  fun q => on_result (normalize S (query q)) (fun text => with_query text q).

Definition steps_of (S : stages) : list step :=
  [keywords_step S; intent_step S; expansion_step S; topics_step S;
   normalization_step S].

Fixpoint run_steps (steps : list step) (q : SearchQuery) : SearchQuery :=
  match steps with
  | [] => q
  | s :: rest =>
      match s q with
      | Ok q' => run_steps rest q'
      | Raise _ => q
      end
  end.

Section Stages.

(** The text classifier behind [self.intent_classifier], when one was
    loaded: the top label it returns, or the exception it raises; and
    the enumeration order of [list(set(keywords))]. *)
Variable intent_classifier : option (string -> result string).
Variable list_set : list string -> list string.

(** [QueryProcessor._extract_keywords] *)
Definition _extract_keywords (query : string) : list string :=
  let words := findall_words (lower query) in
  let keywords :=
    filter
      (fun word => negb (mem word stop_words) && (2 <? len word)%Z)
      words in
  let programming_keywords := _get_programming_keywords in
  let keywords :=
    (keywords
     ++ filter (fun word => mem word programming_keywords) words)%list in
  list_set keywords.

(** [QueryProcessor._detect_intent] *)
Definition _detect_intent (query : string) : option SearchIntent :=
  match intent_classifier with
  | None => _rule_based_intent_detection query
  | Some classify =>
      match classify query with
      | Ok top =>
          match find (fun il => String.eqb (snd il) top) intent_labels with
          | Some il => Some (fst il)
          | None => None
          end
      | Raise _ => _rule_based_intent_detection query
      end
  end.

(** The stage functions of the class [QueryProcessor]. *)
Definition processor_stages : stages :=
  {| extract_keywords := fun text => Ok (_extract_keywords text);
     detect_intent := fun text => Ok (_detect_intent text);
     expand := fun text => Ok (_expand_query text);
     extract_topics := _extract_topics;
     normalize := fun text => Ok (_normalize_query text) |}.

End Stages.

(** [list(set(l))] enumerated in order of first occurrence. *)
Definition first_occurrences (l : list string) : list string :=
  rev (nodup string_dec (rev l)).

End QueryProcessor.

(* ===================================================================== *)
(** * indexing/embedding_generator.py *)
(* ===================================================================== *)

Module EmbeddingGenerator.
Import PyStr PyList PyExn.

Local Open Scope list_scope.
Local Open Scope Q_scope.

Definition embedding := list Q.

(** Truth value of an [Optional[List[float]]]: a non-empty list. *)
Definition truthy (e : option embedding) : bool :=
  match e with
  | Some (_ :: _) => true
  | _ => false
  end.

Definition same_shape (embeddings : list embedding) : bool :=
  match embeddings with
  | [] => true
  | e :: rest =>
      forallb (fun e' => Nat.eqb (List.length e') (List.length e)) rest
  end.

Definition vec_add (a b : embedding) : embedding :=
  map (fun p => fst p + snd p) (combine a b).

(** [np.mean(embeddings, axis=0)] on a list of vectors: the element-wise
    mean, or an exception when the vectors differ in length (numpy
    cannot build the two-dimensional array). *)
Definition np_mean_axis0 (embeddings : list embedding) : result embedding :=
  match embeddings with
  | [] => Raise OtherException
  | e :: rest =>
      if same_shape embeddings then
        let total := fold_left vec_add rest e in
        let count := inject_Z (Z.of_nat (List.length embeddings)) in
        Ok (map (fun x => x / count) total)
      else Raise OtherException
  end.

(** [EmbeddingGenerator.get_embedding_dimension] *)
Definition get_embedding_dimension (model_type : string) : Z :=
  if String.eqb model_type "codebert" then 768%Z
  else if String.eqb model_type "graphcodebert" then 768%Z
  else if String.eqb model_type "sentence" then 384%Z
  else if String.eqb model_type "hybrid" then 768%Z
  else 768%Z.

Section Hybrid.

(** The two model-backed strategies: each returns a vector or [None]
    and catches its own exceptions. *)
Variable Snippet : Type.
Variable _generate_codebert_embedding : Snippet -> option embedding.
Variable _generate_sentence_embedding : Snippet -> option embedding.

Definition append_if_truthy (embeddings : list embedding)
    (e : option embedding) : list embedding :=
  match e with
  | Some (x :: v) => embeddings ++ [x :: v]
  | _ => embeddings
  end.

(** [EmbeddingGenerator._generate_hybrid_embedding] *)
Definition _generate_hybrid_embedding (snippet : Snippet)
    : option embedding :=
  let embeddings := [] in
  let codebert_emb := _generate_codebert_embedding snippet in
  let embeddings := append_if_truthy embeddings codebert_emb in
  let sentence_emb := _generate_sentence_embedding snippet in
  let embeddings := append_if_truthy embeddings sentence_emb in
  match embeddings with
  | [] => None
  | [e] => Some e
  | _ =>
      match np_mean_axis0 embeddings with
      | Ok combined => Some combined
      | Raise _ => None
      end
  end.

End Hybrid.

Section Similarity.

(** The square root behind [np.linalg.norm]. *)
Variable sqrt : Q -> Q.

Definition dot (a b : embedding) : Q :=
  fold_left Qplus (map (fun p => fst p * snd p) (combine a b)) 0.

Definition norm (v : embedding) : Q := sqrt (dot v v).

(** [EmbeddingGenerator.calculate_similarity]; [None] stands for the
    NaN that dividing a vector by a zero norm produces, which compares
    false with every threshold.  Vectors of different lengths make
    [np.dot] raise, and the handler returns [0.0]. *)
Definition calculate_similarity (embedding1 embedding2 : embedding)
    : option Q :=
  if negb (Nat.eqb (List.length embedding1) (List.length embedding2))
  then Some 0
  else
    match embedding1 with
    | [] => Some 0
    | _ :: _ =>
        let n1 := norm embedding1 in
        let n2 := norm embedding2 in
        if Qeq_bool n1 0 || Qeq_bool n2 0 then None
        else Some (dot (map (fun x => x / n1) embedding1)
                       (map (fun x => x / n2) embedding2))
    end.

(** The loop of [find_similar_snippets] over [snippet_embeddings.items()],
    a dictionary held as the list of its items in insertion order. *)
Definition similarities_above (query_embedding : embedding)
    (snippet_embeddings : list (string * embedding)) (threshold : Q)
    : list (string * Q) :=
  flat_map
    (fun item =>
       match calculate_similarity query_embedding (snd item) with
       | Some similarity =>
           if Qle_bool threshold similarity
           then [(fst item, similarity)] else []
       | None => []
       end)
    snippet_embeddings.

(** [EmbeddingGenerator.find_similar_snippets] *)
Definition find_similar_snippets (query_embedding : embedding)
    (snippet_embeddings : list (string * embedding))
    (top_k : Z) (threshold : Q) : list (string * Q) :=
  let similarities :=
    similarities_above query_embedding snippet_embeddings threshold in
  let similarities := sort_desc (fun x => snd x) similarities in
  py_take top_k similarities.

End Similarity.

(** A square root that is exact on the squares of rationals. *)
Definition sqrt_exact (q : Q) : Q :=
  Z.sqrt (Qnum q) # Pos.sqrt (Qden q).

(** The order the specification asks of equal scores: ascending
    snippet ID. *)
Definition id_leb (a b : string) : bool :=
  match String.compare a b with
  | Gt => false
  | _ => true
  end.

Fixpoint ties_by_id (l : list (string * Q)) : bool :=
  match l with
  | [] => true
  | x :: l' =>
      match l' with
      | [] => true
      | y :: _ =>
          (if Qeq_bool (snd x) (snd y) then id_leb (fst x) (fst y) else true)
          && ties_by_id l'
      end
  end.

End EmbeddingGenerator.

(* ===================================================================== *)
(** * search/ranking_engine.py *)
(* ===================================================================== *)

Module RankingEngine.
Import PyStr PyList PyExn Models.

Local Open Scope list_scope.
Local Open Scope string_scope.
Local Open Scope Q_scope.

(** [settings.SEARCH_WEIGHTS] *)
Record SEARCH_WEIGHTS := {
  semantic_similarity : Q;
  keyword_match : Q;
  code_quality : Q;
  popularity : Q;
  recency : Q;
  documentation : Q
}.

(** The weights of [src/config/settings.py]. *)
Definition settings_SEARCH_WEIGHTS : SEARCH_WEIGHTS :=
  {| semantic_similarity := 4#10;
     keyword_match := 3#10;
     code_quality := 1#10;
     popularity := 1#10;
     recency := 5#100;
     documentation := 5#100 |}.

Definition mem (x : string) (l : list string) : bool :=
  existsb (String.eqb x) l.

(** Truth value of an [Optional[str]]. *)
Definition nonempty (s : option string) : bool :=
  match s with
  | Some s => negb (String.eqb s "")
  | None => false
  end.

Definition count {A : Type} (f : A -> bool) (l : list A) : Z :=
  Z.of_nat (List.length (filter f l)).

Section Engine.

(** [self.weights], the clock [datetime.utcnow()] in seconds, and
    [math.log10]. *)
Variable weights : SEARCH_WEIGHTS.
Variable utcnow : Z.
Variable log10 : Q -> Q.

(** [RankingEngine._calculate_keyword_score] *)
Definition _calculate_keyword_score (result : SearchResult)
    (query : SearchQuery) : Q :=
  match query_keywords query with
  | [] => 0
  | _ :: _ =>
      let snippet_keywords := keywords (snippet result) in
      let query_keywords := nodup string_dec (query_keywords query) in
      let overlap :=
        count (fun keyword => mem keyword snippet_keywords)
          query_keywords in
      let total_query_keywords :=
        Z.of_nat (List.length query_keywords) in
      let content_lower := lower (content (snippet result)) in
      let content_matches :=
        count (fun keyword => contains (lower keyword) content_lower)
          query_keywords in
      let keyword_score :=
        (inject_Z overlap + inject_Z content_matches * (1#2))
        / (inject_Z total_query_keywords * (3#2)) in
      Qmin keyword_score 1
  end.

(** [RankingEngine._calculate_quality_score] *)
Definition _calculate_quality_score (result : SearchResult) : Q :=
  let base_quality := quality_score (snippet result) in
  let complexity_penalty :=
    if negb (Qle_bool (complexity_score (snippet result)) 15)
    then Qmin ((complexity_score (snippet result) - 15) / 20) (3#10)
    else 0 in
  let readability_bonus := readability_score (snippet result) * (2#10) in
  let doc_bonus :=
    if nonempty (docstring (snippet result)) then 1#10 else 0 in
  let quality_score :=
    base_quality - complexity_penalty + readability_bonus + doc_bonus in
  Qmax (Qmin quality_score 1) 0.

(** [RankingEngine._calculate_popularity_score] *)
Definition _calculate_popularity_score (result : SearchResult) : Q :=
  let repo_popularity :=
    match repository_stars (snippet result) with
    | Some stars =>
        if (0 <? stars)%Z
        then Qmin (log10 (inject_Z (stars + 1)) / 5) 1
        else 0
    | None => 0
    end in
  let usage_score :=
    Qmin (inject_Z (usage_count (snippet result)) / 100) 1 in
  let view_score := Qmin (inject_Z (view_count result) / 50) 1 in
  repo_popularity * (5#10) + usage_score * (3#10) + view_score * (2#10).

(** [RankingEngine._calculate_recency_score].  [datetime.utcnow()] is
    naive: subtracting an aware [created_at] raises [TypeError], and the
    handler returns [0.5]. *)
Definition _calculate_recency_score (result : SearchResult) : Q :=
  match created_at (snippet result) with
  | None => 5#10
  | Some (aware _) => 5#10
  | Some (naive created_at) =>
      let days_old := ((utcnow - created_at) / 86400)%Z in
      if (days_old <=? 30)%Z then 1
      else if (days_old <=? 90)%Z then 8#10
      else if (days_old <=? 365)%Z then 6#10
      else if (days_old <=? 730)%Z then 4#10
      else 2#10
  end.

(** [RankingEngine._calculate_documentation_score] *)
Definition _calculate_documentation_score (result : SearchResult) : Q :=
  let doc_score := 0 in
  let doc_score :=
    if nonempty (docstring (snippet result))
    then doc_score + (4#10) else doc_score in
  let doc_score :=
    match name (snippet result) with
    | Some n =>
        if negb (String.eqb n "") && (2 <? len n)%Z
        then doc_score + (2#10) else doc_score
    | None => doc_score
    end in
  let doc_score :=
    match parameters (snippet result) with
    | Some (_ :: _) => doc_score + (2#10)
    | _ => doc_score
    end in
  let doc_score :=
    if nonempty (return_type (snippet result))
    then doc_score + (1#10) else doc_score in
  let lines := split_lines (content (snippet result)) in
  let comment_lines :=
    count (fun line => startswith_any (strip line) ["#"; "//"; "/*"; "*/"])
      lines in
  let total_lines := Z.of_nat (List.length lines) in
  let doc_score :=
    if (0 <? total_lines)%Z then
      let comment_ratio := inject_Z comment_lines / inject_Z total_lines in
      doc_score + Qmin (comment_ratio * (3#10)) (1#10)
    else doc_score in
  Qmin doc_score 1.

(** The weighted sum formed by [_calculate_relevance_score]. *)
Definition weighted_sum (result : SearchResult) (query : SearchQuery)
    : Q :=
  let semantic_score := similarity_score result in
  let keyword_score := _calculate_keyword_score result query in
  let quality_score := _calculate_quality_score result in
  let popularity_score := _calculate_popularity_score result in
  let recency_score := _calculate_recency_score result in
  let documentation_score := _calculate_documentation_score result in
  semantic_score * semantic_similarity weights
  + keyword_score * keyword_match weights
  + quality_score * code_quality weights
  + popularity_score * popularity weights
  + recency_score * recency weights
  + documentation_score * documentation weights.

(** [RankingEngine._calculate_relevance_score] *)
Definition _calculate_relevance_score (result : SearchResult)
    (query : SearchQuery) : Q :=
  let final_score := weighted_sum result query in
  let final_score := final_score * quality_boost result in
  let final_score := final_score * popularity_boost result in
  let final_score := final_score * recency_boost result in
  let final_score := final_score * documentation_boost result in
  Qmin final_score 1.

Definition set_relevance_score (result : SearchResult) (score : Q)
    : SearchResult :=
  {| snippet := snippet result;
     similarity_score := similarity_score result;
     relevance_score := score;
     quality_boost := quality_boost result;
     popularity_boost := popularity_boost result;
     recency_boost := recency_boost result;
     documentation_boost := documentation_boost result;
     view_count := view_count result |}.

(** [RankingEngine.rank_results] *)
Definition rank_results (results : list SearchResult)
    (query : SearchQuery) : list SearchResult :=
  let results :=
    map (fun result =>
           set_relevance_score result
             (_calculate_relevance_score result query))
        results in
  sort_desc relevance_score results.

(** [RankingEngine._get_intent_boost] *)
Definition _get_intent_boost (result : SearchResult)
    (intent : SearchIntent) : Q :=
  let s := snippet result in
  match intent with
  | FIND_FUNCTION =>
      if mem (code_type s) ["function"; "method"] then 12#10 else 8#10
  | FIND_CLASS =>
      if String.eqb (code_type s) "class" then 12#10 else 8#10
  | FIND_ALGORITHM =>
      if mem "algorithm" (keywords s) then 13#10 else 1
  | FIND_EXAMPLE => if nonempty (docstring s) then 11#10 else 1
  | FIND_PATTERN =>
      if (3 <? Z.of_nat (List.length (keywords s)))%Z then 12#10 else 1
  | FIND_API => if mem "api" (keywords s) then 12#10 else 1
  | DEBUG_ERROR =>
      if mem "error" (keywords s) || mem "exception" (keywords s)
      then 11#10 else 1
  | LEARN_CONCEPT => if nonempty (docstring s) then 12#10 else 1
  | COMPARE_IMPLEMENTATIONS =>
      if negb (Qle_bool (complexity_score s) 5) then 11#10 else 1
  end.

(** The body of the loop of [apply_boosts]. *)
Definition apply_boost (query : SearchQuery) (result : SearchResult)
    : SearchResult :=
  let quality_boost := quality_boost result in
  let quality_boost :=
    if mem (language (snippet result)) (languages query)
    then quality_boost * (12#10) else quality_boost in
  let quality_boost :=
    if mem (repository_id (snippet result)) (repositories query)
    then quality_boost * (11#10) else quality_boost in
  let quality_boost :=
    match intent query with
    | Some i => quality_boost * _get_intent_boost result i
    | None => quality_boost
    end in
  let quality_boost :=
    if mem (complexity_level (snippet result)) (complexity_levels query)
    then quality_boost * (11#10) else quality_boost in
  {| snippet := snippet result;
     similarity_score := similarity_score result;
     relevance_score := relevance_score result;
     Models.quality_boost := Qmin quality_boost 2;
     popularity_boost := Qmin (popularity_boost result) (15#10);
     recency_boost := Qmin (recency_boost result) (13#10);
     documentation_boost := Qmin (documentation_boost result) (12#10);
     view_count := view_count result |}.

(** [RankingEngine.apply_boosts] *)
Definition apply_boosts (results : list SearchResult)
    (query : SearchQuery) : list SearchResult :=
  map (apply_boost query) results.

End Engine.

End RankingEngine.

(* ===================================================================== *)
(** * search/semantic_search.py *)
(* ===================================================================== *)

(** The lexical score is held here in exact arithmetic, for the bounds
    that no rounding alters; [FloatSearch] below holds the score and the
    search in the binary64 arithmetic of the code. *)
Module SemanticSearch.
Import PyStr PyList PyExn.

Local Open Scope list_scope.
Local Open Scope string_scope.

Definition CodeSnippet := CodeParser.CodeSnippet.

(** The dataclass [SearchResult] of the orchestrator. *)
Record SearchResult := {
  snippet : CodeSnippet;
  score : Q;
  match_type : string;
  highlighted_content : string
}.

(** [SemanticSearch._calculate_relevance_score] *)
Definition _calculate_relevance_score (snippet : CodeSnippet)
    (query : string) : Q :=
  let score := 0%Q in
  let content_lower := lower (CodeParser.content snippet) in
  let score :=
    if contains query content_lower then (score + (8#10))%Q else score in
  let score :=
    if contains query (lower (CodeParser.name snippet))
    then (score + (9#10))%Q else score in
  let score :=
    if contains query (lower (CodeParser.description snippet))
    then (score + (7#10))%Q else score in
  let score :=
    fold_left
      (fun score tag =>
         if contains query (lower tag) then (score + (6#10))%Q else score)
      (CodeParser.tags snippet) score in
  let score :=
    if contains query (lower (CodeParser.language snippet))
    then (score + (5#10))%Q else score in
  let score :=
    if contains query (lower (CodeParser.type snippet))
    then (score + (4#10))%Q else score in
  let score :=
    if contains query (lower (CodeParser.file_path snippet))
    then (score + (3#10))%Q else score in
  let keywords := split query in
  let score :=
    fold_left
      (fun score keyword =>
         let score :=
           if contains keyword content_lower
           then (score + (1#10))%Q else score in
         let score :=
           if contains keyword (lower (CodeParser.name snippet))
           then (score + (2#10))%Q else score in
         if contains keyword (lower (CodeParser.description snippet))
         then (score + (15#100))%Q else score)
      keywords score in
  let score := (score + CodeParser.quality_score snippet * (1#100))%Q in
  Qmin 1 score.

(** The additive rule in the words of the specification: the value of a
    hit, and the sum of the hits, capped at 1. *)
Definition hit (b : bool) (w : Q) : Q := if b then w else 0%Q.

Definition sumQ (l : list Q) : Q := fold_right Qplus 0%Q l.

Definition lexical_score_spec (snippet : CodeSnippet) (query : string) : Q :=
  let within (field : string) (q : string) := contains q (lower field) in
  let raw :=
    (hit (within (CodeParser.content snippet) query) (8#10)
     + hit (within (CodeParser.name snippet) query) (9#10)
     + hit (within (CodeParser.description snippet) query) (7#10)
     + sumQ (map (fun tag => hit (within tag query) (6#10))
               (CodeParser.tags snippet))
     + hit (within (CodeParser.language snippet) query) (5#10)
     + hit (within (CodeParser.type snippet) query) (4#10)
     + hit (within (CodeParser.file_path snippet) query) (3#10)
     + sumQ (map (fun token =>
                    hit (within (CodeParser.content snippet) token) (1#10)
                    + hit (within (CodeParser.name snippet) token) (2#10)
                    + hit (within (CodeParser.description snippet) token)
                        (15#100))
               (split query))
     + CodeParser.quality_score snippet * (1#100))%Q in
  if Qle_bool 1 raw then 1%Q else raw.

(** [SemanticSearch._determine_match_type] *)
Definition _determine_match_type (snippet : CodeSnippet) (query : string)
    : string :=
  if contains query (lower (CodeParser.name snippet)) then "exact_name"
  else if contains query (lower (CodeParser.content snippet))
       then "content_match"
  else if contains query (lower (CodeParser.description snippet))
       then "description_match"
  else if existsb (fun tag => contains query (lower tag))
            (CodeParser.tags snippet)
       then "tag_match"
  else "keyword_match".

(** A match of [re.escape(part)] under [re.IGNORECASE] at the head of
    [l]: the matched text, when the characters agree up to case. *)
Fixpoint match_ci (part l : chars) : option chars :=
  match part, l with
  | [], _ => Some []
  | _ :: _, [] => None
  | a :: part', b :: l' =>
      if Ascii.eqb (lower_char a) (lower_char b)
      then match match_ci part' l' with
           | Some m => Some (b :: m)
           | None => None
           end
      else None
  end.

(** [pattern.sub(repl, s)] for a non-empty literal pattern: the matches
    are found from left to right and do not overlap; [skip] counts the
    characters of the current match still to be consumed. *)
Fixpoint sub_ci (part : chars) (repl : chars -> chars) (skip : nat)
    (l : chars) : chars :=
  match l with
  | [] => []
  | c :: l' =>
      match skip with
      | S k => sub_ci part repl k l'
      | O =>
          match match_ci part l with
          | Some m => app (repl m) (sub_ci part repl (List.length part - 1) l')
          | None => c :: sub_ci part repl 0 l'
          end
      end
  end.

Definition backslash : ascii := "\"%char.

Definition has_backslash (s : string) : bool :=
  existsb (Ascii.eqb backslash) (list_ascii_of_string s).

Section Highlight.

(** The template compiler of [re], to which a replacement string that
    contains a backslash is handed: it raises, or yields the replacement
    as a function of the matched text.  A replacement without backslash
    is taken literally. *)
Variable compile_template : string -> result (string -> string).

Definition compile_repl (template : string)
    : result (string -> string) :=
  if has_backslash template then compile_template template
  else Ok (fun _ => template).

(** One [pattern.sub(f'<mark>{part}</mark>', highlighted)]. *)
Definition highlight_part (part highlighted : string) : result string :=
  match compile_repl ("<mark>" ++ part ++ "</mark>") with
  | Raise e => Raise e
  | Ok repl =>
      Ok (string_of_list_ascii
            (sub_ci (list_ascii_of_string part)
               (fun m =>
                  list_ascii_of_string (repl (string_of_list_ascii m)))
               0 (list_ascii_of_string highlighted)))
  end.

(** [SemanticSearch._highlight_matches] *)
Definition _highlight_matches (content query : string) : result string :=
  if String.eqb query "" then Ok content
  else
    fold_left
      (fun highlighted part =>
         match highlighted with
         | Raise e => Raise e
         | Ok h =>
             if (2 <? len part)%Z then highlight_part part h else Ok h
         end)
      (split query) (Ok content).

(** The loop of [search] over the indexed snippets. *)
Fixpoint collect (snippets : list CodeSnippet) (query_lower : string)
    (similarity_threshold : Q) (results : list SearchResult)
    : result (list SearchResult) :=
  match snippets with
  | [] => Ok results
  | snippet :: rest =>
      let score := _calculate_relevance_score snippet query_lower in
      if Qle_bool similarity_threshold score then
        let match_type := _determine_match_type snippet query_lower in
        match _highlight_matches (CodeParser.content snippet) query_lower
        with
        | Raise e => Raise e
        | Ok highlighted_content =>
            collect rest query_lower similarity_threshold
              (results ++
               [{| SemanticSearch.snippet := snippet;
                   SemanticSearch.score := score;
                   SemanticSearch.match_type := match_type;
                   SemanticSearch.highlighted_content :=
                     highlighted_content |}])%list
        end
      else collect rest query_lower similarity_threshold results
  end.

(** [SemanticSearch.search] on the corpus [indexed_snippets]. *)
Definition search (indexed_snippets : list CodeSnippet) (query : string)
    (max_results : Z) (similarity_threshold : Q)
    : result (list SearchResult) :=
  match indexed_snippets with
  | [] => Ok []
  | _ :: _ =>
      let query_lower := lower query in
      match collect indexed_snippets query_lower similarity_threshold []
      with
      | Raise e => Raise e
      | Ok results =>
          let results := sort_desc score results in
          Ok (py_take max_results results)
      end
  end.

End Highlight.

(** The snippet and the score of a result; the scored corpus; the pairs
    that reach the threshold. *)
Definition pair_of (r : SearchResult) : CodeSnippet * Q :=
  (snippet r, score r).

Definition scored (indexed_snippets : list CodeSnippet) (query : string)
    : list (CodeSnippet * Q) :=
  map (fun s => (s, _calculate_relevance_score s query)) indexed_snippets.

Definition reaching (similarity_threshold : Q) (l : list (CodeSnippet * Q))
    : list (CodeSnippet * Q) :=
  filter (fun p => Qle_bool similarity_threshold (snd p)) l.

(** The marked text with the markers taken out again. *)
Fixpoint remove_all (marker l : chars) (skip : nat) : chars :=
  match l with
  | [] => []
  | c :: l' =>
      match skip with
      | S k => remove_all marker l' k
      | O =>
          if startswith_chars marker l
          then remove_all marker l' (List.length marker - 1)
          else c :: remove_all marker l' 0
      end
  end.

Definition unmark (s : string) : string :=
  let l := list_ascii_of_string s in
  let l := remove_all (list_ascii_of_string "<mark>") l 0 in
  string_of_list_ascii (remove_all (list_ascii_of_string "</mark>") l 0).

End SemanticSearch.

(* ===================================================================== *)
(** * search/semantic_search.py in binary64 arithmetic *)
(* ===================================================================== *)

(** The score of [search] decides which snippets are returned (the test
    against the threshold) and in which order.  Both depend on how the
    sum is rounded, so the functions are given here in the arithmetic of
    Python's [float], IEEE 754 binary64 with rounding to nearest: the
    kernel's primitive floats.  A decimal literal denotes the nearest
    binary64 value, as in Python. *)
Module FloatSearch.
Import PyStr PyList PyExn.
Import Floats.PrimFloat.

Local Open Scope list_scope.
Local Open Scope string_scope.
#[local] Set Warnings "-inexact-float".

(** The dataclass [CodeSnippet] of the parser, as the orchestrator holds
    it. *)
Record CodeSnippet := {
  id : string;
  content : string;
  language : string;
  file_path : string;
  line_start : Z;
  line_end : Z;
  name : string;
  type : string;
  complexity : string;
  quality_score : float;
  tags : list string;
  description : string
}.

(** The dataclass [SearchResult] of the orchestrator. *)
Record SearchResult := {
  snippet : CodeSnippet;
  score : float;
  match_type : string;
  highlighted_content : string
}.

(** [SemanticSearch._calculate_relevance_score].  [min(1.0, score)]
    returns [score] when [score < 1.0] holds and [1.0] otherwise. *)
Definition _calculate_relevance_score (snippet : CodeSnippet)
    (query : string) : float :=
  let score := 0.0%float in
  let content_lower := lower (content snippet) in
  let score :=
    if contains query content_lower then (score + 0.8)%float else score in
  let score :=
    if contains query (lower (name snippet))
    then (score + 0.9)%float else score in
  let score :=
    if contains query (lower (description snippet))
    then (score + 0.7)%float else score in
  let score :=
    fold_left
      (fun score tag =>
         if contains query (lower tag) then (score + 0.6)%float else score)
      (tags snippet) score in
  let score :=
    if contains query (lower (language snippet))
    then (score + 0.5)%float else score in
  let score :=
    if contains query (lower (type snippet))
    then (score + 0.4)%float else score in
  let score :=
    if contains query (lower (file_path snippet))
    then (score + 0.3)%float else score in
  let keywords := split query in
  let score :=
    fold_left
      (fun score keyword =>
         let score :=
           if contains keyword content_lower
           then (score + 0.1)%float else score in
         let score :=
           if contains keyword (lower (name snippet))
           then (score + 0.2)%float else score in
         if contains keyword (lower (description snippet))
         then (score + 0.15)%float else score)
      keywords score in
  let score := (score + quality_score snippet * 0.01)%float in
  if (score <? 1.0)%float then score else 1.0%float.

(** The additive rule in the words of the specification: the amounts
    that apply, in the order the rule lists them; their sum, taken from
    left to right; the cap at [1.0]. *)
Definition amount (applies : bool) (w : float) : list float :=
  if applies then [w] else [].

Definition contributions (snippet : CodeSnippet) (query : string)
    : list float :=
  let within (field : string) (q : string) := contains q (lower field) in
  (amount (within (content snippet) query) 0.8%float
   ++ amount (within (name snippet) query) 0.9%float
   ++ amount (within (description snippet) query) 0.7%float
   ++ flat_map (fun tag => amount (within tag query) 0.6%float)
        (tags snippet)
   ++ amount (within (language snippet) query) 0.5%float
   ++ amount (within (type snippet) query) 0.4%float
   ++ amount (within (file_path snippet) query) 0.3%float
   ++ flat_map
        (fun token =>
           amount (within (content snippet) token) 0.1%float
           ++ amount (within (name snippet) token) 0.2%float
           ++ amount (within (description snippet) token) 0.15%float)
        (split query)
   ++ [(quality_score snippet * 0.01)%float])%list.

Definition total (amounts : list float) : float :=
  fold_left add amounts 0.0%float.

Definition capped (raw : float) : float :=
  if (raw <? 1.0)%float then raw else 1.0%float.

Definition lexical_score_spec (snippet : CodeSnippet) (query : string)
    : float :=
  capped (total (contributions snippet query)).

(** [SemanticSearch._determine_match_type] *)
Definition _determine_match_type (snippet : CodeSnippet) (query : string)
    : string :=
  if contains query (lower (name snippet)) then "exact_name"
  else if contains query (lower (content snippet))
       then "content_match"
  else if contains query (lower (description snippet))
       then "description_match"
  else if existsb (fun tag => contains query (lower tag))
            (tags snippet)
       then "tag_match"
  else "keyword_match".

Section Sort.
Context {A : Type}.
Variable key : A -> float.

(** Insertion that keeps [x] in front of the elements whose key is not
    larger; the comparison is [<] on the keys, the one [list.sort]
    makes. *)
Fixpoint insert_desc (x : A) (l : list A) : list A :=
  match l with
  | [] => [x]
  | y :: l' =>
      if (key x <? key y)%float then y :: insert_desc x l'
      else x :: l
  end.

(** [l.sort(key=key, reverse=True)] for keys that are numbers (no NaN):
    descending, equal keys in their original order. *)
Definition sort_desc (l : list A) : list A :=
  fold_right insert_desc [] l.

Definition desc (x y : A) : Prop := (key y <=? key x)%float = true.
End Sort.

(** A float that is a number: not NaN. *)
Definition number (x : float) : Prop := (x <=? x)%float = true.

Section Search.

(** The template compiler of [re], as in [SemanticSearch]. *)
Variable compile_template : string -> result (string -> string).

(** The loop of [search] over the indexed snippets. *)
Fixpoint collect (snippets : list CodeSnippet) (query_lower : string)
    (similarity_threshold : float) (results : list SearchResult)
    : result (list SearchResult) :=
  match snippets with
  | [] => Ok results
  | snippet :: rest =>
      let score := _calculate_relevance_score snippet query_lower in
      if (similarity_threshold <=? score)%float then
        let match_type := _determine_match_type snippet query_lower in
        match SemanticSearch._highlight_matches compile_template
                (content snippet) query_lower
        with
        | Raise e => Raise e
        | Ok highlighted_content =>
            collect rest query_lower similarity_threshold
              (results ++
               [{| FloatSearch.snippet := snippet;
                   FloatSearch.score := score;
                   FloatSearch.match_type := match_type;
                   FloatSearch.highlighted_content :=
                     highlighted_content |}])%list
        end
      else collect rest query_lower similarity_threshold results
  end.

(** [SemanticSearch.search] on the corpus [indexed_snippets]. *)
Definition search (indexed_snippets : list CodeSnippet) (query : string)
    (max_results : Z) (similarity_threshold : float)
    : result (list SearchResult) :=
  match indexed_snippets with
  | [] => Ok []
  | _ :: _ =>
      let query_lower := lower query in
      match collect indexed_snippets query_lower similarity_threshold []
      with
      | Raise e => Raise e
      | Ok results =>
          let results := sort_desc score results in
          Ok (py_take max_results results)
      end
  end.

End Search.

(** The snippet and the score of a result; the scored corpus; the pairs
    that reach the threshold. *)
Definition pair_of (r : SearchResult) : CodeSnippet * float :=
  (snippet r, score r).

Definition scored (indexed_snippets : list CodeSnippet) (query : string)
    : list (CodeSnippet * float) :=
  map (fun s => (s, _calculate_relevance_score s query)) indexed_snippets.

Definition reaching (similarity_threshold : float)
    (l : list (CodeSnippet * float)) : list (CodeSnippet * float) :=
  filter (fun p => (similarity_threshold <=? snd p)%float) l.

(** A snippet that only one tag ties to the query ["sort"], with quality
    score [6.0]; and the threshold [0.66]. *)
Definition tagged_snippet : CodeSnippet :=
  {| id := "t1";
     content := "def order(xs): return xs";
     language := "python";
     file_path := "src/util.py";
     line_start := 1%Z;
     line_end := 1%Z;
     name := "order";
     type := "function";
     complexity := "low";
     quality_score := 6.0%float;
     tags := ["sort"];
     description := "Function order" |}.

Definition threshold_066 : float := 0.66%float.

Definition first_ten : Z := 10%Z.

End FloatSearch.

(* ===================================================================== *)
(** * Concrete collaborators and inputs used in the examples *)
(* ===================================================================== *)

Module Scenarios.
Import PyStr PyExn.

Local Open Scope list_scope.
Local Open Scope string_scope.

(** A tag extractor that finds no tag, and an engine that finds no match. *)
Definition no_tags (_ _ : string) : list string := [].
Definition no_matches (_ _ : string) : list CodeParser.re_match := [].

(** [ast.parse] rejecting its input with a [SyntaxError]. *)
Definition syntax_error_parser (_ : string) : CodeParser.ast_result :=
  CodeParser.AstSyntaxError.

(** A file system that holds one file. *)
Definition one_file (path suffix content : string)
    : string -> option CodeParser.file :=
  fun p =>
    if String.eqb p path
    then Some {| CodeParser.path_str := path;
                 CodeParser.suffix := suffix;
                 CodeParser.read := Some content |}
    else None.

(** A C file whose first line is a comment. *)
Definition commented_c_file : string :=
  "// demo" ++ nl ++ "int main() { return 0; }".

(** A Python file that does not parse. *)
Definition broken_py_file : string :=
  "def total(:" ++ nl ++ "    return compute_total(1, 2)".

(** Vectors of the dimensions of the two models behind the hybrid
    strategy: 768 for CodeBERT, 384 for the sentence transformer. *)
Definition codebert_vector : EmbeddingGenerator.embedding := repeat 1%Q 768.
Definition sentence_vector : EmbeddingGenerator.embedding := repeat 1%Q 384.

(** Two snippets with the same embedding, indexed in the order b, a. *)
Definition twin_embeddings : list (string * EmbeddingGenerator.embedding) :=
  [("b", [1%Q; 0%Q]); ("a", [1%Q; 0%Q])].

(** A query asking for expansion. *)
Definition sort_query : Models.SearchQuery :=
  {| Models.query := "Sort List!";
     Models.intent := None;
     Models.languages := [];
     Models.repositories := [];
     Models.complexity_levels := [];
     Models.expand_query := true;
     Models.query_keywords := [];
     Models.query_topics := [] |}.

(** The query processor without a loaded classifier. *)
Definition rule_based_stages : QueryProcessor.stages :=
  QueryProcessor.processor_stages None QueryProcessor.first_occurrences.

End Scenarios.

(* ===================================================================== *)
(** * search/ranking_engine.py: filtering *)
(* ===================================================================== *)

Module Filtering.
Import PyStr PyList PyExn Models RankingEngine.

Local Open Scope list_scope.
Local Open Scope string_scope.

(** The fields of [SearchQuery] that [filter_results] reads beside the
    filter lists: the similarity threshold and the date range, a
    dictionary whose entries ['start'] and ['end'] may be missing. *)
Record FilterQuery := {
  base : SearchQuery;
  similarity_threshold : Q;
  date_range : option (option datetime * option datetime)
}.

(** [a < b] on two [datetime] values. *)
Definition datetime_lt (a b : datetime) : result bool :=
  if same_kind a b then Ok (instant a <? instant b)%Z
  else Raise TypeError.

(** The date test of [filter_results]: [Ok true] when the result is
    skipped.  The start bound is tested first; the end bound is not
    looked at when the start bound already skips the result. *)
Definition outside_date_range (fq : FilterQuery) (result : SearchResult)
    : PyExn.result bool :=
  match date_range fq with
  | None => Ok false
  | Some (start_date, end_date) =>
      match created_at (snippet result) with
      | None => Ok false
      | Some created =>
          match
            match start_date with
            | Some s => datetime_lt created s
            | None => Ok false
            end
          with
          | Raise e => Raise e
          | Ok true => Ok true
          | Ok false =>
              match end_date with
              | Some e => datetime_lt e created
              | None => Ok false
              end
          end
      end
  end.

(** The body of the loop of [filter_results]: [Ok true] when the result
    is appended, [Ok false] when it is skipped. *)
Definition keeps (fq : FilterQuery) (result : SearchResult)
    : PyExn.result bool :=
  let query := base fq in
  if negb (Qle_bool (similarity_threshold fq) (similarity_score result))
  then Ok false
  else if negb (Nat.eqb (List.length (languages query)) 0)
          && negb (mem (language (snippet result)) (languages query))
  then Ok false
  else if negb (Nat.eqb (List.length (repositories query)) 0)
          && negb (mem (repository_id (snippet result))
                     (repositories query))
  then Ok false
  else if negb (Nat.eqb (List.length (complexity_levels query)) 0)
          && negb (mem (complexity_level (snippet result))
                     (complexity_levels query))
  then Ok false
  else
    match outside_date_range fq result with
    | Raise e => Raise e
    | Ok true => Ok false
    | Ok false => Ok true
    end.

(** The loop of [filter_results] over the results still to visit. *)
Fixpoint filter_loop (fq : FilterQuery) (todo : list SearchResult)
    (filtered_results : list SearchResult)
    : PyExn.result (list SearchResult) :=
  match todo with
  | [] => Ok filtered_results
  | result :: rest =>
      match keeps fq result with
      | Raise e => Raise e
      | Ok true => filter_loop fq rest (filtered_results ++ [result])
      | Ok false => filter_loop fq rest filtered_results
      end
  end.

(** [RankingEngine.filter_results]: when the loop raises, the handler
    returns the list it was given, unfiltered. *)
Definition filter_results (results : list SearchResult) (fq : FilterQuery)
    : list SearchResult :=
  match filter_loop fq results [] with
  | Ok filtered_results => filtered_results
  | Raise _ => results
  end.

(** Whether the loop body raises on a result, and whether it appends
    it. *)
Definition fails (fq : FilterQuery) (result : SearchResult) : bool :=
  match keeps fq result with
  | Raise _ => true
  | Ok _ => false
  end.

Definition kept (fq : FilterQuery) (result : SearchResult) : bool :=
  match keeps fq result with
  | Ok true => true
  | _ => false
  end.

End Filtering.

(* ===================================================================== *)
(** * search/semantic_search.py: similar snippets and statistics *)
(* ===================================================================== *)

Module Similar.
Import PyStr PyList PyExn SemanticSearch.

Local Open Scope list_scope.
Local Open Scope string_scope.

(** [set(l)], held without repetition. *)
Definition to_set (l : list string) : list string := nodup string_dec l.

Definition mem (x : string) (l : list string) : bool :=
  existsb (String.eqb x) l.

(** [len(a & b)] and [len(a | b)] for two sets. *)
Definition inter_size (a b : list string) : Z :=
  Z.of_nat (List.length (filter (fun x => mem x b) (to_set a))).

Definition union_size (a b : list string) : Z :=
  Z.of_nat (List.length (to_set (a ++ b)%list)).

(** [SemanticSearch._calculate_snippet_similarity] *)
Definition _calculate_snippet_similarity (snippet1 snippet2 : CodeSnippet)
    : Q :=
  let similarity := 0%Q in
  let similarity :=
    if String.eqb (CodeParser.language snippet1)
         (CodeParser.language snippet2)
    then (similarity + (2#10))%Q else similarity in
  let similarity :=
    if String.eqb (CodeParser.type snippet1) (CodeParser.type snippet2)
    then (similarity + (2#10))%Q else similarity in
  let common_tags :=
    inter_size (CodeParser.tags snippet1) (CodeParser.tags snippet2) in
  let similarity :=
    if (0 <? common_tags)%Z
    then (similarity
          + (3#10)
            * (inject_Z common_tags
               / inject_Z
                   (Z.max
                      (Z.of_nat (List.length (CodeParser.tags snippet1)))
                      (Z.of_nat (List.length (CodeParser.tags snippet2))))))%Q
    else similarity in
  let content1_words := split (lower (CodeParser.content snippet1)) in
  let content2_words := split (lower (CodeParser.content snippet2)) in
  match content1_words, content2_words with
  | _ :: _, _ :: _ =>
      let word_overlap := inter_size content1_words content2_words in
      let total_words := union_size content1_words content2_words in
      (similarity + (3#10) * (inject_Z word_overlap / inject_Z total_words))%Q
  | _, _ => similarity
  end.

(** [SemanticSearch.find_similar_snippets] *)
Definition find_similar_snippets (indexed_snippets : list CodeSnippet)
    (snippet_id : string) (top_k : Z) (threshold : Q) : list SearchResult :=
  match find (fun snippet => String.eqb (CodeParser.id snippet) snippet_id)
          indexed_snippets with
  | None => []
  | Some target_snippet =>
      let results :=
        flat_map
          (fun snippet =>
             if negb (String.eqb (CodeParser.id snippet) snippet_id) then
               let similarity :=
                 _calculate_snippet_similarity target_snippet snippet in
               if Qle_bool threshold similarity
               then [{| SemanticSearch.snippet := snippet;
                        SemanticSearch.score := similarity;
                        SemanticSearch.match_type := "similarity";
                        SemanticSearch.highlighted_content :=
                          CodeParser.content snippet |}]
               else []
             else [])
          indexed_snippets in
      py_take top_k (sort_desc score results)
  end.

(** [d[k] = d.get(k, 0) + 1] on a dictionary held as the list of its
    items in insertion order. *)
Fixpoint increment (k : string) (d : list (string * Z))
    : list (string * Z) :=
  match d with
  | [] => [(k, 1%Z)]
  | (k', n) :: d' =>
      if String.eqb k k' then (k', (n + 1)%Z) :: d'
      else (k', n) :: increment k d'
  end.

(** [d.get(k)] *)
Fixpoint get (k : string) (d : list (string * Z)) : option Z :=
  match d with
  | [] => None
  | (k', n) :: d' => if String.eqb k k' then Some n else get k d'
  end.

(** The dictionary returned by [get_statistics]. *)
Record statistics := {
  total_snippets : Z;
  languages : list (string * Z);
  types : list (string * Z);
  average_quality : Q
}.

(** [SemanticSearch.get_statistics] *)
Definition get_statistics (indexed_snippets : list CodeSnippet)
    : statistics :=
  match indexed_snippets with
  | [] =>
      {| total_snippets := 0; languages := []; types := [];
         average_quality := 0 |}
  | _ :: _ =>
      let '(languages, types, total_quality) :=
        fold_left
          (fun acc snippet =>
             let '(languages, types, total_quality) := acc in
             (increment (CodeParser.language snippet) languages,
              increment (CodeParser.type snippet) types,
              (total_quality + CodeParser.quality_score snippet)%Q))
          indexed_snippets ([], [], 0%Q) in
      {| total_snippets := Z.of_nat (List.length indexed_snippets);
         Similar.languages := languages;
         Similar.types := types;
         average_quality :=
           (total_quality
            / inject_Z (Z.of_nat (List.length indexed_snippets)))%Q |}
  end.

(** The number of snippets of one language, and of one type. *)
Definition count_language (l : string) (snippets : list CodeSnippet) : Z :=
  Z.of_nat (List.length
    (filter (fun s => String.eqb l (CodeParser.language s)) snippets)).

Definition count_type (t : string) (snippets : list CodeSnippet) : Z :=
  Z.of_nat (List.length
    (filter (fun s => String.eqb t (CodeParser.type s)) snippets)).

Definition sum_counts (d : list (string * Z)) : Z :=
  fold_right (fun kv acc => (snd kv + acc)%Z) 0%Z d.

End Similar.

(* ===================================================================== *)
(** * search/query_processor.py: suggestions and query analysis *)
(* ===================================================================== *)

Module Suggestions.
Import PyStr PyList PyExn Models QueryProcessor.

Local Open Scope list_scope.
Local Open Scope string_scope.

Definition common_patterns : list string :=
  ["sorting algorithm"; "binary search"; "quick sort"; "merge sort";
   "bubble sort"; "function definition"; "class constructor";
   "error handling"; "try catch"; "async await"; "promise handling";
   "database query"; "api endpoint"; "authentication"; "unit test";
   "integration test"; "data structure"; "linked list"; "binary tree";
   "hash table"; "stack implementation"; "queue implementation";
   "recursive function"; "iterative solution"; "design pattern";
   "singleton pattern"; "factory pattern"; "observer pattern";
   "middleware function"; "route handler"].

(** The lookup of the global [SUPPORTED_LANGUAGES] and its [.items()];
    each language comes with [config.get('keywords', [])]. *)
Definition SUPPORTED_LANGUAGES_items (bound : list string)
    (value : list (string * list string))
    : result (list (string * list string)) :=
  if QueryProcessor.mem "SUPPORTED_LANGUAGES" bound then Ok value
  else Raise NameError.

(** [QueryProcessor.get_suggestions], for a given binding of the module's
    global names. *)
Definition get_suggestions_in (bound : list string)
    (value : list (string * list string)) (partial_query : string)
    (limit : Z) : result (list string) :=
  let partial_lower := lower partial_query in
  let suggestions :=
    filter (fun pattern => contains partial_lower (lower pattern))
      common_patterns in
  match SUPPORTED_LANGUAGES_items bound value with
  | Raise e => Raise e
  | Ok items =>
      let suggestions :=
        app suggestions
          (flat_map
             (fun item =>
                if contains (fst item) partial_lower
                then map (fun keyword => keyword ++ " in " ++ fst item)
                       (py_take 5 (snd item))
                else [])
             items) in
      Ok (py_take limit suggestions)
  end.

(** [QueryProcessor.get_suggestions] as the module runs it. *)
Definition get_suggestions (partial_query : string) (limit : Z)
    : result (list string) :=
  get_suggestions_in module_globals [] partial_query limit.

(** [bool(re.search(r'[...]', query))] for a class of characters. *)
Definition has_char_of (class : list ascii) (s : string) : bool :=
  existsb (fun c => existsb (Ascii.eqb c) class) (list_ascii_of_string s).

Definition code_syntax_chars : list ascii :=
  ["{"; "}"; "("; ")"; "["; "]"]%char.

Definition operator_chars : list ascii :=
  ["+"; "-"; "*"; "/"; "="; "<"; ">"; "!"; "&"; "|"]%char.

Definition quote_chars : list ascii := ["034"; "'"]%char.

(** The dictionary built by [analyze_query_complexity]. *)
Record analysis := {
  length : Z;
  word_count : Z;
  keyword_count : Z;
  has_code_syntax : bool;
  has_quotes : bool;
  has_operators : bool;
  intent : option SearchIntent;
  topics : list string;
  languages_mentioned : list string;
  complexity_score : Q
}.

Section Analysis.

Variable intent_classifier : option (string -> result string).
Variable list_set : list string -> list string.

(** [QueryProcessor.analyze_query_complexity], for a given binding of
    the module's global names. *)
Definition analyze_query_complexity_in (bound value : list string)
    (query : string) : result analysis :=
  let length := len query in
  let word_count := Z.of_nat (List.length (split query)) in
  let keyword_count :=
    Z.of_nat (List.length (_extract_keywords list_set query)) in
  let has_code_syntax := has_char_of code_syntax_chars query in
  let has_quotes := has_char_of quote_chars query in
  let has_operators := has_char_of operator_chars query in
  let intent := _detect_intent intent_classifier query in
  match _extract_topics_in bound value query with
  | Raise e => Raise e
  | Ok topics =>
      match SUPPORTED_LANGUAGES_keys bound value with
      | Raise e => Raise e
      | Ok languages =>
          let languages_mentioned :=
            filter (fun lang => contains lang (lower query)) languages in
          let score := 0%Q in
          let score :=
            (score + Qmin (inject_Z word_count / 10) 1 * (3#10))%Q in
          let score :=
            (score + Qmin (inject_Z keyword_count / 5) 1 * (3#10))%Q in
          let score :=
            (score + if has_code_syntax then 2#10 else 0)%Q in
          let score := (score + if has_operators then 1#10 else 0)%Q in
          let score :=
            (score + match intent with Some _ => 1#10 | None => 0 end)%Q in
          Ok {| Suggestions.length := length;
                Suggestions.word_count := word_count;
                Suggestions.keyword_count := keyword_count;
                Suggestions.has_code_syntax := has_code_syntax;
                Suggestions.has_quotes := has_quotes;
                Suggestions.has_operators := has_operators;
                Suggestions.intent := intent;
                Suggestions.topics := topics;
                Suggestions.languages_mentioned := languages_mentioned;
                Suggestions.complexity_score := Qmin score 1 |}
      end
  end.

(** [QueryProcessor.analyze_query_complexity] as the module runs it. *)
Definition analyze_query_complexity (query : string) : result analysis :=
  analyze_query_complexity_in module_globals [] query.

End Analysis.

End Suggestions.

(* ===================================================================== *)
(** * api/routes/search.py *)
(* ===================================================================== *)

Module SearchRoute.
Import PyStr PyList PyExn SemanticSearch.

Local Open Scope list_scope.
Local Open Scope string_scope.
Local Open Scope Z_scope.

(** What a route hands to the framework: a response, or an
    [HTTPException] with its status code. *)
Inductive http (A : Type) :=
| Response (a : A)
| HTTPException (status_code : Z).

Arguments Response {A} a.
Arguments HTTPException {A} status_code.

(** What leaves the [try] block of a route. *)
Inductive raised :=
| RaisedHTTP (status_code : Z)
| RaisedOther.

Inductive outcome (A : Type) :=
| Done (a : A)
| Raised (e : raised).

Arguments Done {A} a.
Arguments Raised {A} e.

(** The response dictionary of [search_code]; an entry of [results]
    is held by the search result it is built from. *)
Record SearchResponse := {
  query : string;
  results : list SearchResult;
  total_results : Z;
  page : Z;
  page_size : Z;
  total_pages : Z;
  has_next_page : bool;
  has_previous_page : bool
}.

(** [a or b] on two optional strings. *)
Definition str_or (a b : option string) : option string :=
  match a with
  | Some s => if String.eqb s "" then b else Some s
  | None => b
  end.

(** [results[start_idx:end_idx]] for a page. *)
Definition paginate {A : Type} (results : list A) (page page_size : Z)
    : list A :=
  let start_idx := (page - 1) * page_size in
  let end_idx := start_idx + page_size in
  py_slice start_idx end_idx results.

Section Route.

Variable compile_template : string -> result (string -> string).

(** The corpus indexed by [SemanticSearch()]. *)
Variable indexed_snippets : list CodeSnippet.

(** The [try] block of [search_code]. *)
Definition search_code_body (q query : option string)
    (languages : option (list string)) (max_results : Z)
    (similarity_threshold : Q) (page page_size : Z)
    : outcome SearchResponse :=
  match str_or q query with
  | None => Raised (RaisedHTTP 422)
  | Some search_query =>
      if String.eqb search_query "" then Raised (RaisedHTTP 422)
      else
        let filtered_languages :=
          match languages with
          | Some (l :: ls) => Some (map lower (l :: ls))
          | _ => None
          end in
        match search compile_template indexed_snippets search_query
                max_results similarity_threshold with
        | Raise _ => Raised RaisedOther
        | Ok search_results =>
            let search_results :=
              match filtered_languages with
              | Some fl =>
                  filter
                    (fun result =>
                       existsb
                         (String.eqb
                            (lower (CodeParser.language (snippet result))))
                         fl)
                    search_results
              | None => search_results
              end in
            let results := search_results in
            let start_idx := (page - 1) * page_size in
            let end_idx := start_idx + page_size in
            let paginated_results := paginate results page page_size in
            let n := Z.of_nat (List.length results) in
            if page_size =? 0 then Raised RaisedOther
            else
              Done {| SearchRoute.query := search_query;
                      SearchRoute.results := paginated_results;
                      SearchRoute.total_results := n;
                      SearchRoute.page := page;
                      SearchRoute.page_size := page_size;
                      SearchRoute.total_pages :=
                        (n + page_size - 1) / page_size;
                      SearchRoute.has_next_page := end_idx <? n;
                      SearchRoute.has_previous_page := 1 <? page |}
        end
  end.

(** [search_code]: every exception of the block, the [HTTPException]
    raised for a missing query included, is caught by
    [except Exception] and replaced by status 500. *)
Definition search_code (q query : option string)
    (languages : option (list string)) (max_results : Z)
    (similarity_threshold : Q) (page page_size : Z)
    : http SearchResponse :=
  match search_code_body q query languages max_results
          similarity_threshold page page_size with
  | Done response => Response response
  | Raised _ => HTTPException 500
  end.

End Route.

(** [get_search_suggestions] *)
Definition get_search_suggestions (q : string) (limit : Z)
    : http (string * list string) :=
  match Suggestions.get_suggestions q limit with
  | Ok suggestions => Response (q, suggestions)
  | Raise _ => HTTPException 500
  end.

(** The page numbers [1 .. n]. *)
Definition pages (n : nat) : list Z := map Z.of_nat (seq 1 n).

End SearchRoute.

(* ===================================================================== *)
(** * indexing/embedding_generator.py: dispatch and batches *)
(* ===================================================================== *)

Module EmbeddingDispatch.
Import PyStr PyList PyExn EmbeddingGenerator.

Local Open Scope list_scope.
Local Open Scope string_scope.

(** [d[k] = v] on a dictionary held as the list of its items. *)
Fixpoint dict_set (k : string) (v : embedding)
    (d : list (string * embedding)) : list (string * embedding) :=
  match d with
  | [] => [(k, v)]
  | (k', v') :: d' =>
      if String.eqb k k' then (k', v) :: d'
      else (k', v') :: dict_set k v d'
  end.

Fixpoint dict_get (k : string) (d : list (string * embedding))
    : option embedding :=
  match d with
  | [] => None
  | (k', v) :: d' => if String.eqb k k' then Some v else dict_get k d'
  end.

Section Dispatch.

(** The model-backed strategies; each catches its own exceptions. *)
Variable Snippet : Type.
Variable snippet_id : Snippet -> string.
Variable _generate_codebert_embedding : Snippet -> option embedding.
Variable _generate_graphcodebert_embedding : Snippet -> option embedding.
Variable _generate_sentence_embedding : Snippet -> option embedding.
Variable _generate_codebert_query_embedding : string -> option embedding.
Variable _generate_sentence_query_embedding : string -> option embedding.

(** [EmbeddingGenerator.generate_embedding] *)
Definition generate_embedding (snippet : Snippet) (model_type : string)
    : option embedding :=
  if String.eqb model_type "codebert"
  then _generate_codebert_embedding snippet
  else if String.eqb model_type "graphcodebert"
  then _generate_graphcodebert_embedding snippet
  else if String.eqb model_type "sentence"
  then _generate_sentence_embedding snippet
  else if String.eqb model_type "hybrid"
  then _generate_hybrid_embedding _generate_codebert_embedding
         _generate_sentence_embedding snippet
  else _generate_codebert_embedding snippet.

(** [EmbeddingGenerator.generate_query_embedding] *)
Definition generate_query_embedding (query model_type : string)
    : option embedding :=
  if String.eqb model_type "codebert"
  then _generate_codebert_query_embedding query
  else if String.eqb model_type "sentence"
  then _generate_sentence_query_embedding query
  else _generate_sentence_query_embedding query.

(** [EmbeddingGenerator.generate_batch_embeddings] *)
Definition generate_batch_embeddings (snippets : list Snippet)
    (model_type : string) : list (string * embedding) :=
  fold_left
    (fun embeddings snippet =>
       match generate_embedding snippet model_type with
       | Some (x :: v) => dict_set (snippet_id snippet) (x :: v) embeddings
       | _ => embeddings
       end)
    snippets [].

End Dispatch.

End EmbeddingDispatch.

(* ===================================================================== *)
(** * Notions used to state the properties *)
(* ===================================================================== *)

Module Notions.
Import PyStr PyList PyExn.

Local Open Scope list_scope.
Local Open Scope string_scope.

(** The order of the complexity levels. *)
Definition level_rank (level : string) : nat :=
  if String.eqb level "low" then 0
  else if String.eqb level "medium" then 1
  else 2.

(** A string without line break. *)
Definition no_newline (s : string) : Prop :=
  ~ In newline (list_ascii_of_string s).

(** What the line-grouping strategy guarantees of a block of a file of
    [n] lines: a span inside the file, more than 20 significant
    characters, only code lines, and no more lines than the span. *)
Definition block_ok (n : Z) (s : CodeParser.CodeSnippet) : Prop :=
  (1 <= CodeParser.line_start s)%Z
  /\ (CodeParser.line_start s <= CodeParser.line_end s)%Z
  /\ (CodeParser.line_end s <= n)%Z
  /\ (20 < len (strip (CodeParser.content s)))%Z
  /\ Forall (fun line => CodeParser.is_code_line line = true)
       (split_lines (CodeParser.content s))
  /\ (Z.of_nat (List.length (split_lines (CodeParser.content s)))
      <= CodeParser.line_end s - CodeParser.line_start s + 1)%Z.

(** The invariant of the loop of [_parse_generic_file] before line [i]
    of a file of [n] lines. *)
Definition bounds_inv (n i : Z) (st : CodeParser.block_state) : Prop :=
  Forall (block_ok n) (CodeParser.snippets st)
  /\ (1 <= CodeParser.current_start st)%Z
  /\ (CodeParser.current_start st
      + Z.of_nat (List.length (CodeParser.current_block st)) <= i)%Z
  /\ Forall (fun line => CodeParser.is_code_line line = true
                         /\ no_newline line)
       (CodeParser.current_block st).

(** What [_extract_module_snippets] guarantees of a block. *)
Definition module_block_ok (content : string) (s : CodeParser.CodeSnippet)
    : Prop :=
  (CodeParser.line_start s < CodeParser.line_end s)%Z
  /\ CodeParser.content s
     = CodeParser.source_lines content (CodeParser.line_start s)
         (CodeParser.line_end s)
  /\ (10 <= len (strip (CodeParser.content s)))%Z
  /\ CodeParser.type s = "module".

(** A node whose subtree holds further nodes. *)
Definition with_more_nodes (node : CodeParser.py_node)
    (extra : list CodeParser.node_kind) : CodeParser.py_node :=
  {| CodeParser.kind := CodeParser.kind node;
     CodeParser.node_name := CodeParser.node_name node;
     CodeParser.lineno := CodeParser.lineno node;
     CodeParser.end_lineno := CodeParser.end_lineno node;
     CodeParser.docstring := CodeParser.docstring node;
     CodeParser.walk := (CodeParser.walk node ++ extra)%list |}.



(** [part] matches somewhere in [l], case being ignored. *)
Fixpoint occurs_ci (part l : PyStr.chars) : bool :=
  match SemanticSearch.match_ci part l with
  | Some _ => true
  | None =>
      match l with
      | [] => false
      | _ :: l' => occurs_ci part l'
      end
  end.

(** The result [search] builds for a snippet that every query text
    matches with the full score. *)
Definition full_match (s : SemanticSearch.CodeSnippet)
    : SemanticSearch.SearchResult :=
  {| SemanticSearch.snippet := s;
     SemanticSearch.score := 1%Q;
     SemanticSearch.match_type := "exact_name";
     SemanticSearch.highlighted_content := CodeParser.content s |}.


(** The results carried by the answer of the search route; none when
    the answer is an error status. *)
Definition page_results
    (answer : SearchRoute.http SearchRoute.SearchResponse)
    : list SemanticSearch.SearchResult :=
  match answer with
  | SearchRoute.Response response => SearchRoute.results response
  | SearchRoute.HTTPException _ => []
  end.

End Notions.

(* ===================================================================== *)
(** * Further inputs used in the examples *)
(* ===================================================================== *)

Module Inputs.
Import PyStr PyList PyExn.

Local Open Scope list_scope.
Local Open Scope string_scope.

(** A C file without blank or comment lines. *)
Definition dense_c_file : string :=
  "int add(int a, int b) {" ++ nl ++ "  return a + b;" ++ nl ++ "}".

(** Vectors used in the examples on embeddings. *)
Definition three_four : EmbeddingGenerator.embedding := [3%Q; 4%Q].

Definition graph_vector : EmbeddingGenerator.embedding := repeat 1%Q 768.
Definition query_vector : EmbeddingGenerator.embedding := repeat 1%Q 384.

(** Strategies that always produce a vector of a given shape, or none. *)
Definition always {A : Type} (v : EmbeddingGenerator.embedding)
    : A -> option EmbeddingGenerator.embedding :=
  fun _ => Some v.

Definition never {A : Type} : A -> option EmbeddingGenerator.embedding :=
  fun _ => None.


(** A result as the search service builds it: default boosts, a snippet
    of the declared model (no repository attribute). *)
Definition sample_snippet (created : option Models.datetime)
    : Models.CodeSnippet :=
  {| Models.content := "def add(a, b):" ++ nl ++ "    return a + b";
     Models.language := "python";
     Models.repository_id := "repo-1";
     Models.code_type := "function";
     Models.name := Some "add";
     Models.parameters := Some ["a"; "b"];
     Models.return_type := None;
     Models.docstring := None;
     Models.complexity_score := 1%Q;
     Models.complexity_level := "simple";
     Models.quality_score := (8 # 10)%Q;
     Models.readability_score := (5 # 10)%Q;
     Models.keywords := ["add"];
     Models.usage_count := 3%Z;
     Models.created_at := created;
     Models.repository_stars := None |}.

Definition sample_result (created : option Models.datetime)
    : Models.SearchResult :=
  {| Models.snippet := sample_snippet created;
     Models.similarity_score := (9 # 10)%Q;
     Models.relevance_score := 0%Q;
     Models.quality_boost := 1%Q;
     Models.popularity_boost := 1%Q;
     Models.recency_boost := 1%Q;
     Models.documentation_boost := 1%Q;
     Models.view_count := 2%Z |}.

(** Stand-in for [math.log10] where no repository is attached and the
    logarithm is never taken. *)
Definition unused_log10 (x : Q) : Q := 0%Q.


(** Two indexed snippets of a small corpus. *)
Definition indexed (id name content : string) (tags : list string)
    : CodeParser.CodeSnippet :=
  {| CodeParser.id := id;
     CodeParser.content := content;
     CodeParser.language := "python";
     CodeParser.file_path := "src/util.py";
     CodeParser.line_start := 1%Z;
     CodeParser.line_end := 2%Z;
     CodeParser.type := "function";
     CodeParser.name := name;
     CodeParser.description := "Function " ++ name;
     CodeParser.complexity := "low";
     CodeParser.quality_score := 6%Q;
     CodeParser.tags := tags |}.

Definition small_corpus : list CodeParser.CodeSnippet :=
  [indexed "s1" "quick_sort" "def quick_sort(xs): return sorted(xs)"
     ["sort"; "list"];
   indexed "s2" "read_file" "def read_file(p): return open(p).read()"
     ["io"]].


(** A template compiler that rejects the templates handed to it, as [re]
    does for a bad escape. *)
Definition rejecting_template (template : string)
    : PyExn.result (string -> string) :=
  PyExn.Raise PyExn.ReError.

End Inputs.

(* ===================================================================== *)
(** * Properties of the list primitives *)
(* ===================================================================== *)

Section SortFacts.
Import PyList.
Context {A : Type}.
Variable key : A -> Q.

Lemma insert_desc_perm (x : A) (l : list A) :
  Permutation (insert_desc key x l) (x :: l).
Proof.
  induction l as [|y l IH]; simpl.
  - apply Permutation_refl.
  - destruct (Qle_bool (key y) (key x)).
    + apply Permutation_refl.
    + eapply perm_trans; [apply perm_skip, IH|apply perm_swap].
Qed.

Lemma sort_desc_perm (l : list A) : Permutation (sort_desc key l) l.
Proof.
  induction l as [|x l IH]; simpl.
  - constructor.
  - eapply perm_trans; [apply insert_desc_perm|now apply perm_skip].
Qed.

Lemma sort_desc_In (l : list A) (x : A) :
  In x (sort_desc key l) <-> In x l.
Proof.
  split; apply Permutation_in;
    [apply sort_desc_perm|apply Permutation_sym, sort_desc_perm].
Qed.

Lemma insert_desc_sorted (x : A) (l : list A) :
  StronglySorted (desc key) l ->
  StronglySorted (desc key) (insert_desc key x l).
Proof.
  induction 1 as [|y l Hs IH Hall]; simpl.
  - repeat constructor.
  - destruct (Qle_bool (key y) (key x)) eqn:E.
    + apply Qle_bool_iff in E.
      constructor; [now constructor|].
      constructor; [exact E|].
      eapply Forall_impl; [|exact Hall].
      intros z Hz. unfold desc in *. now apply Qle_trans with (key y).
    + assert (Hlt : (key x < key y)%Q).
      { apply Qnot_le_lt. intro H. apply Qle_bool_iff in H. congruence. }
      constructor; [exact IH|].
      eapply Permutation_Forall.
      * apply Permutation_sym, insert_desc_perm.
      * constructor; [unfold desc; now apply Qlt_le_weak|exact Hall].
Qed.

Lemma sort_desc_sorted (l : list A) :
  StronglySorted (desc key) (sort_desc key l).
Proof.
  induction l as [|x l IH]; simpl.
  - constructor.
  - now apply insert_desc_sorted.
Qed.

(** Stability: the elements of one score keep their relative order. *)
Lemma insert_desc_filter (q : Q) (x : A) (l : list A) :
  filter (fun y => Qeq_bool (key y) q) (insert_desc key x l)
  = filter (fun y => Qeq_bool (key y) q) (x :: l).
Proof.
  induction l as [|y l IH]; simpl; [reflexivity|].
  destruct (Qle_bool (key y) (key x)) eqn:E; simpl; [reflexivity|].
  rewrite IH. simpl.
  destruct (Qeq_bool (key y) q) eqn:Ey, (Qeq_bool (key x) q) eqn:Ex;
    try reflexivity.
  exfalso.
  apply Qeq_bool_iff in Ey. apply Qeq_bool_iff in Ex.
  assert (H : Qle_bool (key y) (key x) = true).
  { apply Qle_bool_iff. rewrite Ey, Ex. apply Qle_refl. }
  congruence.
Qed.

Lemma sort_desc_stable (q : Q) (l : list A) :
  filter (fun y => Qeq_bool (key y) q) (sort_desc key l)
  = filter (fun y => Qeq_bool (key y) q) l.
Proof.
  induction l as [|x l IH]; simpl; [reflexivity|].
  rewrite insert_desc_filter. simpl. now rewrite IH.
Qed.

Lemma sort_desc_map {B : Type} (f : B -> A) (l : list B) :
  map f (sort_desc (fun b => key (f b)) l) = sort_desc key (map f l).
Proof.
  induction l as [|x l IH]; simpl; [reflexivity|].
  rewrite <- IH. clear IH.
  induction (sort_desc (fun b => key (f b)) l) as [|y s IHs]; simpl;
    [reflexivity|].
  destruct (Qle_bool (key (f y)) (key (f x))); simpl;
    [reflexivity|now rewrite IHs].
Qed.
End SortFacts.

Section SliceFacts.
Import PyList.
Context {A : Type}.

Lemma py_take_nat (n : nat) (l : list A) :
  py_take (Z.of_nat n) l = firstn n l.
Proof.
  unfold py_take, py_slice.
  assert (H0 : slice_bound (Z.of_nat (List.length l)) 0 = 0%Z).
  { unfold slice_bound. simpl. lia. }
  assert (Hn : slice_bound (Z.of_nat (List.length l)) (Z.of_nat n)
               = Z.of_nat (Nat.min n (List.length l))).
  { unfold slice_bound.
    destruct (Z.of_nat n <? 0)%Z eqn:E; [apply Z.ltb_lt in E|]; lia. }
  rewrite H0, Hn. simpl skipn.
  replace (Z.to_nat (Z.of_nat (Nat.min n (List.length l)) - 0))
    with (Nat.min n (List.length l)) by lia.
  destruct (Nat.le_gt_cases n (List.length l)) as [H|H].
  - now rewrite Nat.min_l by lia.
  - rewrite Nat.min_r by lia.
    rewrite firstn_all. symmetry. apply firstn_all2. lia.
Qed.

Lemma py_take_nil (k : Z) : py_take k (@nil A) = [].
Proof. unfold py_take, py_slice. now rewrite skipn_nil, firstn_nil. Qed.

Lemma py_take_prefix (k : Z) (l : list A) :
  exists rest, l = py_take k l ++ rest.
Proof.
  unfold py_take, py_slice.
  assert (H0 : slice_bound (Z.of_nat (List.length l)) 0 = 0%Z).
  { unfold slice_bound. simpl. lia. }
  rewrite H0. simpl skipn.
  eexists. symmetry. apply firstn_skipn.
Qed.


Lemma py_take_In (k : Z) (l : list A) (x : A) :
  In x (py_take k l) -> In x l.
Proof.
  destruct (py_take_prefix k l) as [rest H]. intro Hin.
  rewrite H. apply in_or_app. now left.
Qed.
End SliceFacts.

Lemma StronglySorted_app_l {A : Type} (R : A -> A -> Prop) (l1 l2 : list A) :
  StronglySorted R (l1 ++ l2) -> StronglySorted R l1.
Proof.
  induction l1 as [|x l1 IH]; simpl; intro H; [constructor|].
  inversion H as [|? ? Hs Hall]; subst.
  constructor; [now apply IH|].
  apply Forall_app in Hall. tauto.
Qed.

Lemma py_take_sorted {A : Type} (R : A -> A -> Prop) (k : Z) (l : list A) :
  StronglySorted R l -> StronglySorted R (PyList.py_take k l).
Proof.
  intro H. destruct (py_take_prefix k l) as [rest E].
  rewrite E in H. now apply StronglySorted_app_l in H.
Qed.

Lemma split_on_chars_nonempty (sep : ascii) (l : PyStr.chars) :
  PyStr.split_on_chars sep l <> [].
Proof.
  destruct l as [|c l]; simpl; [discriminate|].
  destruct (Ascii.eqb c sep); [discriminate|].
  destruct (PyStr.split_on_chars sep l); discriminate.
Qed.

Lemma split_lines_nonempty (s : string) : PyStr.split_lines s <> [].
Proof.
  unfold PyStr.split_lines. intro H. apply map_eq_nil in H.
  now apply split_on_chars_nonempty in H.
Qed.

(* ===================================================================== *)
(** * Snippet extractor: quality score *)
(* ===================================================================== *)

Lemma clamp_as_spec (s : Q) :
  (Qmax 1 (Qmin 10 s)
   == if Qle_bool s 1 then 1 else if Qle_bool 10 s then 10 else s)%Q.
Proof.
  destruct (Qle_bool s 1) eqn:E1.
  - apply Qle_bool_iff in E1.
    rewrite Q.max_l; [reflexivity|].
    eapply Qle_trans; [apply Q.le_min_r|exact E1].
  - assert (H1 : (1 < s)%Q).
    { apply Qnot_le_lt. intro H. apply Qle_bool_iff in H. congruence. }
    destruct (Qle_bool 10 s) eqn:E2.
    + apply Qle_bool_iff in E2.
      rewrite Q.min_l by exact E2. rewrite Q.max_r; [reflexivity|].
      discriminate.
    + assert (H2 : (s < 10)%Q).
      { apply Qnot_le_lt. intro H. apply Qle_bool_iff in H. congruence. }
      rewrite Q.min_r by now apply Qlt_le_weak.
      rewrite Q.max_r by now apply Qlt_le_weak. reflexivity.
Qed.

(** C7.  For every snippet content and complexity level the extractor's
    quality score is 7, plus 1 when the line count lies in [5,50] or
    minus 1 when it exceeds 50, plus 0.5 for low or minus 0.5 for high
    complexity, plus 0.5 when the comment-line ratio lies in [0.1,0.3] or
    minus 0.5 when it exceeds 0.5, clamped to [1,10]; the score always
    lies in [1,10]. *)
Theorem quality_score_formula (content complexity : string) :
  (CodeParser._calculate_quality_score content complexity
   == CodeParser.quality_spec (CodeParser.line_count content) complexity
        (CodeParser.comment_ratio content))%Q
  /\ (1 <= CodeParser._calculate_quality_score content complexity)%Q
  /\ (CodeParser._calculate_quality_score content complexity <= 10)%Q.
Proof.
  split; [|split].
  - unfold CodeParser._calculate_quality_score, CodeParser.quality_spec,
      CodeParser.comment_ratio, CodeParser.line_count.
    pose proof (split_lines_nonempty content) as Hne.
    destruct (PyStr.split_lines content) as [|l0 ls] eqn:El;
      [congruence|clear Hne].
    set (n := Z.of_nat (List.length (l0 :: ls))).
    set (r := (inject_Z (CodeParser.count_comment_lines (l0 :: ls))
               / inject_Z n)%Q).
    rewrite clamp_as_spec.
    destruct ((5 <=? n)%Z && (n <=? 50)%Z), (50 <? n)%Z,
      (String.eqb complexity "low"), (String.eqb complexity "high"),
      (Qle_bool (1 # 10) r && Qle_bool r (3 # 10)),
      (negb (Qle_bool r (1 # 2))); reflexivity.
  - unfold CodeParser._calculate_quality_score. apply Q.le_max_l.
  - unfold CodeParser._calculate_quality_score.
    apply Q.max_lub; [discriminate|apply Q.le_min_l].
Qed.

(* ===================================================================== *)
(** * Query processor: normalization *)
(* ===================================================================== *)

Section NormalizeFacts.
Import PyStr QueryProcessor.

Local Open Scope char_scope.

Lemma lower_char_idem (c : ascii) : lower_char (lower_char c) = lower_char c.
Proof. destruct c as [[] [] [] [] [] [] [] []]; reflexivity. Qed.

Lemma lstrip_no_lead (l : chars) : no_lead (lstrip_chars l).
Proof.
  induction l as [|c l IH]; simpl; [exact I|].
  destruct (is_space c) eqn:E; [exact IH|exact E].
Qed.

Lemma lstrip_fix (l : chars) : no_lead l -> lstrip_chars l = l.
Proof. destruct l as [|c l]; simpl; [reflexivity|]. now intros ->. Qed.

Lemma rstrip_snoc (l : chars) (c : ascii) :
  is_space c = false -> rstrip_chars (l ++ [c]) = l ++ [c].
Proof.
  intro Hc. induction l as [|a l IH]; simpl.
  - now rewrite Hc.
  - rewrite IH. destruct (l ++ [c]) eqn:E; [|reflexivity].
    now destruct l.
Qed.

Lemma rstrip_fix (l : chars) : no_trail l -> rstrip_chars l = l.
Proof.
  intros [->|(l0 & c & -> & Hc)]; [reflexivity|now apply rstrip_snoc].
Qed.

Lemma rstrip_no_trail (l : chars) : no_trail (rstrip_chars l).
Proof.
  induction l as [|a l IH]; simpl; [now left|].
  destruct (rstrip_chars l) as [|b r] eqn:E.
  - destruct (is_space a) eqn:Ea; [now left|].
    right. exists [], a. now split.
  - destruct IH as [H|(l0 & c & H & Hc)]; [discriminate|].
    right. exists (a :: l0), c. split; [|exact Hc].
    simpl. now rewrite <- H.
Qed.

Lemma rstrip_no_lead (l : chars) : no_lead l -> no_lead (rstrip_chars l).
Proof.
  destruct l as [|a l]; simpl; [trivial|]. intro Ha.
  destruct (rstrip_chars l); [now rewrite Ha|exact Ha].
Qed.

Lemma strip_no_lead (l : chars) : no_lead (strip_chars l).
Proof. apply rstrip_no_lead, lstrip_no_lead. Qed.

Lemma strip_no_trail (l : chars) : no_trail (strip_chars l).
Proof. apply rstrip_no_trail. Qed.

Lemma strip_fix (l : chars) : no_lead l -> no_trail l -> strip_chars l = l.
Proof.
  intros H1 H2. unfold strip_chars.
  rewrite (lstrip_fix l H1). now apply rstrip_fix.
Qed.

Lemma collapse_from_snoc (b : bool) (l : chars) (c : ascii) :
  is_space c = false ->
  collapse_from b (l ++ [c]) = collapse_from b l ++ [c].
Proof.
  intro Hc. revert b. induction l as [|a l IH]; intro b; simpl.
  - now rewrite Hc.
  - destruct (is_space a); [destruct b|]; simpl; now rewrite IH.
Qed.

Lemma collapse_no_trail (l : chars) : no_trail l -> no_trail (collapse_ws l).
Proof.
  intros [->|(l0 & c & -> & Hc)]; [now left|].
  right. exists (collapse_from false l0), c. split; [|exact Hc].
  now apply collapse_from_snoc.
Qed.

Lemma collapse_no_lead (l : chars) : no_lead l -> no_lead (collapse_ws l).
Proof.
  destruct l as [|a l]; simpl; [trivial|]. intro Ha.
  unfold collapse_ws. simpl. now rewrite Ha.
Qed.

Lemma collapse_single (b : bool) (l : chars) : single b (collapse_from b l).
Proof.
  revert b. induction l as [|a l IH]; intro b; simpl; [exact I|].
  destruct (is_space a) eqn:Ea.
  - destruct b; [apply IH|]. simpl. repeat split. apply IH.
  - simpl. rewrite Ea. apply IH.
Qed.

Lemma single_fix (b : bool) (l : chars) : single b l -> collapse_from b l = l.
Proof.
  revert b. induction l as [|a l IH]; intro b; simpl; [reflexivity|].
  destruct (is_space a) eqn:Ea.
  - intros (-> & -> & H). f_equal. now apply IH.
  - intro H. f_equal. now apply IH.
Qed.

Lemma collapse_idem (l : chars) :
  collapse_ws (collapse_ws l) = collapse_ws l.
Proof. apply single_fix, collapse_single. Qed.

Lemma plain_space : plain " ".
Proof. split; reflexivity. Qed.

Lemma keep_syntax_plain (l : chars) :
  Forall (fun c => lower_char c = c) l -> Forall plain (keep_syntax l).
Proof.
  induction 1 as [|c l Hc _ IH]; simpl; constructor; [|exact IH].
  destruct (is_syntax c) eqn:E; [now split|apply plain_space].
Qed.

Lemma lower_chars_lowered (l : chars) :
  Forall (fun c => lower_char c = c) (lower_chars l).
Proof.
  induction l; simpl; constructor; [apply lower_char_idem|assumption].
Qed.

Lemma lstrip_Forall (P : ascii -> Prop) (l : chars) :
  Forall P l -> Forall P (lstrip_chars l).
Proof.
  induction 1 as [|c l Hc Hl IH]; simpl; [constructor|].
  destruct (is_space c); [exact IH|now constructor].
Qed.

Lemma rstrip_Forall (P : ascii -> Prop) (l : chars) :
  Forall P l -> Forall P (rstrip_chars l).
Proof.
  induction 1 as [|c l Hc Hl IH]; simpl; [constructor|].
  destruct (rstrip_chars l).
  - destruct (is_space c); repeat constructor; assumption.
  - now constructor.
Qed.

Lemma collapse_Forall (P : ascii -> Prop) (b : bool) (l : chars) :
  P " " -> Forall P l -> Forall P (collapse_from b l).
Proof.
  intros Hsp H. revert b.
  induction H as [|c l Hc Hl IH]; intro b; simpl; [constructor|].
  destruct (is_space c); [destruct b|]; try constructor; auto.
Qed.

Lemma normalize_plain (l : chars) : Forall plain (normalize_chars l).
Proof.
  unfold normalize_chars, collapse_ws, strip_chars.
  apply collapse_Forall; [apply plain_space|].
  apply rstrip_Forall, lstrip_Forall, keep_syntax_plain, lower_chars_lowered.
Qed.

Lemma lower_chars_fix (l : chars) : Forall plain l -> lower_chars l = l.
Proof.
  induction 1 as [|c l [Hc _] _ IH]; simpl; [reflexivity|].
  now rewrite Hc, IH.
Qed.

Lemma keep_syntax_fix (l : chars) : Forall plain l -> keep_syntax l = l.
Proof.
  induction 1 as [|c l [_ Hc] _ IH]; simpl; [reflexivity|].
  now rewrite Hc, IH.
Qed.

(** A list that is already stripped, collapsed and plain is a fixed
    point of the normalization. *)
Lemma normalize_fix (l : chars) :
  no_lead l -> no_trail l -> collapse_ws l = l -> Forall plain l ->
  normalize_chars l = l.
Proof.
  intros H1 H2 H3 H4. unfold normalize_chars.
  rewrite (strip_fix H1 H2), H3, (lower_chars_fix H4), (keep_syntax_fix H4).
  now rewrite (strip_fix H1 H2).
Qed.

Lemma normalize_chars_idem (l : chars) :
  normalize_chars (normalize_chars l) = normalize_chars l.
Proof.
  apply normalize_fix.
  - apply collapse_no_lead, strip_no_lead.
  - apply collapse_no_trail, strip_no_trail.
  - apply collapse_idem.
  - apply normalize_plain.
Qed.
End NormalizeFacts.

(** C8.  Query normalization is idempotent: normalizing an already
    normalized query returns it unchanged. *)
Theorem normalize_query_idempotent (query : string) :
  QueryProcessor._normalize_query (QueryProcessor._normalize_query query)
  = QueryProcessor._normalize_query query.
Proof.
  unfold QueryProcessor._normalize_query.
  rewrite list_ascii_of_string_of_list_ascii.
  now rewrite normalize_chars_idem.
Qed.


(* ===================================================================== *)
(** * Snippet extractor: line spans *)
(* ===================================================================== *)

Section GenericSpans.
Import PyStr CodeParser.
Variable _extract_tags : string -> string -> list string.
Variables (file_path language : string).

Local Open Scope Z_scope.

Lemma block_snippet_span (block : list string) (a b : Z) (s : CodeSnippet) :
  block_snippet _extract_tags file_path language block a b = Some s ->
  line_start s = a /\ line_end s = b /\ content s = join nl block.
Proof.
  unfold block_snippet.
  destruct (20 <? len (strip (join nl block))); [|discriminate].
  intro H. inversion H. simpl. auto.
Qed.

Lemma append_opt_ordered (l : list CodeSnippet) (block : list string)
    (a b : Z) :
  Forall ordered l -> a <= b ->
  Forall ordered
    (append_opt l (block_snippet _extract_tags file_path language block a b)).
Proof.
  intros Hl Hab.
  destruct (block_snippet _extract_tags file_path language block a b)
    as [s|] eqn:E; simpl; [|exact Hl].
  apply Forall_app. split; [exact Hl|].
  constructor; [|constructor].
  apply block_snippet_span in E as (Ha & Hb & _).
  unfold ordered. lia.
Qed.

Lemma generic_step_inv (i : Z) (line : string) (st : block_state) :
  loop_inv i st ->
  loop_inv (i + 1) (generic_step _extract_tags file_path language st (i, line)).
Proof.
  intros [Hs Hb]. unfold generic_step.
  destruct (is_code_line line).
  - split; simpl; [exact Hs|]. rewrite length_app. simpl. lia.
  - destruct (current_block st) as [|l0 block] eqn:E.
    + split; [exact Hs|]. rewrite E. simpl. lia.
    + split; simpl; [|lia].
      apply append_opt_ordered; [exact Hs|].
      simpl in Hb. lia.
Qed.

Lemma generic_fold_inv (lines : list string) (i : Z) (st : block_state) :
  loop_inv i st ->
  loop_inv (i + Z.of_nat (List.length lines))
    (fold_left (generic_step _extract_tags file_path language)
       (enumerate i lines) st).
Proof.
  revert i st. induction lines as [|line lines IH]; intros i st H; simpl.
  - now rewrite Z.add_0_r.
  - replace (i + Z.pos (Pos.of_succ_nat (List.length lines)))
      with ((i + 1) + Z.of_nat (List.length lines)) by lia.
    apply IH. now apply generic_step_inv.
Qed.

(** The line-grouping strategy never reports a span that ends before it
    starts. *)
Lemma generic_spans_ordered (content : string) :
  Forall ordered (_parse_generic_file _extract_tags content file_path language).
Proof.
  unfold _parse_generic_file.
  pose proof (@generic_fold_inv (split_lines content) 1
                {| snippets := []; current_block := []; current_start := 1 |})
    as H.
  destruct H as [Hs Hb]; [split; simpl; [constructor|lia]|].
  destruct (current_block _) as [|l0 block] eqn:E; [exact Hs|].
  apply append_opt_ordered; [exact Hs|].
  change (List.length (l0 :: block)) with (S (List.length block)) in Hb.
  rewrite Nat2Z.inj_succ in Hb. lia.
Qed.

(** A definition found by the structural strategy carries exactly the
    source lines of its span. *)
Lemma python_node_content_exact (node : py_node) (content : string)
    (s : CodeSnippet) :
  _extract_python_node _extract_tags node content file_path = Some s ->
  CodeParser.content s = source_lines content (line_start s) (line_end s).
Proof.
  unfold _extract_python_node, source_lines.
  destruct (kind node); try discriminate; intro H; inversion H; reflexivity.
Qed.

Lemma count_newlines_prefix (content : string) (a b : Z) :
  0 <= a <= b ->
  count_newlines (str_slice 0 a content)
  <= count_newlines (str_slice 0 b content).
Proof.
  intros [Ha Hab]. unfold count_newlines, str_slice.
  rewrite !list_ascii_of_string_of_list_ascii.
  set (l := list_ascii_of_string content).
  change (PyList.py_slice 0 a l) with (PyList.py_take a l).
  change (PyList.py_slice 0 b l) with (PyList.py_take b l).
  rewrite <- (Z2Nat.id a), <- (Z2Nat.id b) by lia.
  rewrite !py_take_nat.
  assert (Hmin : Nat.min (Z.to_nat a) (Z.to_nat b) = Z.to_nat a) by lia.
  rewrite <- Hmin, <- firstn_firstn.
  set (l' := firstn (Z.to_nat b) l).
  rewrite <- (firstn_skipn (Z.to_nat a) l') at 2.
  rewrite filter_app, length_app. lia.
Qed.

(** The pattern-based strategy reports an ordered span for every match
    that ends where or after it starts. *)
Lemma js_snippet_ordered (content code_type label : string) (m : re_match) :
  0 <= m_start m <= m_end m ->
  ordered
    (js_snippet _extract_tags content file_path language code_type label m).
Proof.
  intro H. unfold ordered, js_snippet. simpl.
  pose proof (count_newlines_prefix content H). lia.
Qed.

End GenericSpans.

(** C3.  The claim asks of every snippet that [start_line <= end_line]
    and that its content be the source lines of that span.  On a C file
    whose first line is a comment the line-grouping strategy reports the
    span 1..2 for a block that holds line 2 only: the start of the span
    was not moved past the skipped line, so the content is not the text
    of lines 1 to 2. *)
Theorem generic_block_span_mismatch (tags : string -> string -> list string) :
  map (fun s => (CodeParser.line_start s, CodeParser.line_end s,
                 CodeParser.content s, CodeParser.description s))
      (CodeParser._parse_generic_file tags Scenarios.commented_c_file
         "main.c" "c")
  = [(1%Z, 2%Z, "int main() { return 0; }"%string,
      "Code block starting at line 1"%string)]
  /\ CodeParser.source_lines Scenarios.commented_c_file 1 2
     <> "int main() { return 0; }"%string.
Proof.
  split; [reflexivity|].
  vm_compute. discriminate.
Qed.

(* ===================================================================== *)
(** * Snippet extractor: files that do not parse *)
(* ===================================================================== *)

(** C4 (as amended).  When the structural parse of a Python file fails,
    with a syntax error or any other exception, [parse_file] does not
    raise and hands the caller the empty list: no other strategy is tried
    on the file. *)
Theorem parse_failure_yields_no_snippets
    (tags : string -> string -> list string)
    (finditer : string -> string -> list CodeParser.re_match)
    (ast_parse : string -> CodeParser.ast_result)
    (fs : string -> option CodeParser.file)
    (file_path : string) (f : CodeParser.file) (content : string) :
  fs file_path = Some f ->
  CodeParser.lookup (PyStr.lower (CodeParser.suffix f))
    CodeParser.supported_extensions = Some "python"%string ->
  CodeParser.read f = Some content ->
  (forall nodes, ast_parse content <> CodeParser.AstOk nodes) ->
  CodeParser.parse_file tags finditer ast_parse fs file_path = [].
Proof.
  intros Hfs Hext Hread Hfail.
  unfold CodeParser.parse_file, CodeParser._parse_python_file.
  rewrite Hfs, Hext, Hread. simpl.
  destruct (ast_parse content) as [nodes| |] eqn:E; try reflexivity.
  now destruct (Hfail nodes).
Qed.

Lemma parse_failure_yields_no_snippets_witness :
  CodeParser.parse_file Scenarios.no_tags Scenarios.no_matches
    Scenarios.syntax_error_parser
    (Scenarios.one_file "broken.py" ".py" Scenarios.broken_py_file)
    "broken.py" = [].
Proof.
  apply (@parse_failure_yields_no_snippets
           Scenarios.no_tags Scenarios.no_matches
           Scenarios.syntax_error_parser
           (Scenarios.one_file "broken.py" ".py" Scenarios.broken_py_file)
           "broken.py"%string
           {| CodeParser.path_str := "broken.py";
              CodeParser.suffix := ".py";
              CodeParser.read := Some Scenarios.broken_py_file |}
           Scenarios.broken_py_file).
  - reflexivity.
  - reflexivity.
  - reflexivity.
  - intros nodes. discriminate.
Defined.

(** C4 (as stated) fails: on a Python file that does not parse the caller
    receives nothing, although the generic block strategy produces a
    snippet for the same file. *)
Lemma parse_failure_no_generic_fallback :
  CodeParser.parse_file Scenarios.no_tags Scenarios.no_matches
    Scenarios.syntax_error_parser
    (Scenarios.one_file "broken.py" ".py" Scenarios.broken_py_file)
    "broken.py" = []
  /\ map (fun s => (CodeParser.line_start s, CodeParser.line_end s))
       (CodeParser._parse_generic_file Scenarios.no_tags
          Scenarios.broken_py_file "broken.py" "python")
     = [(1%Z, 2%Z)].
Proof. split; reflexivity. Qed.


(* ===================================================================== *)
(** * Query processor: failures inside [process_query] *)
(* ===================================================================== *)

Section ProcessQuery.
Import PyExn Models QueryProcessor.

Lemma process_query_runs_steps (S : stages) (q : SearchQuery) :
  process_query S q = Ok (run_steps (steps_of S) q).
Proof.
  unfold process_query, process_query_body, steps_of, run_steps,
    keywords_step, intent_step, expansion_step, topics_step,
    normalization_step, on_result, bind, call, get_query, get_expand_query,
    set_query, set_intent, set_query_keywords, set_query_topics, ret,
    expanded_text.
  destruct (extract_keywords S (query q)) as [kw|e]; simpl; [|reflexivity].
  destruct (detect_intent S (query q)) as [i|e]; simpl; [|reflexivity].
  destruct (expand_query q); simpl.
  - destruct (expand S (query q)) as [terms|e]; simpl; [|reflexivity].
    destruct (extract_topics S _) as [topics|e]; simpl; [|reflexivity].
    destruct (normalize S _) as [text|e]; reflexivity.
  - destruct (extract_topics S (query q)) as [topics|e]; simpl;
      [|reflexivity].
    destruct (normalize S (query q)) as [text|e]; reflexivity.
Qed.

(** Topic extraction of the repository's processor raises on every
    query: the global it reads is not bound in its module. *)
Lemma extract_topics_raises (text : string) :
  _extract_topics text = Raise NameError.
Proof. reflexivity. Qed.

(** Hence the processor hands back, for every query, the text as the
    expansion stage left it; topics are never set and the text is never
    normalized. *)
Lemma processor_skips_normalization
    (intent_classifier : option (string -> result string))
    (list_set : list string -> list string) (q : SearchQuery) :
  process_query (processor_stages intent_classifier list_set) q
  = Ok (let q1 :=
          with_intent (_detect_intent intent_classifier (query q))
            (with_query_keywords (_extract_keywords list_set (query q)) q) in
        if expand_query q
        then with_query (expanded_text (query q) (_expand_query (query q))) q1
        else q1).
Proof.
  rewrite process_query_runs_steps.
  unfold steps_of, run_steps, keywords_step, intent_step, expansion_step,
    topics_step, on_result, processor_stages.
  cbn [extract_keywords detect_intent expand extract_topics].
  cbn [with_intent with_query_keywords query expand_query].
  destruct (expand_query q); cbn [with_query query];
    now rewrite extract_topics_raises.
Qed.

End ProcessQuery.

(** C10.  [process_query] never raises, and it is not atomic: it returns
    the query object as the stages that ran before the first failing one
    left it, the later stages being skipped.  In particular, when topic
    extraction raises, the returned query carries the keywords, the
    intent and the expanded text, and the text has not gone through
    normalization. *)
Theorem process_query_not_atomic (S : QueryProcessor.stages)
    (q : Models.SearchQuery) :
  QueryProcessor.process_query S q
  = PyExn.Ok (QueryProcessor.run_steps (QueryProcessor.steps_of S) q)
  /\ (forall kw i terms e,
        QueryProcessor.extract_keywords S (Models.query q) = PyExn.Ok kw ->
        QueryProcessor.detect_intent S (Models.query q) = PyExn.Ok i ->
        Models.expand_query q = true ->
        QueryProcessor.expand S (Models.query q) = PyExn.Ok terms ->
        QueryProcessor.extract_topics S
          (QueryProcessor.expanded_text (Models.query q) terms)
        = PyExn.Raise e ->
        QueryProcessor.process_query S q
        = PyExn.Ok
            {| Models.query :=
                 QueryProcessor.expanded_text (Models.query q) terms;
               Models.intent := i;
               Models.languages := Models.languages q;
               Models.repositories := Models.repositories q;
               Models.complexity_levels := Models.complexity_levels q;
               Models.expand_query := true;
               Models.query_keywords := kw;
               Models.query_topics := Models.query_topics q |}).
Proof.
  split; [apply process_query_runs_steps|].
  intros kw i terms e Hkw Hi Hx Hterms Htopics.
  rewrite process_query_runs_steps.
  unfold QueryProcessor.steps_of, QueryProcessor.run_steps,
    QueryProcessor.keywords_step, QueryProcessor.intent_step,
    QueryProcessor.expansion_step, QueryProcessor.topics_step,
    QueryProcessor.on_result.
  rewrite Hkw. simpl. rewrite Hi. simpl. rewrite Hx, Hterms. simpl.
  rewrite Htopics. unfold QueryProcessor.with_query. simpl.
  now rewrite Hx.
Qed.

(** The processor of the repository on the query ["Sort List!"]: topic
    extraction raises [NameError], and the text handed back is the
    expanded one, which normalization would have changed. *)
Lemma process_query_not_atomic_witness :
  QueryProcessor.process_query Scenarios.rule_based_stages
    Scenarios.sort_query
  = PyExn.Ok
      {| Models.query := "Sort List! sorting order arrange";
         Models.intent := Some Models.FIND_ALGORITHM;
         Models.languages := [];
         Models.repositories := [];
         Models.complexity_levels := [];
         Models.expand_query := true;
         Models.query_keywords := ["sort"; "list"]%string;
         Models.query_topics := [] |}
  /\ QueryProcessor._normalize_query "Sort List! sorting order arrange"
     = "sort list sorting order arrange"%string.
Proof.
  split; [|reflexivity].
  apply (proj2 (process_query_not_atomic Scenarios.rule_based_stages
                  Scenarios.sort_query)
           ["sort"; "list"]%string (Some Models.FIND_ALGORITHM)
           ["sorting"; "order"; "arrange"]%string PyExn.NameError);
    reflexivity.
Defined.


(* ===================================================================== *)
(** * Embedding index: the hybrid strategy *)
(* ===================================================================== *)

Section HybridFacts.
Import PyExn EmbeddingGenerator.
Variable Snippet : Type.
Variables codebert sentence : Snippet -> option embedding.

(** No strategy produces a vector: no vector. *)
Lemma hybrid_none (snippet : Snippet) :
  truthy (codebert snippet) = false -> truthy (sentence snippet) = false ->
  _generate_hybrid_embedding codebert sentence snippet = None.
Proof.
  unfold _generate_hybrid_embedding, append_if_truthy, truthy.
  destruct (codebert snippet) as [[|x v]|], (sentence snippet) as [[|y w]|];
    intros; try discriminate; reflexivity.
Qed.

(** Exactly one strategy produces a vector: that vector, unchanged. *)
Lemma hybrid_single_codebert (snippet : Snippet) (v : embedding) :
  codebert snippet = Some v -> truthy (Some v) = true ->
  truthy (sentence snippet) = false ->
  _generate_hybrid_embedding codebert sentence snippet = Some v.
Proof.
  unfold _generate_hybrid_embedding, append_if_truthy, truthy.
  intros ->. destruct v as [|x v]; [discriminate|]. intros _.
  destruct (sentence snippet) as [[|y w]|]; intros; try discriminate;
    reflexivity.
Qed.

Lemma hybrid_single_sentence (snippet : Snippet) (v : embedding) :
  sentence snippet = Some v -> truthy (Some v) = true ->
  truthy (codebert snippet) = false ->
  _generate_hybrid_embedding codebert sentence snippet = Some v.
Proof.
  unfold _generate_hybrid_embedding, append_if_truthy, truthy.
  intros ->. destruct v as [|x v]; [discriminate|]. intros _.
  destruct (codebert snippet) as [[|y w]|]; intros; try discriminate;
    reflexivity.
Qed.

(** Both strategies produce vectors of one length: their average. *)
Lemma hybrid_average (snippet : Snippet) (a b : embedding) :
  codebert snippet = Some a -> sentence snippet = Some b ->
  a <> [] -> List.length b = List.length a ->
  _generate_hybrid_embedding codebert sentence snippet
  = Some (map (fun x => (x / 2)%Q) (vec_add a b)).
Proof.
  unfold _generate_hybrid_embedding, append_if_truthy.
  intros -> -> Ha Hlen.
  destruct a as [|x a]; [congruence|].
  destruct b as [|y b]; [discriminate|].
  cbv [app]. unfold np_mean_axis0, same_shape. cbv [forallb].
  rewrite Hlen, Nat.eqb_refl. reflexivity.
Qed.

End HybridFacts.

(** C5.  The claim asks for the average whenever more than one strategy
    produces a vector.  The two strategies behind the hybrid one produce
    vectors of 768 and of 384 components, which numpy cannot average:
    the exception is swallowed and the hybrid strategy returns no vector
    although both strategies succeeded. *)
Theorem hybrid_mismatched_dimensions (Snippet : Type)
    (codebert sentence : Snippet -> option EmbeddingGenerator.embedding)
    (snippet : Snippet) (a b : EmbeddingGenerator.embedding) :
  codebert snippet = Some a ->
  sentence snippet = Some b ->
  Z.of_nat (List.length a)
  = EmbeddingGenerator.get_embedding_dimension "codebert" ->
  Z.of_nat (List.length b)
  = EmbeddingGenerator.get_embedding_dimension "sentence" ->
  EmbeddingGenerator._generate_hybrid_embedding codebert sentence snippet
  = None.
Proof.
  unfold EmbeddingGenerator._generate_hybrid_embedding,
    EmbeddingGenerator.append_if_truthy.
  intros -> -> Ha Hb.
  change (EmbeddingGenerator.get_embedding_dimension "codebert")
    with 768%Z in Ha.
  change (EmbeddingGenerator.get_embedding_dimension "sentence")
    with 384%Z in Hb.
  destruct a as [|x a]; [discriminate|].
  destruct b as [|y b]; [discriminate|].
  cbv [app]. unfold EmbeddingGenerator.np_mean_axis0,
    EmbeddingGenerator.same_shape. cbv [forallb].
  replace (List.length (y :: b) =? List.length (x :: a))%nat with false;
    [reflexivity|].
  symmetry. apply Nat.eqb_neq. lia.
Qed.

Lemma hybrid_mismatched_dimensions_witness :
  EmbeddingGenerator._generate_hybrid_embedding
    (fun _ : unit => Some Scenarios.codebert_vector)
    (fun _ : unit => Some Scenarios.sentence_vector) tt
  = None.
Proof.
  apply (@hybrid_mismatched_dimensions unit
           (fun _ => Some Scenarios.codebert_vector)
           (fun _ => Some Scenarios.sentence_vector) tt
           Scenarios.codebert_vector Scenarios.sentence_vector);
    reflexivity.
Defined.

(* ===================================================================== *)
(** * Embedding index: nearest neighbours *)
(* ===================================================================== *)

Section SimilarFacts.
Import PyList EmbeddingGenerator.
Variable sqrt : Q -> Q.

Lemma similarities_above_In (query_embedding : embedding)
    (snippet_embeddings : list (string * embedding)) (threshold : Q)
    (snippet_id : string) (similarity : Q) :
  In (snippet_id, similarity)
     (similarities_above sqrt query_embedding snippet_embeddings threshold)
  <-> exists e,
        In (snippet_id, e) snippet_embeddings
        /\ calculate_similarity sqrt query_embedding e = Some similarity
        /\ (threshold <= similarity)%Q.
Proof.
  unfold similarities_above. rewrite in_flat_map. split.
  - intros ([i e] & Hin & H). simpl in H.
    destruct (calculate_similarity sqrt query_embedding e) as [s|] eqn:Es;
      [|contradiction].
    destruct (Qle_bool threshold s) eqn:Et; [|contradiction].
    destruct H as [H|[]]. inversion H; subst.
    exists e. repeat split; auto. now apply Qle_bool_iff.
  - intros (e & Hin & Hs & Ht).
    exists (snippet_id, e). split; [exact Hin|]. simpl. rewrite Hs.
    apply Qle_bool_iff in Ht. rewrite Ht. now left.
Qed.

End SimilarFacts.

(** C6 (as amended).  For every query embedding, mapping, threshold and
    [k >= 0], the lookup returns the first [k] of the pairs whose
    similarity reaches the threshold, sorted by descending similarity;
    pairs of equal similarity keep the iteration order of the mapping
    (no order on snippet IDs is applied). *)
Theorem find_similar_snippets_ranking (sqrt : Q -> Q)
    (query_embedding : EmbeddingGenerator.embedding)
    (snippet_embeddings : list (string * EmbeddingGenerator.embedding))
    (k : nat) (threshold : Q) :
  let hits :=
    EmbeddingGenerator.similarities_above sqrt query_embedding
      snippet_embeddings threshold in
  let ranked := PyList.sort_desc (fun x => snd x) hits in
  (forall snippet_id similarity,
      In (snippet_id, similarity) hits
      <-> exists e,
            In (snippet_id, e) snippet_embeddings
            /\ EmbeddingGenerator.calculate_similarity sqrt
                 query_embedding e = Some similarity
            /\ (threshold <= similarity)%Q)
  /\ EmbeddingGenerator.find_similar_snippets sqrt query_embedding
       snippet_embeddings (Z.of_nat k) threshold
     = firstn k ranked
  /\ Permutation ranked hits
  /\ StronglySorted (PyList.desc (fun x => snd x)) ranked
  /\ (forall s,
        filter (fun x => Qeq_bool (snd x) s) ranked
        = filter (fun x => Qeq_bool (snd x) s) hits).
Proof.
  intros hits ranked. repeat split.
  - now apply similarities_above_In.
  - now apply similarities_above_In.
  - unfold EmbeddingGenerator.find_similar_snippets. apply py_take_nat.
  - apply sort_desc_perm.
  - apply sort_desc_sorted.
  - intro s. apply sort_desc_stable.
Qed.

(** C6 (as stated) fails: two snippets with the same embedding come back
    in the order of the mapping, ID ["b"] before ID ["a"]. *)
Lemma find_similar_ties_not_by_id :
  map fst
    (EmbeddingGenerator.find_similar_snippets EmbeddingGenerator.sqrt_exact
       [1; 0]%Q Scenarios.twin_embeddings 10 (1#2))
  = ["b"; "a"]%string
  /\ EmbeddingGenerator.ties_by_id
       (EmbeddingGenerator.find_similar_snippets
          EmbeddingGenerator.sqrt_exact [1; 0]%Q Scenarios.twin_embeddings
          10 (1#2))
     = false.
Proof. split; reflexivity. Qed.

(* ===================================================================== *)
(** * Ranking engine: the relevance score *)
(* ===================================================================== *)

Section RankingFacts.
Import PyList Models RankingEngine.
Variable weights : SEARCH_WEIGHTS.
Variable utcnow : Z.
Variable log10 : Q -> Q.

Local Open Scope Q_scope.

Lemma weighted_sum_set_relevance (result : SearchResult) (score : Q)
    (query : SearchQuery) :
  weighted_sum weights utcnow log10 (set_relevance_score result score) query
  = weighted_sum weights utcnow log10 result query.
Proof. reflexivity. Qed.

Lemma apply_boost_caps (query : SearchQuery) (result : SearchResult) :
  quality_boost (apply_boost query result) <= 2
  /\ popularity_boost (apply_boost query result) <= 15#10
  /\ recency_boost (apply_boost query result) <= 13#10
  /\ documentation_boost (apply_boost query result) <= 12#10.
Proof. unfold apply_boost; simpl. repeat split; apply Q.le_min_r. Qed.

End RankingFacts.

(** C1.  After [apply_boosts] and [rank_results], the relevance score of
    every result is the sum of its six sub-scores (semantic similarity,
    keyword, quality, popularity, recency, documentation), each
    multiplied by its configured weight, multiplied by the four boost
    factors of the result and capped at 1.  The boosts are those of the
    result as it was given, capped at 2 (quality, after the
    query-specific multipliers), 1.5 (popularity), 1.3 (recency) and 1.2
    (documentation); the score is at most 1; and the ranked list holds
    the boosted results in descending order of that score. *)
Theorem ranking_score_formula (weights : RankingEngine.SEARCH_WEIGHTS)
    (utcnow : Z) (log10 : Q -> Q) (results : list Models.SearchResult)
    (query : Models.SearchQuery) :
  let ranked :=
    RankingEngine.rank_results weights utcnow log10
      (RankingEngine.apply_boosts results query) query in
  Forall
    (fun r =>
       Models.relevance_score r
       = Qmin ((Models.similarity_score r
                * RankingEngine.semantic_similarity weights
                + RankingEngine._calculate_keyword_score r query
                  * RankingEngine.keyword_match weights
                + RankingEngine._calculate_quality_score r
                  * RankingEngine.code_quality weights
                + RankingEngine._calculate_popularity_score log10 r
                  * RankingEngine.popularity weights
                + RankingEngine._calculate_recency_score utcnow r
                  * RankingEngine.recency weights
                + RankingEngine._calculate_documentation_score r
                  * RankingEngine.documentation weights)
               * Models.quality_boost r * Models.popularity_boost r
               * Models.recency_boost r * Models.documentation_boost r) 1
       /\ (Models.quality_boost r <= 2)%Q
       /\ (Models.popularity_boost r <= 15#10)%Q
       /\ (Models.recency_boost r <= 13#10)%Q
       /\ (Models.documentation_boost r <= 12#10)%Q
       /\ (Models.relevance_score r <= 1)%Q
       /\ exists given,
            In given results
            /\ Models.snippet r = Models.snippet given
            /\ Models.similarity_score r = Models.similarity_score given
            /\ Models.quality_boost r
               = Models.quality_boost
                   (RankingEngine.apply_boost query given)
            /\ Models.popularity_boost r
               = Qmin (Models.popularity_boost given) (15#10)
            /\ Models.recency_boost r
               = Qmin (Models.recency_boost given) (13#10)
            /\ Models.documentation_boost r
               = Qmin (Models.documentation_boost given) (12#10))
    ranked
  /\ Permutation ranked
       (map (fun r =>
               let boosted := RankingEngine.apply_boost query r in
               RankingEngine.set_relevance_score boosted
                 (RankingEngine._calculate_relevance_score weights utcnow
                    log10 boosted query))
          results)
  /\ StronglySorted (PyList.desc Models.relevance_score) ranked.
Proof.
  intro ranked. subst ranked.
  unfold RankingEngine.rank_results, RankingEngine.apply_boosts.
  rewrite map_map.
  split; [|split].
  - eapply Permutation_Forall;
      [apply Permutation_sym, sort_desc_perm|].
    apply Forall_forall. intros r Hin. apply in_map_iff in Hin.
    destruct Hin as (r0 & <- & Hr0).
    destruct (apply_boost_caps query r0) as (Hq & Hp & Hr & Hd).
    split.
    { unfold RankingEngine._calculate_relevance_score,
        RankingEngine.weighted_sum,
        RankingEngine._calculate_keyword_score,
        RankingEngine._calculate_quality_score,
        RankingEngine._calculate_popularity_score,
        RankingEngine._calculate_recency_score,
        RankingEngine._calculate_documentation_score.
      cbn [RankingEngine.set_relevance_score Models.snippet
           Models.similarity_score Models.relevance_score
           Models.quality_boost Models.popularity_boost
           Models.recency_boost Models.documentation_boost
           Models.view_count].
      reflexivity. }
    repeat split; try assumption.
    + simpl. unfold RankingEngine._calculate_relevance_score.
      apply Q.le_min_r.
    + exists r0. repeat split. exact Hr0.
  - apply sort_desc_perm.
  - apply sort_desc_sorted.
Qed.


(* ===================================================================== *)
(** * Search orchestrator: the lexical score *)
(* ===================================================================== *)

Section LexicalScore.
Import PyStr SemanticSearch.

Local Open Scope Q_scope.

Lemma fold_hits {A : Type} (w : A -> Q) (f : Q -> A -> Q) :
  (forall x a, f x a == x + w a) ->
  forall l x, fold_left f l x == x + sumQ (map w l).
Proof.
  intros Hf l. induction l as [|a l IH]; intro x; simpl.
  - ring.
  - rewrite IH, Hf. ring.
Qed.

Lemma cap_as_spec (s raw : Q) :
  s == raw -> Qmin 1 s == if Qle_bool 1 raw then 1 else raw.
Proof.
  intro H. destruct (Qle_bool 1 raw) eqn:E.
  - apply Qle_bool_iff in E. apply Q.min_l. now rewrite H.
  - assert (Hlt : raw < 1).
    { apply Qnot_le_lt. intro Hle. apply Qle_bool_iff in Hle. congruence. }
    rewrite Q.min_r; [exact H|]. rewrite H. now apply Qlt_le_weak.
Qed.

(** The score computed by the code is the additive rule of the
    specification. *)
Lemma lexical_score_as_spec (snippet : CodeSnippet) (query : string) :
  _calculate_relevance_score snippet query
  == lexical_score_spec snippet query.
Proof.
  unfold _calculate_relevance_score, lexical_score_spec.
  apply cap_as_spec.
  rewrite (fold_hits
             (fun token =>
                hit (contains token (lower (CodeParser.content snippet)))
                  (1#10)
                + hit (contains token (lower (CodeParser.name snippet)))
                    (2#10)
                + hit (contains token
                         (lower (CodeParser.description snippet)))
                    (15#100))).
  2:{ intros x a.
      destruct (contains a (lower (CodeParser.content snippet))),
        (contains a (lower (CodeParser.name snippet))),
        (contains a (lower (CodeParser.description snippet)));
        unfold hit; ring. }
  set (tag_sum :=
         fold_left
           (fun score tag =>
              if contains query (lower tag) then score + (6#10) else score)
           (CodeParser.tags snippet)).
  assert (Htags : forall x,
             tag_sum x
             == x + sumQ (map (fun tag =>
                                 hit (contains query (lower tag)) (6#10))
                            (CodeParser.tags snippet))).
  { intro x. unfold tag_sum. apply fold_hits.
    intros y a. destruct (contains query (lower a)); unfold hit; ring. }
  destruct (contains query (lower (CodeParser.file_path snippet))),
    (contains query (lower (CodeParser.type snippet))),
    (contains query (lower (CodeParser.language snippet)));
    rewrite Htags;
    destruct (contains query (lower (CodeParser.content snippet))),
      (contains query (lower (CodeParser.name snippet))),
      (contains query (lower (CodeParser.description snippet)));
    unfold hit; ring.
Qed.

End LexicalScore.

(* ===================================================================== *)
(** * Search orchestrator: when highlighting can raise *)
(* ===================================================================== *)

Section HighlightFacts.
Import PyStr PyExn SemanticSearch.
Variable compile_template : string -> result (string -> string).

Lemma chars_of_append (a b : string) :
  list_ascii_of_string (a ++ b)
  = (list_ascii_of_string a ++ list_ascii_of_string b)%list.
Proof. induction a as [|c a IH]; simpl; [reflexivity|now rewrite IH]. Qed.

Lemma has_backslash_template (part : string) :
  has_backslash ("<mark>" ++ part ++ "</mark>") = has_backslash part.
Proof.
  unfold has_backslash. rewrite !chars_of_append, !existsb_app.
  simpl. now rewrite orb_false_r.
Qed.



Lemma split_ws_chars_subset (l cur tok : chars) (c : ascii) :
  In tok (split_ws_chars cur l) -> In c tok -> In c cur \/ In c l.
Proof.
  revert cur. induction l as [|a l IH]; intros cur Htok Hc; simpl in Htok.
  - destruct cur as [|b cur]; [contradiction|].
    destruct Htok as [<-|[]]. left. now apply in_rev.
  - destruct (is_space a).
    + destruct cur as [|b cur].
      * destruct (IH [] Htok Hc) as [[]|H]. right. now right.
      * destruct Htok as [<-|Htok].
        -- left. now apply in_rev.
        -- destruct (IH [] Htok Hc) as [[]|H]. right. now right.
    + destruct (IH (a :: cur) Htok Hc) as [[<-|H]|H].
      * right. now left.
      * now left.
      * right. now right.
Qed.

Lemma split_no_backslash (query part : string) :
  has_backslash query = false -> In part (split query) ->
  has_backslash part = false.
Proof.
  unfold has_backslash, split. intros Hq Hin.
  apply in_map_iff in Hin. destruct Hin as (tok & <- & Htok).
  rewrite list_ascii_of_string_of_list_ascii.
  destruct (existsb (Ascii.eqb backslash) tok) eqn:E; [|reflexivity].
  apply existsb_exists in E. destruct E as (c & Hc & Hb).
  destruct (@split_ws_chars_subset _ _ _ _ Htok Hc) as [[]|H].
  enough (existsb (Ascii.eqb backslash) (list_ascii_of_string query) = true)
    by congruence.
  apply existsb_exists. now exists c.
Qed.

Lemma highlight_part_returns (part highlighted : string) :
  has_backslash part = false ->
  exists h, highlight_part compile_template part highlighted = Ok h.
Proof.
  intro H. unfold highlight_part, compile_repl.
  rewrite has_backslash_template, H. eexists. reflexivity.
Qed.

Lemma highlight_fold_returns (parts : list string) (h : string) :
  (forall part, In part parts -> has_backslash part = false) ->
  exists h',
    fold_left
      (fun highlighted part =>
         match highlighted with
         | Raise e => Raise e
         | Ok h =>
             if (2 <? len part)%Z
             then highlight_part compile_template part h else Ok h
         end)
      parts (Ok h) = Ok h'.
Proof.
  revert h. induction parts as [|part parts IH]; intros h Hall; simpl.
  - now exists h.
  - destruct (2 <? len part)%Z.
    + destruct (@highlight_part_returns part h) as [h1 ->];
        [apply Hall; now left|].
      apply IH. intros p Hp. apply Hall. now right.
    + apply IH. intros p Hp. apply Hall. now right.
Qed.

(** A query without backslash is always highlighted. *)
Lemma highlight_returns (content query : string) :
  has_backslash query = false ->
  exists h, _highlight_matches compile_template content query = Ok h.
Proof.
  intro H. unfold _highlight_matches.
  destruct (String.eqb query ""); [now exists content|].
  apply highlight_fold_returns. intros part Hin.
  now apply split_no_backslash with query.
Qed.

Lemma collect_raises (snippets : list CodeSnippet) (query_lower : string)
    (threshold : Q) (acc : list SearchResult) (e : exn) :
  collect compile_template snippets query_lower threshold acc = Raise e ->
  has_backslash query_lower = true.
Proof.
  revert acc. induction snippets as [|s rest IH]; intros acc; simpl;
    [discriminate|].
  destruct (Qle_bool threshold (_calculate_relevance_score s query_lower));
    [|apply IH].
  destruct (_highlight_matches compile_template (CodeParser.content s)
              query_lower) as [h|e'] eqn:E; [apply IH|].
  intros _. destruct (has_backslash query_lower) eqn:Hb; [reflexivity|].
  destruct (@highlight_returns (CodeParser.content s) query_lower Hb)
    as [h Hh].
  congruence.
Qed.

Lemma collect_returns (snippets : list CodeSnippet) (query_lower : string)
    (threshold : Q) (acc res : list SearchResult) :
  collect compile_template snippets query_lower threshold acc = Ok res ->
  map pair_of res
  = (map pair_of acc ++ reaching threshold (scored snippets query_lower))%list.
Proof.
  revert acc. induction snippets as [|s rest IH]; intros acc; simpl.
  - intro H. inversion H. now rewrite app_nil_r.
  - destruct (Qle_bool threshold (_calculate_relevance_score s query_lower))
      eqn:Et.
    + destruct (_highlight_matches compile_template (CodeParser.content s)
                  query_lower) as [h|e'] eqn:E; [|discriminate].
      intro H. apply IH in H. rewrite H, map_app, <- app_assoc.
      reflexivity.
    + apply IH.
Qed.

(** The test for an empty corpus changes nothing of the result. *)
Lemma search_as_collect (indexed_snippets : list CodeSnippet)
    (query : string) (max_results : Z) (threshold : Q) :
  search compile_template indexed_snippets query max_results threshold
  = match collect compile_template indexed_snippets (lower query)
            threshold [] with
    | Raise e => Raise e
    | Ok results =>
        Ok (PyList.py_take max_results (PyList.sort_desc score results))
    end.
Proof.
  destruct indexed_snippets; [|reflexivity].
  simpl. now rewrite py_take_nil.
Qed.

End HighlightFacts.

Lemma reaching_In (threshold : Q) (corpus : list SemanticSearch.CodeSnippet)
    (query : string) (p : SemanticSearch.CodeSnippet * Q) :
  In p (SemanticSearch.reaching threshold
          (SemanticSearch.scored corpus query)) ->
  In (fst p) corpus
  /\ snd p = SemanticSearch._calculate_relevance_score (fst p) query
  /\ (threshold <= snd p)%Q.
Proof.
  unfold SemanticSearch.reaching, SemanticSearch.scored. intro H.
  apply filter_In in H. destruct H as [H Ht].
  apply in_map_iff in H. destruct H as (s & <- & Hs). simpl.
  repeat split; [exact Hs|]. now apply Qle_bool_iff.
Qed.

(* ===================================================================== *)
(** * Search orchestrator: the lexical score and the ranking, in binary64 *)
(* ===================================================================== *)

Section FloatOrder.
Import Floats.

(** The comparisons of binary64, read on the specification of the
    primitive floats. *)
Ltac cmp_cases :=
  repeat match goal with
         | H : context [Z.compare ?a ?b] |- _ =>
             destruct (Z.compare_spec a b); subst
         | |- context [Z.compare ?a ?b] =>
             destruct (Z.compare_spec a b); subst
         | H : context [Pos.compare ?a ?b] |- _ =>
             destruct (Pos.compare_spec a b); subst
         | |- context [Pos.compare ?a ?b] =>
             destruct (Pos.compare_spec a b); subst
         end.

Ltac sf_cases :=
  unfold SFleb, SFltb, SFcompare;
  repeat match goal with
         | x : spec_float |- _ => destruct x as [[]|[]| |[] ? ?]
         end;
  try reflexivity; try discriminate;
  change (PosDef.Pos.compare_cont Eq) with Pos.compare;
  intros; cmp_cases; simpl in *;
  try reflexivity; try discriminate; try lia.





Lemma SFleb_number (a b : spec_float) : SFleb a b = true -> SFleb b b = true.
Proof. sf_cases. Qed.





Lemma float_leb_number (x y : PrimFloat.float) :
  PrimFloat.leb x y = true -> FloatSearch.number y.
Proof.
  unfold FloatSearch.number. rewrite !leb_spec. apply SFleb_number.
Qed.

End FloatOrder.

Section FloatSort.
Import FloatSearch.
Context {A : Type}.
Variable key : A -> PrimFloat.float.







End FloatSort.

Section FloatScore.
Import PyStr PyExn FloatSearch.
Import Floats.PrimFloat.
#[local] Set Warnings "-inexact-float".

Variable compile_template : string -> result (string -> string).

Lemma total_from (amounts : list PrimFloat.float) (x : PrimFloat.float)
    (more : list PrimFloat.float) :
  fold_left PrimFloat.add (amounts ++ more) x
  = fold_left PrimFloat.add more (fold_left PrimFloat.add amounts x).
Proof. apply fold_left_app. Qed.









(** The rounding of the sum decides the threshold test: one tag
    ([0.6]) and the quality bonus ([6.0 * 0.01]) add up to
    [0.6599999999999999], below [0.66]. *)
Lemma float_score_rounds_below_threshold :
  PrimFloat.leb threshold_066
    (_calculate_relevance_score tagged_snippet "sort") = false
  /\ search compile_template [tagged_snippet] "sort" first_ten
       threshold_066 = Ok [].
Proof. split; reflexivity. Qed.

End FloatScore.


(* ===================================================================== *)
(** * Search orchestrator: highlighting *)
(* ===================================================================== *)

(** C9.  The claim asks that the content be preserved outside and inside
    the markers.  A match is replaced by the marker around the query
    token, not around the matched text: the occurrence ["Sort"] of the
    token ["sort"] comes back as ["sort"], so taking the markers out of
    the highlighted content does not give the content back.  The tokens
    are moreover applied one after the other to the text already marked,
    so a later token is also found inside the markers of an earlier
    one. *)
Theorem highlight_rewrites_matched_text
    (compile_template : string -> PyExn.result (string -> string)) :
  SemanticSearch._highlight_matches compile_template "Quick Sort" "sort"
  = PyExn.Ok "Quick <mark>sort</mark>"%string
  /\ SemanticSearch.unmark "Quick <mark>sort</mark>" = "Quick sort"%string
  /\ "Quick sort"%string <> "Quick Sort"%string
  /\ SemanticSearch._highlight_matches compile_template "bubble sort"
       "sort mark"
     = PyExn.Ok "bubble <<mark>mark</mark>>sort</<mark>mark</mark>>"%string.
Proof.
  repeat split; try reflexivity. discriminate.
Qed.

(* ===================================================================== *)
(** * Lines of a text: splitting and joining *)
(* ===================================================================== *)

Section LineFacts.
Import PyStr Notions.

Lemma split_lines_cons (c : ascii) (s : string) :
  split_lines (String c s)
  = if Ascii.eqb c newline then EmptyString :: split_lines s
    else match split_lines s with
         | [] => [String c EmptyString]
         | w :: ws => String c w :: ws
         end.
Proof.
  unfold split_lines. simpl.
  destruct (Ascii.eqb c newline); [reflexivity|].
  destruct (split_on_chars newline (list_ascii_of_string s)); reflexivity.
Qed.

Lemma join_cons_char (c : ascii) (w : string) (ws : list string) :
  join nl (String c w :: ws) = String c (join nl (w :: ws)).
Proof. unfold join. simpl. destruct ws; reflexivity. Qed.

(** Joining the lines of a text gives the text back. *)
Lemma join_split_lines (s : string) : join nl (split_lines s) = s.
Proof.
  induction s as [|c s IH]; [reflexivity|].
  rewrite split_lines_cons.
  destruct (Ascii.eqb c newline) eqn:E.
  - apply Ascii.eqb_eq in E. subst c.
    destruct (split_lines s) as [|w ws] eqn:Es;
      [now apply split_lines_nonempty in Es|].
    change (join nl (EmptyString :: w :: ws))
      with (String newline (join nl (w :: ws))).
    now rewrite IH.
  - destruct (split_lines s) as [|w ws] eqn:Es;
      [now apply split_lines_nonempty in Es|].
    rewrite join_cons_char. now rewrite IH.
Qed.

Lemma split_lines_no_newline (s : string) :
  no_newline s -> split_lines s = [s].
Proof.
  unfold no_newline. induction s as [|c s IH]; intro H; [reflexivity|].
  rewrite split_lines_cons. simpl in H.
  destruct (Ascii.eqb c newline) eqn:E.
  - apply Ascii.eqb_eq in E. subst c. exfalso. apply H. now left.
  - rewrite IH; [reflexivity|]. intro Hin. apply H. now right.
Qed.

Lemma split_lines_line_rest (a b : string) :
  no_newline a ->
  split_lines (a ++ String newline b) = a :: split_lines b.
Proof.
  unfold no_newline. induction a as [|c a IH]; intro H.
  - simpl. rewrite split_lines_cons. now rewrite Ascii.eqb_refl.
  - simpl append. rewrite split_lines_cons. simpl in H.
    destruct (Ascii.eqb c newline) eqn:E.
    + apply Ascii.eqb_eq in E. subst c. exfalso. apply H. now left.
    + rewrite IH; [reflexivity|]. intro Hin. apply H. now right.
Qed.

(** Splitting the join of lines without line break gives the lines. *)
Lemma split_join_lines (ls : list string) :
  ls <> [] -> Forall no_newline ls -> split_lines (join nl ls) = ls.
Proof.
  induction ls as [|a ls IH]; intros Hne Hall; [congruence|].
  inversion Hall as [|? ? Ha Hls]; subst.
  destruct ls as [|b ls].
  - simpl. now apply split_lines_no_newline.
  - change (join nl (a :: b :: ls))
      with (a ++ String newline (join nl (b :: ls)))%string.
    rewrite split_lines_line_rest by exact Ha.
    rewrite IH; [reflexivity|discriminate|exact Hls].
Qed.

Lemma split_on_chars_no_sep (sep : ascii) (l : chars) :
  Forall (fun w => ~ In sep w) (split_on_chars sep l).
Proof.
  induction l as [|c l IH]; simpl.
  - constructor; [now intros []|constructor].
  - destruct (Ascii.eqb c sep) eqn:E.
    + constructor; [now intros []|exact IH].
    + destruct (split_on_chars sep l) as [|w ws];
        [constructor; [|constructor]|].
      * intros [->|[]]. now rewrite Ascii.eqb_refl in E.
      * inversion IH as [|? ? Hw Hws]; subst.
        constructor; [|exact Hws].
        intros [->|Hin]; [now rewrite Ascii.eqb_refl in E|now apply Hw].
Qed.

(** No line of a text holds a line break. *)
Lemma split_lines_lines (s : string) : Forall no_newline (split_lines s).
Proof.
  unfold split_lines, no_newline. apply Forall_map.
  eapply Forall_impl; [|apply split_on_chars_no_sep].
  intros w Hw. now rewrite list_ascii_of_string_of_list_ascii.
Qed.

End LineFacts.

(* ===================================================================== *)
(** * Snippet extractor: further properties *)
(* ===================================================================== *)

(** X1.  Whatever the content and the complexity, the quality score of
    the extractor lies between 5 and 9: the clamp to [1,10] never
    changes the value. *)
Theorem quality_score_between_5_and_9 (content complexity : string) :
  (5 <= CodeParser._calculate_quality_score content complexity)%Q
  /\ (CodeParser._calculate_quality_score content complexity <= 9)%Q.
Proof.
  unfold CodeParser._calculate_quality_score.
  set (n := Z.of_nat (List.length (PyStr.split_lines content))).
  set (r := match PyStr.split_lines content with
            | [] => 0%Q
            | _ :: _ => _
            end).
  destruct ((5 <=? n)%Z && (n <=? 50)%Z), (50 <? n)%Z,
    (String.eqb complexity "low"), (String.eqb complexity "high"),
    (Qle_bool (1 # 10) r && Qle_bool r (3 # 10)),
    (negb (Qle_bool r (1 # 2))); split; vm_compute; discriminate.
Qed.

Section GenericBlocks.
Import PyStr CodeParser Notions.
Variable _extract_tags : string -> string -> list string.
Variables (file_path language : string).

Local Open Scope Z_scope.

Lemma closed_block_ok (n a b : Z) (block : list string)
    (l : list CodeSnippet) :
  Forall (block_ok n) l ->
  block <> [] ->
  Forall (fun line => is_code_line line = true /\ no_newline line) block ->
  1 <= a -> a + Z.of_nat (List.length block) <= b + 1 -> b <= n ->
  Forall (block_ok n)
    (append_opt l (block_snippet _extract_tags file_path language block a b)).
Proof.
  intros Hl Hne Hblock Ha Hab Hb.
  destruct (block_snippet _extract_tags file_path language block a b)
    as [s|] eqn:E; simpl; [|exact Hl].
  apply Forall_app. split; [exact Hl|]. constructor; [|constructor].
  assert (Hlong : 20 < len (strip (join nl block))).
  { unfold block_snippet in E.
    destruct (20 <? len (strip (join nl block))) eqn:E20; [|discriminate].
    now apply Z.ltb_lt. }
  apply (@block_snippet_span _extract_tags file_path language) in E.
  destruct E as (Hs & He & Hc).
  assert (Hsplit : split_lines (content s) = block).
  { rewrite Hc. apply split_join_lines; [exact Hne|].
    eapply Forall_impl; [|exact Hblock]. now intros x [_ Hx]. }
  assert (Hlen : 1 <= Z.of_nat (List.length block)).
  { destruct block; [congruence|]. simpl. lia. }
  unfold block_ok. rewrite Hsplit, Hs, He, Hc.
  repeat split; try lia; try exact Hlong.
  eapply Forall_impl; [|exact Hblock]. now intros x [Hx _].
Qed.

Lemma generic_step_bounds (n i : Z) (line : string) (st : block_state) :
  no_newline line -> i <= n ->
  bounds_inv n i st ->
  bounds_inv n (i + 1)
    (generic_step _extract_tags file_path language st (i, line)).
Proof.
  intros Hline Hi (Hs & H1 & Hb & Hblock). unfold generic_step.
  destruct (is_code_line line) eqn:Ecode.
  - repeat split; simpl; try assumption.
    + rewrite length_app. simpl. lia.
    + apply Forall_app. split; [exact Hblock|]. now repeat constructor.
  - destruct (current_block st) as [|l0 block] eqn:E.
    + repeat split; try assumption; rewrite ?E; simpl; try lia.
      constructor.
    + repeat split; simpl; try lia; [|constructor].
      apply closed_block_ok; try assumption; try discriminate; try lia.
Qed.

Lemma generic_fold_bounds (n : Z) (lines : list string) (i : Z)
    (st : block_state) :
  Forall no_newline lines ->
  i + Z.of_nat (List.length lines) = n + 1 ->
  bounds_inv n i st ->
  bounds_inv n (n + 1)
    (fold_left (generic_step _extract_tags file_path language)
       (enumerate i lines) st).
Proof.
  revert i st. induction lines as [|line lines IH]; intros i st Hall Hn H.
  - simpl in *. replace (n + 1) with i by lia. exact H.
  - inversion Hall as [|? ? Hline Hrest]; subst.
    change (List.length (line :: lines)) with (S (List.length lines)) in Hn.
    simpl. apply IH; [exact Hrest|lia|].
    apply generic_step_bounds; [exact Hline|lia|exact H].
Qed.

End GenericBlocks.

(** X2.  Every block the line-grouping strategy returns lies inside the
    file ([1 <= line_start <= line_end <= number of lines]), holds more
    than 20 significant characters, consists of code lines only (no
    blank line, no line starting a comment) and has no more lines than
    its span. *)
Theorem generic_blocks_within_file (tags : string -> string -> list string)
    (content file_path language : string) :
  Forall
    (Notions.block_ok
       (Z.of_nat (List.length (PyStr.split_lines content))))
    (CodeParser._parse_generic_file tags content file_path language).
Proof.
  unfold CodeParser._parse_generic_file.
  set (n := Z.of_nat (List.length (PyStr.split_lines content))).
  pose proof (@generic_fold_bounds tags file_path language n
                (PyStr.split_lines content) 1%Z
                {| CodeParser.snippets := [];
                   CodeParser.current_block := [];
                   CodeParser.current_start := 1 |}
                (split_lines_lines content)) as H.
  destruct H as (Hs & H1 & Hb & Hblock).
  { subst n. lia. }
  { repeat split; simpl; try lia; constructor. }
  destruct (CodeParser.current_block _) as [|l0 block] eqn:E; [exact Hs|].
  apply closed_block_ok; try assumption; try discriminate; try lia.
Qed.

Section DenseFile.
Import PyStr CodeParser.
Variable _extract_tags : string -> string -> list string.
Variables (file_path language : string).

Lemma generic_fold_dense (lines : list string) (i : Z) (st : block_state) :
  Forall (fun line => is_code_line line = true) lines ->
  fold_left (generic_step _extract_tags file_path language)
    (enumerate i lines) st
  = {| snippets := snippets st;
       current_block := (current_block st ++ lines)%list;
       current_start := current_start st |}.
Proof.
  revert i st. induction lines as [|line lines IH]; intros i st Hall; simpl.
  - rewrite app_nil_r. now destruct st.
  - inversion Hall as [|? ? Hline Hrest]; subst.
    rewrite IH by exact Hrest. unfold generic_step. rewrite Hline. simpl.
    now rewrite <- app_assoc.
Qed.

End DenseFile.

(** X3.  A file without blank line and without comment line, holding
    more than 20 significant characters, comes back as one block that
    spans the whole file and whose content is the file. *)
Theorem dense_file_is_one_block (tags : string -> string -> list string)
    (content file_path language : string) :
  Forall (fun line => CodeParser.is_code_line line = true)
    (PyStr.split_lines content) ->
  (20 < PyStr.len (PyStr.strip content))%Z ->
  map (fun s => (CodeParser.line_start s, CodeParser.line_end s,
                 CodeParser.content s))
    (CodeParser._parse_generic_file tags content file_path language)
  = [(1%Z, Z.of_nat (List.length (PyStr.split_lines content)), content)].
Proof.
  intros Hdense Hlong. unfold CodeParser._parse_generic_file.
  rewrite generic_fold_dense by exact Hdense. simpl.
  destruct (PyStr.split_lines content) as [|l0 ls] eqn:E;
    [now apply split_lines_nonempty in E|].
  unfold CodeParser.block_snippet. rewrite <- E, join_split_lines.
  apply Z.ltb_lt in Hlong. rewrite Hlong. reflexivity.
Qed.

Lemma dense_file_is_one_block_witness :
  map (fun s => (CodeParser.line_start s, CodeParser.line_end s,
                 CodeParser.content s))
    (CodeParser._parse_generic_file Scenarios.no_tags Inputs.dense_c_file
       "add.c" "c")
  = [(1%Z, 3%Z, Inputs.dense_c_file)].
Proof.
  apply (@dense_file_is_one_block Scenarios.no_tags Inputs.dense_c_file
           "add.c" "c").
  - repeat constructor.
  - reflexivity.
Defined.

Section ModuleBlocks.
Import PyStr CodeParser Notions.
Variable _extract_tags : string -> string -> list string.
Variables (content file_path : string).

Local Open Scope Z_scope.

Lemma close_module_block_ok (l : list CodeSnippet) (a b : Z) :
  Forall (module_block_ok content) l ->
  Forall (module_block_ok content)
    (close_module_block _extract_tags content file_path l a b).
Proof.
  intro Hl. unfold close_module_block.
  destruct (0 <? b - a) eqn:E; [|exact Hl].
  apply Z.ltb_lt in E. unfold _create_module_snippet.
  set (text := join nl (PyList.py_slice (a - 1) b (split_lines content))).
  destruct (len (strip text) <? 10) eqn:E10; simpl; [exact Hl|].
  apply Z.ltb_ge in E10.
  apply Forall_app. split; [exact Hl|]. constructor; [|constructor].
  unfold module_block_ok. cbn [line_start line_end CodeParser.content type].
  repeat split; try lia; try assumption.
Qed.

Lemma group_module_lines_ok (rest : list Z) (prev a b : Z)
    (l : list CodeSnippet) :
  Forall (module_block_ok content) l ->
  Forall (module_block_ok content)
    (fst (fst (group_module_lines _extract_tags content file_path rest
                 prev a b l))).
Proof.
  revert prev a b l. induction rest as [|i rest IH]; intros prev a b l Hl;
    simpl; [exact Hl|].
  destruct (i =? prev + 1); apply IH; [exact Hl|].
  now apply close_module_block_ok.
Qed.

End ModuleBlocks.

(** X4.  Every module-level block of a Python file spans at least two
    lines, carries exactly the source lines of its span and holds at
    least 10 significant characters. *)
Theorem module_blocks_span_two_lines
    (tags : string -> string -> list string) (content file_path : string) :
  Forall (Notions.module_block_ok content)
    (CodeParser._extract_module_snippets tags content file_path).
Proof.
  unfold CodeParser._extract_module_snippets.
  destruct (map fst _) as [|first rest]; [constructor|].
  pose proof (@group_module_lines_ok tags content file_path rest first
                first first [] (Forall_nil _)) as H.
  destruct (CodeParser.group_module_lines tags content file_path rest
              first first first []) as [[l a] b].
  simpl in H. now apply close_module_block_ok.
Qed.

Section ComplexityFacts.
Import PyStr CodeParser Notions.

Local Open Scope Z_scope.

Lemma bucket_monotone (a b : Z) :
  a <= b ->
  (level_rank (complexity_bucket a) <= level_rank (complexity_bucket b))%nat.
Proof.
  intro H. unfold complexity_bucket.
  destruct (Z.leb_spec a 2), (Z.leb_spec b 2), (Z.leb_spec a 5),
    (Z.leb_spec b 5); cbn; lia.
Qed.

Lemma fold_left_grows {A : Type} (f : Z -> A -> Z) :
  (forall x a, x <= f x a) ->
  forall l x, x <= fold_left f l x.
Proof.
  intros Hf l. induction l as [|a l IH]; intro x; simpl; [lia|].
  specialize (IH (f x a)). specialize (Hf x a). lia.
Qed.

Lemma split_lines_append (a b : string) :
  split_lines (a ++ nl ++ b) = (split_lines a ++ split_lines b)%list.
Proof.
  induction a as [|c a IH].
  - change (EmptyString ++ nl ++ b)%string with (String newline b).
    rewrite split_lines_cons. now rewrite Ascii.eqb_refl.
  - change (String c a ++ nl ++ b)%string
      with (String c (a ++ nl ++ b))%string.
    rewrite !split_lines_cons, IH.
    destruct (Ascii.eqb c newline); [reflexivity|].
    destruct (split_lines a) as [|w ws] eqn:Ea;
      [now apply split_lines_nonempty in Ea|reflexivity].
Qed.

End ComplexityFacts.

(** X5.  Complexity never goes down when code is added: appending lines
    to a text never lowers the level given by the keyword heuristic, and
    adding nodes to a definition never lowers the level given by the
    structural count (low < medium < high). *)
Theorem complexity_never_lowered :
  (forall content more : string,
      (Notions.level_rank (CodeParser._calculate_simple_complexity content)
       <= Notions.level_rank
            (CodeParser._calculate_simple_complexity
               (content ++ PyStr.nl ++ more)))%nat)
  /\ (forall (node : CodeParser.py_node)
             (extra : list CodeParser.node_kind),
         (Notions.level_rank (CodeParser._calculate_complexity node)
          <= Notions.level_rank
               (CodeParser._calculate_complexity
                  (Notions.with_more_nodes node extra)))%nat).
Proof.
  split.
  - intros content more. unfold CodeParser._calculate_simple_complexity.
    rewrite split_lines_append, fold_left_app.
    apply bucket_monotone, fold_left_grows.
    intros x line.
    destruct (CodeParser.any_in _ (PyStr.strip line)),
      (CodeParser.any_in _ (PyStr.strip line)); lia.
  - intros node extra. unfold CodeParser._calculate_complexity.
    simpl. rewrite fold_left_app.
    apply bucket_monotone, fold_left_grows.
    intros x child. destruct child; lia.
Qed.

(* ===================================================================== *)
(** * Query processor: further properties *)
(* ===================================================================== *)

Section NormalizeMore.
Import PyStr QueryProcessor.

Lemma is_space_lower_char (c : ascii) : is_space (lower_char c) = is_space c.
Proof. destruct c as [[] [] [] [] [] [] [] []]; reflexivity. Qed.

Lemma lstrip_lower (l : chars) :
  lstrip_chars (lower_chars l) = lower_chars (lstrip_chars l).
Proof.
  induction l as [|c l IH]; [reflexivity|].
  cbn [lower_chars map lstrip_chars]. rewrite is_space_lower_char.
  destruct (is_space c); [exact IH|reflexivity].
Qed.

Lemma rstrip_lower (l : chars) :
  rstrip_chars (lower_chars l) = lower_chars (rstrip_chars l).
Proof.
  induction l as [|c l IH]; [reflexivity|].
  cbn [lower_chars map rstrip_chars]. fold (lower_chars l). rewrite IH.
  destruct (rstrip_chars l) as [|b r]; cbn [lower_chars map].
  - rewrite is_space_lower_char. now destruct (is_space c).
  - reflexivity.
Qed.

Lemma collapse_lower (b : bool) (l : chars) :
  collapse_from b (lower_chars l) = lower_chars (collapse_from b l).
Proof.
  revert b. induction l as [|c l IH]; intro b; [reflexivity|].
  cbn [lower_chars map collapse_from]. fold (lower_chars l).
  rewrite is_space_lower_char.
  destruct (is_space c); [destruct b|]; cbn [lower_chars map];
    fold (lower_chars (collapse_from true l));
    fold (lower_chars (collapse_from false l)); now rewrite IH.
Qed.

Lemma lower_chars_idem (l : chars) :
  lower_chars (lower_chars l) = lower_chars l.
Proof.
  unfold lower_chars. rewrite map_map. apply map_ext.
  intro c. apply lower_char_idem.
Qed.

Lemma normalize_lower (l : chars) :
  normalize_chars (lower_chars l) = normalize_chars l.
Proof.
  unfold normalize_chars, collapse_ws, strip_chars.
  now rewrite lstrip_lower, rstrip_lower, collapse_lower, lower_chars_idem.
Qed.

Lemma strip_idem (l : chars) : strip_chars (strip_chars l) = strip_chars l.
Proof. apply strip_fix; [apply strip_no_lead|apply strip_no_trail]. Qed.

End NormalizeMore.

(** X6.  A normalized query holds only lower-case characters that the
    punctuation filter keeps (word characters, [-], [_], [.] and
    spaces); its only whitespace is the single space, never doubled,
    and never at either end. *)
Theorem normalize_query_shape (query : string) :
  let l := list_ascii_of_string (QueryProcessor._normalize_query query) in
  Forall QueryProcessor.plain l
  /\ QueryProcessor.no_lead l
  /\ QueryProcessor.no_trail l
  /\ QueryProcessor.single false l.
Proof.
  unfold QueryProcessor._normalize_query.
  rewrite list_ascii_of_string_of_list_ascii.
  repeat split.
  - apply normalize_plain.
  - apply collapse_no_lead, strip_no_lead.
  - apply collapse_no_trail, strip_no_trail.
  - apply collapse_single.
Qed.

(** X7.  Normalization does not see the case of its input nor the
    whitespace around it: lower-casing or stripping the query first
    gives the same normalized text. *)
Theorem normalize_ignores_case_and_margins (query : string) :
  QueryProcessor._normalize_query (PyStr.lower query)
  = QueryProcessor._normalize_query query
  /\ QueryProcessor._normalize_query (PyStr.strip query)
     = QueryProcessor._normalize_query query.
Proof.
  unfold QueryProcessor._normalize_query, PyStr.lower, PyStr.strip.
  rewrite !list_ascii_of_string_of_list_ascii. split.
  - now rewrite normalize_lower.
  - unfold QueryProcessor.normalize_chars. now rewrite strip_idem.
Qed.

Section SliceLength.
Import PyList.
Context {A : Type}.

Lemma py_take_length (n : nat) (l : list A) :
  (List.length (py_take (Z.of_nat n) l) <= n)%nat.
Proof. rewrite py_take_nat. apply firstn_le_length. Qed.

End SliceLength.

(** X8.  Query expansion adds at most five terms, and every term it adds
    is a synonym listed for a key that occurs in the lower-cased
    query. *)
Theorem expand_query_at_most_five (query : string) :
  (List.length (QueryProcessor._expand_query query) <= 5)%nat
  /\ (forall term,
         In term (QueryProcessor._expand_query query) ->
         exists key terms,
           In (key, terms) QueryProcessor.synonyms
           /\ PyStr.contains key (PyStr.lower query) = true
           /\ In term terms).
Proof.
  unfold QueryProcessor._expand_query. split.
  - apply (py_take_length 5).
  - intros term Hin. apply py_take_In in Hin.
    apply in_flat_map in Hin. destruct Hin as ([key terms] & Hk & Ht).
    simpl in Ht.
    destruct (PyStr.contains key (PyStr.lower query)) eqn:E;
      [|contradiction].
    now exists key, terms.
Qed.

Section IntentFacts.
Import PyExn Models QueryProcessor.

Lemma rule_based_never_pattern (query : string) :
  _rule_based_intent_detection query <> Some FIND_PATTERN.
Proof.
  unfold _rule_based_intent_detection.
  repeat match goal with
         | |- context [if ?b then _ else _] => destruct b
         end; discriminate.
Qed.

End IntentFacts.

(** X9.  Without a classifier, or when the classifier raises, intent
    detection is rule based and never answers [FIND_PATTERN]: no rule
    yields that intent. *)
Theorem detect_intent_never_pattern
    (intent_classifier : option (string -> PyExn.result string))
    (query : string) :
  (forall classify,
      intent_classifier = Some classify ->
      exists e, classify query = PyExn.Raise e) ->
  QueryProcessor._detect_intent intent_classifier query
  <> Some Models.FIND_PATTERN.
Proof.
  intro H. unfold QueryProcessor._detect_intent.
  destruct intent_classifier as [classify|];
    [|apply rule_based_never_pattern].
  destruct (H classify eq_refl) as [e ->].
  apply rule_based_never_pattern.
Qed.

Lemma detect_intent_never_pattern_witness :
  QueryProcessor._detect_intent None "design pattern for a cache"
  <> Some Models.FIND_PATTERN.
Proof.
  apply (@detect_intent_never_pattern None "design pattern for a cache").
  intros classify H. discriminate.
Defined.

Section KeywordFacts.
Import PyStr QueryProcessor.

Lemma word_runs_separator (l1 l2 cur : chars) (c : ascii) :
  is_word c = false ->
  word_runs cur (l1 ++ c :: l2) = (word_runs cur l1 ++ word_runs [] l2)%list.
Proof.
  intro Hc. revert cur. induction l1 as [|a l1 IH]; intro cur; simpl.
  - rewrite Hc. now destruct cur.
  - destruct (is_word a); [apply IH|].
    destruct cur; rewrite IH; reflexivity.
Qed.

Lemma chars_of_lower (s : string) :
  list_ascii_of_string (lower s) = lower_chars (list_ascii_of_string s).
Proof. unfold lower. apply list_ascii_of_string_of_list_ascii. Qed.

Lemma findall_words_expanded (text : string) (terms : list string) :
  findall_words (lower (expanded_text text terms))
  = (findall_words (lower text)
     ++ findall_words (lower (join " " terms)))%list.
Proof.
  unfold findall_words, expanded_text.
  rewrite !chars_of_lower, chars_of_append.
  change (list_ascii_of_string (" " ++ join " " terms))
    with (" "%char :: list_ascii_of_string (join " " terms)).
  unfold lower_chars. rewrite map_app. cbn [map].
  change (lower_char " ") with " "%char.
  rewrite word_runs_separator by reflexivity.
  now rewrite map_app.
Qed.

Lemma first_occurrences_In (l : list string) (x : string) :
  In x (first_occurrences l) <-> In x l.
Proof.
  unfold first_occurrences.
  rewrite <- in_rev, nodup_In, <- in_rev. reflexivity.
Qed.

End KeywordFacts.

(** X10.  Expanding a query never loses a keyword: whatever enumeration
    of the keyword set is used, every keyword extracted from a query is
    also extracted from the query with expansion terms appended. *)
Theorem keywords_survive_expansion
    (list_set : list string -> list string)
    (text : string) (terms : list string) (keyword : string) :
  (forall l x, In x (list_set l) <-> In x l) ->
  In keyword (QueryProcessor._extract_keywords list_set text) ->
  In keyword
    (QueryProcessor._extract_keywords list_set
       (QueryProcessor.expanded_text text terms)).
Proof.
  intros Hset. unfold QueryProcessor._extract_keywords.
  rewrite !Hset, findall_words_expanded, !filter_app.
  rewrite !in_app_iff. tauto.
Qed.

Lemma keywords_survive_expansion_witness :
  In "sort"%string
    (QueryProcessor._extract_keywords QueryProcessor.first_occurrences
       (QueryProcessor.expanded_text "Sort a list"
          ["sorting"; "order"]%string)).
Proof.
  apply (@keywords_survive_expansion QueryProcessor.first_occurrences
           "Sort a list" ["sorting"; "order"]%string "sort").
  - apply first_occurrences_In.
  - vm_compute. now left.
Defined.

(** X11.  Suggestions and query analysis cannot be computed: the global
    [SUPPORTED_LANGUAGES] they read is not bound in the module, so
    [get_suggestions] and [analyze_query_complexity] raise [NameError]
    on every input, and the suggestions route answers every request
    with status 500. *)
Theorem suggestions_and_analysis_raise :
  (forall partial_query limit,
      Suggestions.get_suggestions partial_query limit
      = PyExn.Raise PyExn.NameError)
  /\ (forall intent_classifier list_set query,
         Suggestions.analyze_query_complexity intent_classifier list_set
           query
         = PyExn.Raise PyExn.NameError)
  /\ (forall q limit,
         SearchRoute.get_search_suggestions q limit
         = SearchRoute.HTTPException 500).
Proof. repeat split. Qed.

(* ===================================================================== *)
(** * Embedding index: further properties *)
(* ===================================================================== *)

Section CosineFacts.
Import EmbeddingGenerator Notions.

Local Open Scope Q_scope.

Lemma Qmult_comm_eq (x y : Q) : x * y = y * x.
Proof.
  destruct x as [a b], y as [c d]. unfold Qmult. simpl.
  now rewrite Z.mul_comm, Pos.mul_comm.
Qed.

Lemma dot_comm (a b : embedding) : dot a b = dot b a.
Proof.
  unfold dot. f_equal. revert b.
  induction a as [|x a IH]; intros [|y b]; simpl; try reflexivity.
  now rewrite IH, Qmult_comm_eq.
Qed.



End CosineFacts.

(** X12.  Cosine similarity is symmetric: exchanging the two embeddings
    gives the same result, also in the cases that end in the handler
    (different lengths) or in NaN (a zero norm). *)
Theorem calculate_similarity_symmetric (sqrt : Q -> Q)
    (embedding1 embedding2 : EmbeddingGenerator.embedding) :
  EmbeddingGenerator.calculate_similarity sqrt embedding1 embedding2
  = EmbeddingGenerator.calculate_similarity sqrt embedding2 embedding1.
Proof.
  unfold EmbeddingGenerator.calculate_similarity.
  rewrite (Nat.eqb_sym (List.length embedding2)).
  destruct (List.length embedding1 =? List.length embedding2)%nat eqn:E;
    [|reflexivity].
  apply Nat.eqb_eq in E. simpl.
  destruct embedding1 as [|x a], embedding2 as [|y b];
    try discriminate; [reflexivity|].
  rewrite orb_comm.
  destruct (_ || _); [reflexivity|].
  now rewrite dot_comm.
Qed.



(** X14.  The hybrid strategy is declared with 768 components, but it
    delivers a vector of that size only when CodeBERT succeeds and the
    sentence transformer fails: with strategies that produce vectors of
    their declared sizes, every other combination gives no vector or a
    vector of 384 components. *)
Theorem hybrid_dimension_only_from_codebert (Snippet : Type)
    (codebert sentence : Snippet -> option EmbeddingGenerator.embedding)
    (snippet : Snippet) :
  (forall v, codebert snippet = Some v ->
             Z.of_nat (List.length v)
             = EmbeddingGenerator.get_embedding_dimension "codebert") ->
  (forall v, sentence snippet = Some v ->
             Z.of_nat (List.length v)
             = EmbeddingGenerator.get_embedding_dimension "sentence") ->
  ((exists v,
       EmbeddingGenerator._generate_hybrid_embedding codebert sentence
         snippet = Some v
       /\ Z.of_nat (List.length v)
          = EmbeddingGenerator.get_embedding_dimension "hybrid")
   <-> (exists a, codebert snippet = Some a) /\ sentence snippet = None).
Proof.
  intros Hc Hs.
  change (EmbeddingGenerator.get_embedding_dimension "codebert")
    with 768%Z in Hc.
  change (EmbeddingGenerator.get_embedding_dimension "sentence")
    with 384%Z in Hs.
  change (EmbeddingGenerator.get_embedding_dimension "hybrid") with 768%Z.
  unfold EmbeddingGenerator._generate_hybrid_embedding,
    EmbeddingGenerator.append_if_truthy.
  destruct (codebert snippet) as [a|] eqn:Ea,
    (sentence snippet) as [b|] eqn:Eb.
  - specialize (Hc a eq_refl). specialize (Hs b eq_refl).
    destruct a as [|x a]; [discriminate|].
    destruct b as [|y b]; [discriminate|].
    cbv [app]. unfold EmbeddingGenerator.np_mean_axis0,
      EmbeddingGenerator.same_shape. cbv [forallb].
    replace (List.length (y :: b) =? List.length (x :: a))%nat with false
      by (symmetry; apply Nat.eqb_neq; lia).
    simpl. split; [intros (v & H & _); discriminate|].
    intros [_ H]. discriminate.
  - specialize (Hc a eq_refl).
    destruct a as [|x a]; [discriminate|]. simpl.
    split; [intros _; split; [now exists (x :: a)|reflexivity]|].
    intros _. exists (x :: a). split; [reflexivity|exact Hc].
  - specialize (Hs b eq_refl).
    destruct b as [|y b]; [discriminate|]. simpl.
    split; [|intros [[a H] _]; discriminate].
    intros (v & H & Hlen). inversion H; subst. lia.
  - simpl. split; [intros (v & H & _); discriminate|].
    intros [[a H] _]. discriminate.
Qed.

Lemma hybrid_dimension_only_from_codebert_witness :
  exists v,
    EmbeddingGenerator._generate_hybrid_embedding
      (Inputs.always Scenarios.codebert_vector) Inputs.never tt = Some v
    /\ Z.of_nat (List.length v)
       = EmbeddingGenerator.get_embedding_dimension "hybrid".
Proof.
  apply (proj2 (@hybrid_dimension_only_from_codebert unit
                  (Inputs.always Scenarios.codebert_vector) Inputs.never tt
                  ltac:(intros v H; inversion H; reflexivity)
                  ltac:(intros v H; discriminate))).
  split; [now exists Scenarios.codebert_vector|reflexivity].
Defined.

Section BatchFacts.
Import EmbeddingGenerator EmbeddingDispatch.

Lemma dict_set_keys (k : string) (v : embedding)
    (d : list (string * embedding)) :
  In k (map fst d) -> map fst (dict_set k v d) = map fst d.
Proof.
  induction d as [|[k' v'] d IH]; simpl; [contradiction|].
  intros [->|H].
  - now rewrite String.eqb_refl.
  - destruct (String.eqb k k'); simpl; [reflexivity|]. now rewrite IH.
Qed.

Lemma dict_set_new_key (k : string) (v : embedding)
    (d : list (string * embedding)) :
  ~ In k (map fst d) -> map fst (dict_set k v d) = (map fst d ++ [k])%list.
Proof.
  induction d as [|[k' v'] d IH]; simpl; [reflexivity|].
  intro H. destruct (String.eqb k k') eqn:E.
  - apply String.eqb_eq in E. subst. tauto.
  - simpl. rewrite IH; [reflexivity|tauto].
Qed.

Lemma dict_set_NoDup (k : string) (v : embedding)
    (d : list (string * embedding)) :
  NoDup (map fst d) -> NoDup (map fst (dict_set k v d)).
Proof.
  intro H. destruct (in_dec string_dec k (map fst d)) as [Hin|Hout].
  - now rewrite dict_set_keys.
  - rewrite dict_set_new_key by exact Hout.
    apply NoDup_app; [exact H|repeat constructor; now intros []|].
    intros x Hx [<-|[]]. contradiction.
Qed.

Lemma dict_set_Forall (P : string * embedding -> Prop) (k : string)
    (v : embedding) (d : list (string * embedding)) :
  P (k, v) -> Forall P d -> Forall P (dict_set k v d).
Proof.
  intros Hkv. induction 1 as [|[k' v'] d Hx Hd IH]; simpl.
  - now repeat constructor.
  - destruct (String.eqb k k') eqn:E.
    + apply String.eqb_eq in E. subst. now constructor.
    + now constructor.
Qed.

Lemma dict_get_set (k : string) (v : embedding)
    (d : list (string * embedding)) :
  dict_get k (dict_set k v d) = Some v.
Proof.
  induction d as [|[k' v'] d IH]; simpl.
  - now rewrite String.eqb_refl.
  - destruct (String.eqb k k') eqn:E; simpl; now rewrite E.
Qed.

End BatchFacts.

Section IndexFacts.
Import EmbeddingGenerator EmbeddingDispatch.
Variable sqrt : Q -> Q.

Lemma similarities_above_mismatch (query_embedding : embedding)
    (snippet_embeddings : list (string * embedding)) (threshold : Q) :
  (0 < threshold)%Q ->
  Forall (fun item => List.length (snd item) <> List.length query_embedding)
    snippet_embeddings ->
  similarities_above sqrt query_embedding snippet_embeddings threshold = [].
Proof.
  intros Ht. induction 1 as [|[k e] d Hx Hd IH]; [reflexivity|].
  unfold similarities_above in *. cbn [flat_map]. rewrite IH.
  unfold calculate_similarity. cbn [snd fst] in *.
  replace (List.length query_embedding =? List.length e)%nat with false
    by (symmetry; apply Nat.eqb_neq; congruence).
  cbn [negb].
  destruct (Qle_bool threshold 0) eqn:E; [|reflexivity].
  apply Qle_bool_iff in E. exfalso. apply (Qlt_not_le _ _ Ht E).
Qed.

Lemma similarities_above_keys (query_embedding : embedding)
    (snippet_embeddings : list (string * embedding)) (threshold : Q) :
  exists keep : string * embedding -> bool,
    map fst (similarities_above sqrt query_embedding snippet_embeddings
               threshold)
    = map fst (filter keep snippet_embeddings).
Proof.
  exists (fun item =>
            match calculate_similarity sqrt query_embedding (snd item) with
            | Some similarity => Qle_bool threshold similarity
            | None => false
            end).
  induction snippet_embeddings as [|[k e] d IH]; [reflexivity|].
  unfold similarities_above in *. cbn [flat_map filter snd fst].
  rewrite map_app, IH.
  destruct (calculate_similarity sqrt query_embedding e) as [s|];
    [|reflexivity].
  destruct (Qle_bool threshold s); reflexivity.
Qed.

Lemma NoDup_map_filter {A B : Type} (f : A -> B) (keep : A -> bool)
    (l : list A) :
  NoDup (map f l) -> NoDup (map f (filter keep l)).
Proof.
  induction l as [|x l IH]; simpl; [trivial|].
  intro H. inversion H as [|? ? Hx Hl]; subst.
  destruct (keep x); simpl; [|now apply IH].
  constructor; [|now apply IH].
  intro Hin. apply Hx. apply in_map_iff in Hin as (y & Hy & Hin).
  apply filter_In in Hin as [Hin _]. apply in_map_iff. now exists y.
Qed.

Lemma NoDup_app_l {A : Type} (l1 l2 : list A) :
  NoDup (l1 ++ l2) -> NoDup l1.
Proof.
  induction l1 as [|x l1 IH]; simpl; intro H; [constructor|].
  inversion H as [|? ? Hx Hl]; subst.
  constructor; [|now apply IH].
  intro Hin. apply Hx. apply in_or_app. now left.
Qed.

End IndexFacts.

(** X15.  A query vector whose length differs from that of every stored
    vector finds nothing: for a positive threshold the nearest-neighbour
    lookup returns the empty list.  This is what happens to the model
    type graphcodebert, whose snippets are embedded with 768 components
    and whose queries are embedded by the sentence transformer with
    384. *)
Theorem graphcodebert_queries_find_nothing (sqrt : Q -> Q) (Snippet : Type)
    (snippet_id : Snippet -> string)
    (codebert graphcodebert sentence
       : Snippet -> option EmbeddingGenerator.embedding)
    (codebert_query sentence_query
       : string -> option EmbeddingGenerator.embedding)
    (snippets : list Snippet) (query : string)
    (query_embedding : EmbeddingGenerator.embedding)
    (top_k : Z) (threshold : Q) :
  (forall s v, graphcodebert s = Some v ->
               Z.of_nat (List.length v)
               = EmbeddingGenerator.get_embedding_dimension "graphcodebert") ->
  (forall q v, sentence_query q = Some v ->
               Z.of_nat (List.length v)
               = EmbeddingGenerator.get_embedding_dimension "sentence") ->
  (0 < threshold)%Q ->
  EmbeddingDispatch.generate_query_embedding codebert_query sentence_query
    query "graphcodebert" = Some query_embedding ->
  EmbeddingGenerator.find_similar_snippets sqrt query_embedding
    (EmbeddingDispatch.generate_batch_embeddings snippet_id codebert
       graphcodebert sentence snippets "graphcodebert")
    top_k threshold = [].
Proof.
  intros Hg Hs Ht Hq.
  change (EmbeddingGenerator.get_embedding_dimension "graphcodebert")
    with 768%Z in Hg.
  change (EmbeddingGenerator.get_embedding_dimension "sentence")
    with 384%Z in Hs.
  change (EmbeddingDispatch.generate_query_embedding codebert_query
            sentence_query query "graphcodebert")
    with (sentence_query query) in Hq.
  apply Hs in Hq.
  unfold EmbeddingGenerator.find_similar_snippets.
  rewrite similarities_above_mismatch; [apply py_take_nil|exact Ht|].
  unfold EmbeddingDispatch.generate_batch_embeddings.
  assert (G : forall d,
             Forall (fun item : string * EmbeddingGenerator.embedding =>
                       List.length (snd item) <> List.length query_embedding)
               d ->
             Forall (fun item : string * EmbeddingGenerator.embedding =>
                       List.length (snd item) <> List.length query_embedding)
               (fold_left
                  (fun embeddings snippet =>
                     match EmbeddingDispatch.generate_embedding codebert
                             graphcodebert sentence snippet "graphcodebert"
                     with
                     | Some (x :: v) =>
                         EmbeddingDispatch.dict_set (snippet_id snippet)
                           (x :: v) embeddings
                     | _ => embeddings
                     end) snippets d)).
  { induction snippets as [|s l IH]; intros d Hd; [exact Hd|].
    cbn [fold_left]. apply IH.
    change (EmbeddingDispatch.generate_embedding codebert graphcodebert
              sentence s "graphcodebert") with (graphcodebert s).
    destruct (graphcodebert s) as [[|x v]|] eqn:E; try exact Hd.
    apply dict_set_Forall; [|exact Hd].
    apply Hg in E. cbn [snd]. lia. }
  apply G. constructor.
Qed.

Lemma graphcodebert_queries_find_nothing_witness :
  EmbeddingGenerator.find_similar_snippets EmbeddingGenerator.sqrt_exact
    Inputs.query_vector
    (EmbeddingDispatch.generate_batch_embeddings (fun s : string => s)
       Inputs.never (Inputs.always Inputs.graph_vector) Inputs.never
       ["a"%string; "b"%string] "graphcodebert")
    10 (7 # 10) = [].
Proof.
  apply (@graphcodebert_queries_find_nothing EmbeddingGenerator.sqrt_exact
           string (fun s => s) Inputs.never
           (Inputs.always Inputs.graph_vector) Inputs.never
           Inputs.never (Inputs.always Inputs.query_vector)
           ["a"%string; "b"%string] "sort a list"%string Inputs.query_vector 10 (7 # 10)).
  - intros s v H. inversion H. reflexivity.
  - intros q v H. inversion H. reflexivity.
  - reflexivity.
  - reflexivity.
Defined.

(** X16.  A batch of embeddings is a dictionary: every snippet ID occurs
    once, and every stored vector is a non-empty vector that the chosen
    strategy produced for a snippet of the batch with that ID. *)
Theorem batch_embeddings_entries (Snippet : Type)
    (snippet_id : Snippet -> string)
    (codebert graphcodebert sentence
       : Snippet -> option EmbeddingGenerator.embedding)
    (snippets : list Snippet) (model_type : string) :
  let batch :=
    EmbeddingDispatch.generate_batch_embeddings snippet_id codebert
      graphcodebert sentence snippets model_type in
  NoDup (map fst batch)
  /\ forall id v,
       In (id, v) batch ->
       v <> []
       /\ exists snippet,
            In snippet snippets
            /\ snippet_id snippet = id
            /\ EmbeddingDispatch.generate_embedding codebert graphcodebert
                 sentence snippet model_type = Some v.
Proof.
  cbv zeta. unfold EmbeddingDispatch.generate_batch_embeddings.
  set (P := fun (seen : list Snippet)
                (item : string * EmbeddingGenerator.embedding) =>
              snd item <> []
              /\ exists snippet,
                   In snippet seen
                   /\ snippet_id snippet = fst item
                   /\ EmbeddingDispatch.generate_embedding codebert
                        graphcodebert sentence snippet model_type
                      = Some (snd item)).
  assert (G : forall todo seen d,
             NoDup (map fst d) -> Forall (P seen) d ->
             let r :=
               fold_left
                 (fun embeddings snippet =>
                    match EmbeddingDispatch.generate_embedding codebert
                            graphcodebert sentence snippet model_type
                    with
                    | Some (x :: v) =>
                        EmbeddingDispatch.dict_set (snippet_id snippet)
                          (x :: v) embeddings
                    | _ => embeddings
                    end) todo d in
             NoDup (map fst r) /\ Forall (P (seen ++ todo)%list) r).
  { induction todo as [|s l IH]; intros seen d Hn Hd; cbv zeta.
    - rewrite app_nil_r. now split.
    - cbn [fold_left].
      replace (seen ++ s :: l)%list with ((seen ++ [s]) ++ l)%list
        by (rewrite <- app_assoc; reflexivity).
      assert (Hd' : Forall (P (seen ++ [s])%list) d).
      { eapply Forall_impl; [|exact Hd].
        intros item (Hne & sn & Hin & Hid & He). split; [exact Hne|].
        exists sn. split; [apply in_or_app; now left|now split]. }
      destruct (EmbeddingDispatch.generate_embedding codebert graphcodebert
                  sentence s model_type) as [[|x v]|] eqn:E;
        try (apply IH; assumption).
      apply IH; [now apply dict_set_NoDup|].
      apply dict_set_Forall; [|exact Hd'].
      split; [discriminate|]. exists s.
      split; [apply in_or_app; right; now left|now split]. }
  destruct (G snippets [] [] (NoDup_nil _) (Forall_nil _)) as [Hn Hf].
  split; [exact Hn|].
  intros id v Hin. rewrite Forall_forall in Hf.
  exact (Hf (id, v) Hin).
Qed.

(** X17.  The nearest-neighbour lookup over a dictionary of embeddings
    names every snippet at most once, and only snippets of the
    dictionary. *)
Theorem find_similar_ids_distinct (sqrt : Q -> Q)
    (query_embedding : EmbeddingGenerator.embedding)
    (snippet_embeddings : list (string * EmbeddingGenerator.embedding))
    (top_k : Z) (threshold : Q) :
  NoDup (map fst snippet_embeddings) ->
  let found :=
    EmbeddingGenerator.find_similar_snippets sqrt query_embedding
      snippet_embeddings top_k threshold in
  NoDup (map fst found) /\ incl (map fst found) (map fst snippet_embeddings).
Proof.
  intros Hn found. subst found.
  unfold EmbeddingGenerator.find_similar_snippets. cbv zeta.
  set (sims := EmbeddingGenerator.similarities_above sqrt query_embedding
                 snippet_embeddings threshold).
  destruct (similarities_above_keys sqrt query_embedding snippet_embeddings
              threshold) as [keep Hk]. fold sims in Hk.
  set (sorted := PyList.sort_desc (fun x : string * Q => snd x) sims).
  assert (Hp : Permutation (map fst sorted) (map fst sims))
    by (apply Permutation_map, sort_desc_perm).
  destruct (py_take_prefix top_k sorted) as [rest Hr].
  assert (Hs : NoDup (map fst sorted)).
  { eapply Permutation_NoDup; [apply Permutation_sym, Hp|].
    rewrite Hk. now apply NoDup_map_filter. }
  split.
  - rewrite Hr, map_app in Hs. now apply NoDup_app_l in Hs.
  - intros k Hin.
    assert (Hin' : In k (map fst sorted)).
    { rewrite Hr, map_app. apply in_or_app. now left. }
    apply (Permutation_in _ Hp) in Hin'. rewrite Hk in Hin'.
    apply in_map_iff in Hin' as (y & <- & Hy).
    apply filter_In in Hy as [Hy _]. now apply in_map.
Qed.

Lemma find_similar_ids_distinct_witness :
  let found :=
    EmbeddingGenerator.find_similar_snippets EmbeddingGenerator.sqrt_exact
      Inputs.three_four Scenarios.twin_embeddings 10 (1 # 2) in
  NoDup (map fst found)
  /\ incl (map fst found) (map fst Scenarios.twin_embeddings).
Proof.
  apply (@find_similar_ids_distinct EmbeddingGenerator.sqrt_exact
           Inputs.three_four Scenarios.twin_embeddings 10 (1 # 2)).
  vm_compute. repeat constructor; simpl; intuition discriminate.
Defined.

(* ===================================================================== *)
(** * Ranking engine: further properties *)
(* ===================================================================== *)

Section SortedFacts.
Import PyList.
Context {A : Type}.
Variable key : A -> Q.

Lemma insert_desc_head (x : A) (l : list A) :
  Forall (desc key x) l -> insert_desc key x l = x :: l.
Proof.
  destruct 1 as [|y l Hy Hl]; simpl; [reflexivity|].
  unfold desc in Hy. apply Qle_bool_iff in Hy. now rewrite Hy.
Qed.

Lemma sort_desc_of_sorted (l : list A) :
  StronglySorted (desc key) l -> sort_desc key l = l.
Proof.
  induction 1 as [|x l Hs IH Hall]; simpl; [reflexivity|].
  rewrite IH. now apply insert_desc_head.
Qed.


Lemma filter_insert_desc (p : A -> bool) (x : A) (l : list A) :
  StronglySorted (desc key) l ->
  filter p (insert_desc key x l)
  = if p x then insert_desc key x (filter p l) else filter p l.
Proof.
  induction 1 as [|y l Hs IH Hall]; simpl.
  - destruct (p x); reflexivity.
  - destruct (Qle_bool (key y) (key x)) eqn:E.
    + cbn [filter]. destruct (p x) eqn:Px; [|reflexivity].
      symmetry. apply insert_desc_head.
      apply Qle_bool_iff in E.
      assert (Hall' : Forall (desc key x) (y :: l)).
      { constructor; [exact E|].
        eapply Forall_impl; [|exact Hall].
        intros z Hz. unfold desc in *. now apply Qle_trans with (key y). }
      assert (Hf : forall m, Forall (desc key x) m ->
                             Forall (desc key x) (filter p m)).
      { induction 1 as [|z m Hz Hm IHm]; simpl; [constructor|].
        destruct (p z); [now constructor|exact IHm]. }
      apply (Hf (y :: l)), Hall'.
    + cbn [filter]. rewrite IH.
      destruct (p y) eqn:Py, (p x) eqn:Px; try reflexivity.
      simpl. now rewrite E.
Qed.

Lemma filter_sort_desc (p : A -> bool) (l : list A) :
  filter p (sort_desc key l) = sort_desc key (filter p l).
Proof.
  induction l as [|x l IH]; simpl; [reflexivity|].
  rewrite filter_insert_desc by apply sort_desc_sorted.
  rewrite IH. destruct (p x); reflexivity.
Qed.

End SortedFacts.

Section RankingBounds.
Import PyStr PyList Models RankingEngine Filtering.
Local Open Scope Q_scope.

Variable weights : SEARCH_WEIGHTS.
Variable utcnow : Z.
Variable log10 : Q -> Q.

Lemma Qdiv_nonneg (a b : Q) : 0 <= a -> 0 < b -> 0 <= a / b.
Proof.
  intros Ha Hb. unfold Qdiv. apply Qmult_le_0_compat; [exact Ha|].
  apply Qlt_le_weak, Qinv_lt_0_compat, Hb.
Qed.

Lemma Qmin_nonneg (a b : Q) : 0 <= a -> 0 <= b -> 0 <= Qmin a b.
Proof. intros Ha Hb. apply Q.min_glb; assumption. Qed.

Lemma count_nonneg {A : Type} (f : A -> bool) (l : list A) :
  0 <= inject_Z (count f l).
Proof.
  unfold count. change 0 with (inject_Z 0). rewrite <- Zle_Qle. lia.
Qed.

Lemma count_le_length {A : Type} (f : A -> bool) (l : list A) :
  (count f l <= Z.of_nat (List.length l))%Z.
Proof.
  unfold count. apply Nat2Z.inj_le. apply filter_length_le.
Qed.

Lemma keyword_score_bounds (result : SearchResult) (query : SearchQuery) :
  0 <= _calculate_keyword_score result query <= 1.
Proof.
  unfold _calculate_keyword_score.
  destruct (query_keywords query) as [|k ks] eqn:E; [split; discriminate|].
  cbv zeta. split; [|apply Q.le_min_r].
  apply Qmin_nonneg; [|discriminate].
  apply Qdiv_nonneg.
  - apply (Qplus_le_compat 0 _ 0); [apply count_nonneg|].
    apply Qmult_le_0_compat; [apply count_nonneg|discriminate].
  - apply Qmult_lt_0_compat; [|reflexivity].
    change 0 with (inject_Z 0). rewrite <- Zlt_Qlt.
    assert (Hin : In k (nodup string_dec (k :: ks)))
      by (apply nodup_In; now left).
    destruct (nodup string_dec (k :: ks)); [contradiction|].
    cbn [List.length]. lia.
Qed.

Lemma quality_score_bounds (result : SearchResult) :
  0 <= _calculate_quality_score result <= 1.
Proof.
  unfold _calculate_quality_score. cbv zeta. split.
  - apply Q.le_max_r.
  - apply Q.max_lub; [apply Q.le_min_r|discriminate].
Qed.

Lemma recency_score_bounds (result : SearchResult) :
  0 <= _calculate_recency_score utcnow result <= 1.
Proof.
  unfold _calculate_recency_score.
  destruct (created_at (snippet result)) as [[t|t]|];
    try (split; discriminate).
  cbv zeta. repeat (destruct (_ <=? _)%Z); split; discriminate.
Qed.

Lemma documentation_score_bounds (result : SearchResult) :
  0 <= _calculate_documentation_score result <= 1.
Proof.
  unfold _calculate_documentation_score.
  set (lines := split_lines (content (snippet result))).
  set (comments :=
         count (fun line =>
                  startswith_any (strip line) ["#"; "//"; "/*"; "*/"]%string)
           lines).
  assert (Hm : 0 <= Qmin
                      (inject_Z comments
                       / inject_Z (Z.of_nat (List.length lines)) * (3 # 10))
                      (1 # 10)).
  { apply Qmin_nonneg; [|discriminate].
    apply Qmult_le_0_compat; [|discriminate].
    unfold Qdiv. apply Qmult_le_0_compat; [apply count_nonneg|].
    apply Qinv_le_0_compat. change 0 with (inject_Z 0).
    rewrite <- Zle_Qle. lia. }
  revert Hm.
  generalize (Qmin
                (inject_Z comments
                 / inject_Z (Z.of_nat (List.length lines)) * (3 # 10))
                (1 # 10)).
  intros m Hm.
  destruct (nonempty (docstring (snippet result)));
    destruct (name (snippet result)) as [n|];
    try destruct (negb (n =? "")%string && (2 <? len n)%Z);
    destruct (parameters (snippet result)) as [[|? ?]|];
    destruct (nonempty (return_type (snippet result)));
    destruct (0 <? Z.of_nat (List.length lines))%Z;
    cbv zeta; (split; [apply Qmin_nonneg; [lra|discriminate]
                      |apply Q.le_min_r]).
Qed.

Lemma Qmin_div_bounds (n d : Z) :
  (0 <= n)%Z -> (0 < d)%Z -> 0 <= Qmin (inject_Z n / inject_Z d) 1 <= 1.
Proof.
  intros Hn Hd. split; [|apply Q.le_min_r].
  apply Qmin_nonneg; [|discriminate].
  apply Qdiv_nonneg; change 0 with (inject_Z 0);
    [now rewrite <- Zle_Qle|now rewrite <- Zlt_Qlt].
Qed.

Lemma popularity_score_bounds (result : SearchResult) :
  (0 <= usage_count (snippet result))%Z ->
  (0 <= view_count result)%Z ->
  (forall x, 1 <= x -> 0 <= log10 x) ->
  0 <= _calculate_popularity_score log10 result <= 1.
Proof.
  intros Hu Hv Hlog. unfold _calculate_popularity_score. cbv zeta.
  pose proof (@Qmin_div_bounds _ 100 Hu eq_refl) as Hus.
  pose proof (@Qmin_div_bounds _ 50 Hv eq_refl) as Hvs.
  change (inject_Z 100) with 100 in Hus. change (inject_Z 50) with 50 in Hvs.
  revert Hus Hvs.
  generalize (Qmin (inject_Z (usage_count (snippet result)) / 100) 1).
  generalize (Qmin (inject_Z (view_count result) / 50) 1).
  intros v u Hus Hvs.
  assert (Hr : 0 <= match repository_stars (snippet result) with
                    | Some stars =>
                        if (0 <? stars)%Z
                        then Qmin (log10 (inject_Z (stars + 1)) / 5) 1
                        else 0
                    | None => 0
                    end <= 1).
  { destruct (repository_stars (snippet result)) as [stars|];
      [|split; discriminate].
    destruct (0 <? stars)%Z eqn:E; [|split; discriminate].
    apply Z.ltb_lt in E. split; [|apply Q.le_min_r].
    apply Qmin_nonneg; [|discriminate].
    apply Qdiv_nonneg; [|reflexivity].
    apply Hlog. change 1 with (inject_Z 1). rewrite <- Zle_Qle. lia. }
  revert Hr. generalize (match repository_stars (snippet result) with
                         | Some stars =>
                             if (0 <? stars)%Z
                             then Qmin (log10 (inject_Z (stars + 1)) / 5) 1
                             else 0
                         | None => 0
                         end).
  intros r Hr. lra.
Qed.

Lemma scaled_within (s w : Q) : 0 <= s <= 1 -> 0 <= w -> 0 <= s * w <= w.
Proof.
  intros [H0 H1] Hw. split; [now apply Qmult_le_0_compat|].
  setoid_replace w with (1 * w) at 2 by ring.
  now apply Qmult_le_compat_r.
Qed.


Lemma keeps_set_relevance (fq : FilterQuery) (result : SearchResult)
    (score : Q) :
  keeps fq (set_relevance_score result score) = keeps fq result.
Proof. reflexivity. Qed.

Lemma filter_loop_as_filter (fq : FilterQuery)
    (todo acc : list SearchResult) :
  filter_loop fq todo acc
  = if existsb (fails fq) todo
    then match filter_loop fq todo acc with
         | PyExn.Ok _ => PyExn.Raise PyExn.TypeError
         | PyExn.Raise e => PyExn.Raise e
         end
    else PyExn.Ok (acc ++ filter (kept fq) todo)%list.
Proof.
  revert acc. induction todo as [|r rest IH]; intro acc;
    cbn [filter_loop existsb filter].
  - now rewrite app_nil_r.
  - unfold fails at 1, kept at 1.
    destruct (keeps fq r) as [[|]|e]; cbn [orb]; try reflexivity.
    + rewrite (IH (acc ++ [r])%list).
      destruct (existsb (fails fq) rest).
      * now destruct (filter_loop fq rest (acc ++ [r])%list).
      * now rewrite <- app_assoc.
    + rewrite (IH acc). destruct (existsb (fails fq) rest); [|reflexivity].
      now destruct (filter_loop fq rest acc).
Qed.

Lemma filter_loop_raises (fq : FilterQuery) (todo acc : list SearchResult) :
  existsb (fails fq) todo = true ->
  exists e, filter_loop fq todo acc = PyExn.Raise e.
Proof.
  revert acc. induction todo as [|r rest IH]; intro acc;
    cbn [filter_loop existsb]; [discriminate|].
  unfold fails at 1.
  destruct (keeps fq r) as [[|]|e]; cbn [orb]; intro H;
    [now apply IH|now apply IH|now exists e].
Qed.

(** [filter_results] either filters by the loop body or, when the body
    raises on some result, gives the list back. *)
Lemma filter_results_cases (results : list SearchResult)
    (fq : FilterQuery) :
  filter_results results fq
  = if existsb (fails fq) results then results
    else filter (kept fq) results.
Proof.
  unfold filter_results. rewrite filter_loop_as_filter.
  destruct (existsb (fails fq) results) eqn:E; [|reflexivity].
  destruct (@filter_loop_raises fq results [] E) as [e ->]. reflexivity.
Qed.

Lemma existsb_Permutation {A : Type} (p : A -> bool) (l l' : list A) :
  Permutation l l' -> existsb p l = existsb p l'.
Proof.
  induction 1 as [|x l l' _ IH|x y l|l l' l'' _ IH1 _ IH2]; simpl.
  - reflexivity.
  - now rewrite IH.
  - now rewrite !orb_assoc, (orb_comm (p y)).
  - congruence.
Qed.

Lemma existsb_map_fixed {A : Type} (p : A -> bool) (f : A -> A)
    (l : list A) :
  (forall x, p (f x) = p x) -> existsb p (map f l) = existsb p l.
Proof.
  intro H. induction l as [|x l IH]; simpl; [reflexivity|].
  now rewrite H, IH.
Qed.

Lemma existsb_filter_false {A : Type} (p q : A -> bool) (l : list A) :
  existsb p l = false -> existsb p (filter q l) = false.
Proof.
  induction l as [|x l IH]; simpl; [trivial|].
  intro H. apply orb_false_iff in H as [Hx Hl].
  destruct (q x); simpl; [rewrite Hx|]; now apply IH.
Qed.

Lemma filter_idem {A : Type} (p : A -> bool) (l : list A) :
  filter p (filter p l) = filter p l.
Proof.
  induction l as [|x l IH]; simpl; [reflexivity|].
  destruct (p x) eqn:E; simpl; [now rewrite E, IH|exact IH].
Qed.

Lemma keeps_apply_boost (fq : FilterQuery) (query : SearchQuery)
    (result : SearchResult) :
  keeps fq (apply_boost query result) = keeps fq result.
Proof. reflexivity. Qed.

Lemma filter_map_fixed {A : Type} (p : A -> bool) (f : A -> A)
    (l : list A) :
  (forall x, p (f x) = p x) -> filter p (map f l) = map f (filter p l).
Proof.
  intro H. induction l as [|x l IH]; simpl; [reflexivity|].
  rewrite H, IH. destruct (p x); reflexivity.
Qed.


End RankingBounds.

(** X18.  With non-negative weights that sum to 1, as those of the
    settings, a similarity between 0 and 1 and non-negative usage and
    view counts, the weighted sum of the six factors lies between 0 and
    1; for a result with the default boosts of 1 it is the relevance
    score, which the final cap leaves unchanged. *)
Theorem unboosted_relevance_is_weighted_sum
    (weights : RankingEngine.SEARCH_WEIGHTS) (utcnow : Z) (log10 : Q -> Q)
    (result : Models.SearchResult) (query : Models.SearchQuery) :
  (0 <= RankingEngine.semantic_similarity weights)%Q ->
  (0 <= RankingEngine.keyword_match weights)%Q ->
  (0 <= RankingEngine.code_quality weights)%Q ->
  (0 <= RankingEngine.popularity weights)%Q ->
  (0 <= RankingEngine.recency weights)%Q ->
  (0 <= RankingEngine.documentation weights)%Q ->
  (RankingEngine.semantic_similarity weights
   + RankingEngine.keyword_match weights
   + RankingEngine.code_quality weights
   + RankingEngine.popularity weights
   + RankingEngine.recency weights
   + RankingEngine.documentation weights == 1)%Q ->
  (0 <= Models.similarity_score result <= 1)%Q ->
  (0 <= Models.usage_count (Models.snippet result))%Z ->
  (0 <= Models.view_count result)%Z ->
  (forall x, (1 <= x)%Q -> (0 <= log10 x)%Q) ->
  (Models.quality_boost result == 1)%Q ->
  (Models.popularity_boost result == 1)%Q ->
  (Models.recency_boost result == 1)%Q ->
  (Models.documentation_boost result == 1)%Q ->
  (0 <= RankingEngine.weighted_sum weights utcnow log10 result query <= 1)%Q
  /\ (RankingEngine._calculate_relevance_score weights utcnow log10 result
        query
      == RankingEngine.weighted_sum weights utcnow log10 result query)%Q.
Proof.
  intros W1 W2 W3 W4 W5 W6 Wsum Hs Hu Hv Hlog B1 B2 B3 B4.
  assert (Hsum : (0 <= RankingEngine.weighted_sum weights utcnow log10
                         result query <= 1)%Q).
  { unfold RankingEngine.weighted_sum. cbv zeta.
    pose proof (scaled_within Hs W1) as S1.
    pose proof (scaled_within (keyword_score_bounds result query) W2) as S2.
    pose proof (scaled_within (quality_score_bounds result) W3) as S3.
    pose proof (scaled_within
                  (@popularity_score_bounds log10 result Hu Hv Hlog) W4)
      as S4.
    pose proof (scaled_within (recency_score_bounds utcnow result) W5) as S5.
    pose proof (scaled_within (documentation_score_bounds result) W6) as S6.
    revert S1 S2 S3 S4 S5 S6.
    generalize (RankingEngine._calculate_keyword_score result query).
    generalize (RankingEngine._calculate_quality_score result).
    generalize (RankingEngine._calculate_popularity_score log10 result).
    generalize (RankingEngine._calculate_recency_score utcnow result).
    generalize (RankingEngine._calculate_documentation_score result).
    intros d r p q k S1 S2 S3 S4 S5 S6.
    revert S1 S2 S3 S4 S5 S6.
    generalize (Models.similarity_score result * RankingEngine.semantic_similarity weights)%Q.
    generalize (k * RankingEngine.keyword_match weights)%Q.
    generalize (q * RankingEngine.code_quality weights)%Q.
    generalize (p * RankingEngine.popularity weights)%Q.
    generalize (r * RankingEngine.recency weights)%Q.
    generalize (d * RankingEngine.documentation weights)%Q.
    intros. lra. }
  split; [exact Hsum|].
  unfold RankingEngine._calculate_relevance_score. cbv zeta.
  rewrite B1, B2, B3, B4.
  revert Hsum.
  generalize (RankingEngine.weighted_sum weights utcnow log10 result query).
  intros s [H0 H1]. rewrite Q.min_l; [ring|lra].
Qed.

Lemma unboosted_relevance_is_weighted_sum_witness :
  (0 <= RankingEngine.weighted_sum RankingEngine.settings_SEARCH_WEIGHTS 0
          Inputs.unused_log10 (Inputs.sample_result None) Scenarios.sort_query
      <= 1)%Q
  /\ (RankingEngine._calculate_relevance_score
        RankingEngine.settings_SEARCH_WEIGHTS 0 Inputs.unused_log10
        (Inputs.sample_result None) Scenarios.sort_query
      == RankingEngine.weighted_sum RankingEngine.settings_SEARCH_WEIGHTS 0
           Inputs.unused_log10 (Inputs.sample_result None)
           Scenarios.sort_query)%Q.
Proof.
  apply (@unboosted_relevance_is_weighted_sum
           RankingEngine.settings_SEARCH_WEIGHTS 0 Inputs.unused_log10
           (Inputs.sample_result None) Scenarios.sort_query).
  - vm_compute. discriminate.
  - vm_compute. discriminate.
  - vm_compute. discriminate.
  - vm_compute. discriminate.
  - vm_compute. discriminate.
  - vm_compute. discriminate.
  - reflexivity.
  - split; vm_compute; discriminate.
  - vm_compute. discriminate.
  - vm_compute. discriminate.
  - intros x _. vm_compute. discriminate.
  - reflexivity.
  - reflexivity.
  - reflexivity.
  - reflexivity.
Defined.

(** A snippet without a repository object, as every snippet of the
    declared model is, has a popularity factor of at most one half,
    whatever its usage and view counts. *)
Theorem popularity_at_most_half_without_repository (log10 : Q -> Q)
    (result : Models.SearchResult) :
  Models.repository_stars (Models.snippet result) = None ->
  (RankingEngine._calculate_popularity_score log10 result <= 1 # 2)%Q.
Proof.
  intro H. unfold RankingEngine._calculate_popularity_score. cbv zeta.
  rewrite H.
  pose proof (Q.le_min_r
                (inject_Z (Models.usage_count (Models.snippet result)) / 100)
                1) as Hu.
  pose proof (Q.le_min_r (inject_Z (Models.view_count result) / 50) 1) as Hv.
  revert Hu Hv.
  generalize (Qmin (inject_Z (Models.usage_count (Models.snippet result))
                    / 100) 1).
  generalize (Qmin (inject_Z (Models.view_count result) / 50) 1).
  intros v u Hu Hv. lra.
Qed.

Lemma popularity_at_most_half_without_repository_witness :
  (RankingEngine._calculate_popularity_score Inputs.unused_log10
     (Inputs.sample_result None) <= 1 # 2)%Q.
Proof.
  apply (@popularity_at_most_half_without_repository Inputs.unused_log10
           (Inputs.sample_result None)).
  reflexivity.
Defined.

(** X19.  Among snippets with a timezone-naive creation date, the
    recency factor never rises with age: of two such snippets, the one
    created earlier has the smaller or the same recency score.  (A
    timezone-aware date makes the subtraction from [utcnow()] raise, and
    the snippet gets the handler's 0.5 whatever its age.) *)
Theorem recency_never_rises_with_age (utcnow : Z)
    (older newer : Models.SearchResult) (t1 t2 : Z) :
  Models.created_at (Models.snippet older) = Some (Models.naive t1) ->
  Models.created_at (Models.snippet newer) = Some (Models.naive t2) ->
  (t1 <= t2)%Z ->
  (RankingEngine._calculate_recency_score utcnow older
   <= RankingEngine._calculate_recency_score utcnow newer)%Q.
Proof.
  intros H1 H2 Hle. unfold RankingEngine._calculate_recency_score.
  rewrite H1, H2. cbv zeta.
  assert (Hd : ((utcnow - t2) / 86400 <= (utcnow - t1) / 86400)%Z)
    by (apply Z.div_le_mono; lia).
  revert Hd.
  generalize ((utcnow - t2) / 86400)%Z, ((utcnow - t1) / 86400)%Z.
  intros d2 d1 Hd.
  destruct (Z.leb_spec d1 30), (Z.leb_spec d1 90), (Z.leb_spec d1 365),
    (Z.leb_spec d1 730), (Z.leb_spec d2 30), (Z.leb_spec d2 90),
    (Z.leb_spec d2 365), (Z.leb_spec d2 730);
    try lia; unfold Qle; simpl; lia.
Qed.

Lemma recency_never_rises_with_age_witness :
  (RankingEngine._calculate_recency_score 8640000
     (Inputs.sample_result (Some (Models.naive 0)))
   <= RankingEngine._calculate_recency_score 8640000
        (Inputs.sample_result (Some (Models.naive 8000000))))%Q.
Proof.
  apply (@recency_never_rises_with_age 8640000
           (Inputs.sample_result (Some (Models.naive 0)))
           (Inputs.sample_result (Some (Models.naive 8000000))) 0 8000000).
  - reflexivity.
  - reflexivity.
  - lia.
Defined.

(** X20.  On a result that still has the default quality boost of 1, the
    query-specific boosts give a quality boost between 0.8 and 1.8876:
    the cap of 2 is not reached by one application. *)
Theorem first_quality_boost_below_cap (query : Models.SearchQuery)
    (result : Models.SearchResult) :
  (Models.quality_boost result == 1)%Q ->
  (8 # 10
   <= Models.quality_boost (RankingEngine.apply_boost query result)
   <= 18876 # 10000)%Q.
Proof.
  intro H. unfold RankingEngine.apply_boost. cbv zeta.
  cbn [Models.quality_boost].
  revert H. generalize (Models.quality_boost result). intros b H.
  destruct (RankingEngine.mem _ (Models.languages query));
    destruct (RankingEngine.mem _ (Models.repositories query));
    destruct (RankingEngine.mem _ (Models.complexity_levels query));
    destruct (Models.intent query) as [[]|];
    unfold RankingEngine._get_intent_boost; cbv zeta;
    repeat match goal with
           | |- context [if ?c then _ else _] => destruct c
           end;
    (split;
     [apply Q.min_glb; lra
     |eapply Qle_trans; [apply Q.le_min_l|lra]]).
Qed.

Lemma first_quality_boost_below_cap_witness :
  (8 # 10
   <= Models.quality_boost
        (RankingEngine.apply_boost Scenarios.sort_query
           (Inputs.sample_result None))
   <= 18876 # 10000)%Q.
Proof.
  apply (@first_quality_boost_below_cap Scenarios.sort_query
           (Inputs.sample_result None)).
  reflexivity.
Defined.


(** X22.  Filtering and ranking can be done in either order.  Whether
    the filter keeps a result, drops it, or raises on it (a naive
    creation date met with an aware bound of the date range, or the
    reverse) depends on the similarity and the snippet of that result
    alone, which neither the boosts nor the ranking change; when it
    raises on some result, the filter gives back the whole list it was
    given.  So filtering the boosted and ranked list gives the list
    obtained by boosting and ranking the filtered one, and filtering
    twice is filtering once. *)
Theorem filter_commutes_with_ranking (weights : RankingEngine.SEARCH_WEIGHTS)
    (utcnow : Z) (log10 : Q -> Q) (results : list Models.SearchResult)
    (query : Models.SearchQuery) (fq : Filtering.FilterQuery) :
  Filtering.filter_results
    (RankingEngine.rank_results weights utcnow log10
       (RankingEngine.apply_boosts results query) query) fq
  = RankingEngine.rank_results weights utcnow log10
      (RankingEngine.apply_boosts (Filtering.filter_results results fq)
         query) query
  /\ Filtering.filter_results (Filtering.filter_results results fq) fq
     = Filtering.filter_results results fq.
Proof.
  assert (Hkeeps : forall x,
             Filtering.keeps fq
               (RankingEngine.set_relevance_score
                  (RankingEngine.apply_boost query x)
                  (RankingEngine._calculate_relevance_score weights utcnow
                     log10 (RankingEngine.apply_boost query x) query))
             = Filtering.keeps fq x).
  { intro x. rewrite keeps_set_relevance. apply keeps_apply_boost. }
  split.
  - rewrite !filter_results_cases.
    unfold RankingEngine.rank_results, RankingEngine.apply_boosts.
    cbv zeta. rewrite !map_map.
    rewrite (existsb_Permutation (Filtering.fails fq)
               (sort_desc_perm Models.relevance_score _)).
    rewrite existsb_map_fixed
      by (intro x; unfold Filtering.fails; now rewrite Hkeeps).
    destruct (existsb (Filtering.fails fq) results); [reflexivity|].
    rewrite filter_sort_desc. f_equal.
    apply filter_map_fixed.
    intro x. unfold Filtering.kept. now rewrite Hkeeps.
  - rewrite !filter_results_cases.
    destruct (existsb (Filtering.fails fq) results) eqn:E.
    + now rewrite E.
    + rewrite existsb_filter_false by exact E. apply filter_idem.
Qed.

(* ===================================================================== *)
(** * Lexical search: further properties *)
(* ===================================================================== *)

Section LexicalFacts.
Import PyStr PyList PyExn SemanticSearch Notions.
Local Open Scope Q_scope.

Lemma hit_nonneg (b : bool) (w : Q) : 0 <= w -> 0 <= hit b w.
Proof. destruct b; simpl; [trivial|discriminate]. Qed.

Lemma sumQ_nonneg (l : list Q) : Forall (fun x => 0 <= x) l -> 0 <= sumQ l.
Proof.
  induction 1 as [|x l Hx Hl IH]; simpl; [discriminate|].
  apply (Qplus_le_compat 0 _ 0); assumption.
Qed.

Lemma sumQ_hits_nonneg {A : Type} (f : A -> bool) (w : Q) (l : list A) :
  0 <= w -> 0 <= sumQ (map (fun a => hit (f a) w) l).
Proof.
  intro Hw. apply sumQ_nonneg, Forall_forall. intros x Hx.
  apply in_map_iff in Hx as (a & <- & _). now apply hit_nonneg.
Qed.

Lemma sumQ_hits_one {A : Type} (f : A -> bool) (w : Q) (l : list A) :
  0 <= w -> existsb f l = true -> w <= sumQ (map (fun a => hit (f a) w) l).
Proof.
  intros Hw. induction l as [|a l IH]; simpl; [discriminate|].
  pose proof (@sumQ_hits_nonneg _ f w l Hw) as Hn.
  destruct (f a); simpl.
  - intros _. lra.
  - intro H. specialize (IH H). lra.
Qed.

Lemma token_hits_nonneg (snippet : CodeSnippet) (tokens : list string) :
  0 <= sumQ (map (fun token =>
                    hit (contains token (lower (CodeParser.content snippet)))
                      (1#10)
                    + hit (contains token (lower (CodeParser.name snippet)))
                        (2#10)
                    + hit (contains token
                             (lower (CodeParser.description snippet)))
                        (15#100))
               tokens).
Proof.
  apply sumQ_nonneg, Forall_forall. intros x Hx.
  apply in_map_iff in Hx as (a & <- & _).
  repeat apply (Qplus_le_compat 0 _ 0); try apply hit_nonneg; discriminate.
Qed.

Lemma contains_empty (hay : string) : contains "" hay = true.
Proof. unfold contains. now destruct (list_ascii_of_string hay). Qed.

Lemma Qmin_one_l (x : Q) : 1 <= x -> Qmin 1 x = 1.
Proof.
  intro H. unfold Qmin, GenericMinMax.gmin.
  destruct (1 ?= x) eqn:E; try reflexivity.
  exfalso. apply Qgt_alt in E. apply (Qlt_not_le _ _ E H).
Qed.

Lemma sub_ci_no_match (part : chars) (repl : chars -> chars) (l : chars) :
  occurs_ci part l = false -> sub_ci part repl 0 l = l.
Proof.
  induction l as [|c l IH]; [reflexivity|].
  cbn [occurs_ci sub_ci].
  destruct (match_ci part (c :: l)); [discriminate|].
  intro H. now rewrite IH.
Qed.

Lemma equal_keys_sorted {A : Type} (key : A -> Q) (q : Q) (l : list A) :
  Forall (fun x => key x = q) l -> StronglySorted (desc key) l.
Proof.
  induction 1 as [|x l Hx Hl IH]; constructor; [exact IH|].
  eapply Forall_impl; [|exact Hl].
  intros y Hy. unfold desc. rewrite Hx, Hy. apply Qle_refl.
Qed.

End LexicalFacts.

(** X23.  The match type bounds the score from below: for a snippet
    with a non-negative quality score, a result marked exact_name scores
    at least 0.9, content_match at least 0.8, description_match at least
    0.7 and tag_match at least 0.6. *)
Theorem match_type_bounds_score (snippet : SemanticSearch.CodeSnippet)
    (query : string) :
  (0 <= CodeParser.quality_score snippet)%Q ->
  let match_type := SemanticSearch._determine_match_type snippet query in
  let score := SemanticSearch._calculate_relevance_score snippet query in
  (match_type = "exact_name"%string -> (9 # 10 <= score)%Q)
  /\ (match_type = "content_match"%string -> (8 # 10 <= score)%Q)
  /\ (match_type = "description_match"%string -> (7 # 10 <= score)%Q)
  /\ (match_type = "tag_match"%string -> (6 # 10 <= score)%Q).
Proof.
  intros Hq match_type score. subst match_type score.
  rewrite lexical_score_as_spec.
  unfold SemanticSearch.lexical_score_spec,
    SemanticSearch._determine_match_type. cbv zeta.
  pose proof (token_hits_nonneg snippet (PyStr.split query)) as Htok.
  pose proof (@sumQ_hits_nonneg _
                (fun tag => PyStr.contains query (PyStr.lower tag))
                (6 # 10) (CodeParser.tags snippet) ltac:(discriminate))
    as Htags.
  pose proof (@sumQ_hits_one _
                (fun tag => PyStr.contains query (PyStr.lower tag))
                (6 # 10) (CodeParser.tags snippet) ltac:(discriminate))
    as Htag.
  pose proof (@hit_nonneg
                (PyStr.contains query
                   (PyStr.lower (CodeParser.language snippet)))
                (5 # 10) ltac:(discriminate)) as Hl.
  pose proof (@hit_nonneg
                (PyStr.contains query
                   (PyStr.lower (CodeParser.type snippet)))
                (4 # 10) ltac:(discriminate)) as Ht.
  pose proof (@hit_nonneg
                (PyStr.contains query
                   (PyStr.lower (CodeParser.file_path snippet)))
                (3 # 10) ltac:(discriminate)) as Hf.
  revert Htok Htags Htag Hl Ht Hf.
  generalize (SemanticSearch.sumQ
                (map (fun token =>
                        (SemanticSearch.hit
                           (PyStr.contains token
                              (PyStr.lower (CodeParser.content snippet)))
                           (1 # 10)
                         + SemanticSearch.hit
                             (PyStr.contains token
                                (PyStr.lower (CodeParser.name snippet)))
                             (2 # 10)
                         + SemanticSearch.hit
                             (PyStr.contains token
                                (PyStr.lower
                                   (CodeParser.description snippet)))
                             (15 # 100))%Q)
                   (PyStr.split query))).
  generalize (SemanticSearch.sumQ
                (map (fun tag =>
                        SemanticSearch.hit
                          (PyStr.contains query (PyStr.lower tag)) (6 # 10))
                   (CodeParser.tags snippet))).
  generalize (SemanticSearch.hit
                (PyStr.contains query
                   (PyStr.lower (CodeParser.language snippet))) (5 # 10)).
  generalize (SemanticSearch.hit
                (PyStr.contains query
                   (PyStr.lower (CodeParser.type snippet))) (4 # 10)).
  generalize (SemanticSearch.hit
                (PyStr.contains query
                   (PyStr.lower (CodeParser.file_path snippet))) (3 # 10)).
  intros f t l tags tok Htok Htags Htag Hl Ht Hf.
  destruct (PyStr.contains query (PyStr.lower (CodeParser.name snippet)));
    destruct (PyStr.contains query
                (PyStr.lower (CodeParser.content snippet)));
    destruct (PyStr.contains query
                (PyStr.lower (CodeParser.description snippet)));
    destruct (existsb
                (fun tag => PyStr.contains query (PyStr.lower tag))
                (CodeParser.tags snippet));
    try specialize (Htag eq_refl);
    cbn [SemanticSearch.hit];
    (repeat split; intro Hm; try discriminate Hm;
     match goal with
     | |- (_ <= if Qle_bool 1 ?raw then _ else _)%Q =>
         destruct (Qle_bool 1 raw); [discriminate|lra]
     end).
Qed.

Lemma match_type_bounds_score_witness :
  let snippet :=
    Inputs.indexed "s1" "quick_sort" "def quick_sort(xs): return sorted(xs)"
      ["sort"%string] in
  let match_type := SemanticSearch._determine_match_type snippet "sort" in
  let score := SemanticSearch._calculate_relevance_score snippet "sort" in
  (match_type = "exact_name"%string -> (9 # 10 <= score)%Q)
  /\ (match_type = "content_match"%string -> (8 # 10 <= score)%Q)
  /\ (match_type = "description_match"%string -> (7 # 10 <= score)%Q)
  /\ (match_type = "tag_match"%string -> (6 # 10 <= score)%Q).
Proof.
  apply (@match_type_bounds_score
           (Inputs.indexed "s1" "quick_sort"
              "def quick_sort(xs): return sorted(xs)" ["sort"%string])
           "sort").
  vm_compute. discriminate.
Defined.

(** X24.  The empty query matches everything: when no quality score is
    negative and the threshold is at most 1, searching for the empty
    string returns the first [max_results] snippets in the order of the
    index, each with score 1, match type exact_name and its content
    unmarked. *)
Theorem empty_query_returns_index_prefix
    (compile_template : string -> PyExn.result (string -> string))
    (indexed_snippets : list SemanticSearch.CodeSnippet)
    (max_results : Z) (similarity_threshold : Q) :
  Forall (fun s => (0 <= CodeParser.quality_score s)%Q) indexed_snippets ->
  (similarity_threshold <= 1)%Q ->
  SemanticSearch.search compile_template indexed_snippets ""
    max_results similarity_threshold
  = PyExn.Ok (PyList.py_take max_results
                (map Notions.full_match indexed_snippets)).
Proof.
  intros Hq Ht. rewrite search_as_collect.
  change (PyStr.lower "") with ""%string.
  assert (Hs : forall s, (0 <= CodeParser.quality_score s)%Q ->
                         SemanticSearch._calculate_relevance_score s "" = 1%Q).
  { intros s H0. unfold SemanticSearch._calculate_relevance_score.
    cbv zeta. rewrite !contains_empty.
    change (PyStr.split "") with (@nil string). cbn [fold_left].
    apply Qmin_one_l.
    rewrite (@fold_hits _ (fun _ => 6 # 10)
               (fun score tag =>
                  if PyStr.contains "" (PyStr.lower tag)
                  then (score + (6 # 10))%Q else score))
      by (intros x a; rewrite contains_empty; reflexivity).
    assert (Hn : (0 <= SemanticSearch.sumQ
                         (map (fun _ : string => 6 # 10)
                            (CodeParser.tags s)))%Q).
    { apply sumQ_nonneg, Forall_forall. intros x Hx.
      apply in_map_iff in Hx as (a & <- & _). discriminate. }
    revert Hn H0.
    generalize (SemanticSearch.sumQ
                  (map (fun _ : string => 6 # 10) (CodeParser.tags s))).
    generalize (CodeParser.quality_score s). intros q t Hn H0. lra. }
  assert (Hc : forall acc,
             SemanticSearch.collect compile_template indexed_snippets ""
               similarity_threshold acc
             = PyExn.Ok (acc ++ map Notions.full_match indexed_snippets)%list).
  { induction Hq as [|s l H0 Hl IH]; intro acc; cbn [SemanticSearch.collect].
    - now rewrite app_nil_r.
    - cbv zeta. rewrite (Hs s H0).
      replace (Qle_bool similarity_threshold 1) with true
        by (symmetry; now apply Qle_bool_iff).
      change (SemanticSearch._highlight_matches compile_template
                (CodeParser.content s) "")
        with (@PyExn.Ok string (CodeParser.content s)).
      cbv iota beta. rewrite IH, <- app_assoc. cbn [map app].
      unfold Notions.full_match at 2.
      unfold SemanticSearch._determine_match_type.
      now rewrite contains_empty. }
  rewrite Hc. cbn [app]. f_equal. f_equal.
  apply sort_desc_of_sorted, equal_keys_sorted with (q := 1%Q).
  apply Forall_forall. intros r Hr.
  apply in_map_iff in Hr as (s & <- & _). reflexivity.
Qed.

Lemma empty_query_returns_index_prefix_witness :
  SemanticSearch.search Inputs.rejecting_template Inputs.small_corpus ""
    1 (1 # 10)
  = PyExn.Ok (PyList.py_take 1
                (map Notions.full_match Inputs.small_corpus)).
Proof.
  apply (@empty_query_returns_index_prefix Inputs.rejecting_template
           Inputs.small_corpus 1 (1 # 10)).
  - repeat constructor; vm_compute; discriminate.
  - vm_compute. discriminate.
Defined.

(** X25.  Highlighting changes nothing when there is nothing to mark:
    for a query without backslash whose tokens are at most two
    characters long or occur nowhere in the content, case being
    ignored, the content is returned as it is. *)
Theorem highlight_without_match_is_identity
    (compile_template : string -> PyExn.result (string -> string))
    (content query : string) :
  SemanticSearch.has_backslash query = false ->
  Forall (fun part =>
            (PyStr.len part <= 2)%Z
            \/ Notions.occurs_ci (list_ascii_of_string part)
                 (list_ascii_of_string content) = false)
    (PyStr.split query) ->
  SemanticSearch._highlight_matches compile_template content query
  = PyExn.Ok content.
Proof.
  intros Hb Hparts. unfold SemanticSearch._highlight_matches.
  destruct (String.eqb query ""); [reflexivity|].
  assert (Hnb : Forall (fun part => SemanticSearch.has_backslash part = false)
                  (PyStr.split query)).
  { apply Forall_forall. intros part Hin.
    now apply split_no_backslash with query. }
  induction Hparts as [|part parts Hp Hps IH]; [reflexivity|].
  inversion Hnb as [|? ? Hnp Hnps]; subst.
  cbn [fold_left].
  assert (Hstep : (if (2 <? PyStr.len part)%Z
                   then SemanticSearch.highlight_part compile_template part
                          content
                   else PyExn.Ok content) = PyExn.Ok content).
  { destruct (Z.ltb_spec 2 (PyStr.len part)) as [Hlong|_]; [|reflexivity].
    destruct Hp as [Hshort|Hno]; [lia|].
    unfold SemanticSearch.highlight_part, SemanticSearch.compile_repl.
    rewrite has_backslash_template, Hnp.
    rewrite sub_ci_no_match by exact Hno.
    now rewrite string_of_list_ascii_of_string. }
  rewrite Hstep. now apply IH.
Qed.

Lemma highlight_without_match_is_identity_witness :
  SemanticSearch._highlight_matches Inputs.rejecting_template
    "def add(a, b)" "sort xs"
  = PyExn.Ok "def add(a, b)"%string.
Proof.
  apply (@highlight_without_match_is_identity Inputs.rejecting_template
           "def add(a, b)" "sort xs").
  - reflexivity.
  - change (PyStr.split "sort xs") with ["sort"%string; "xs"%string].
    apply Forall_cons; [right; reflexivity|].
    apply Forall_cons; [left; vm_compute; discriminate|].
    apply Forall_nil.
Defined.

(* ===================================================================== *)
(** * Similar snippets and statistics *)
(* ===================================================================== *)

Section SetFacts.
Import PyStr PyList SemanticSearch Similar.

Lemma mem_In (x : string) (l : list string) : mem x l = true <-> In x l.
Proof.
  unfold mem. rewrite existsb_exists. split.
  - intros (y & Hy & E). apply String.eqb_eq in E. now subst.
  - intro H. exists x. split; [exact H|apply String.eqb_refl].
Qed.

Lemma inter_NoDup (a b : list string) :
  NoDup (filter (fun x => mem x b) (to_set a)).
Proof. apply NoDup_filter, NoDup_nodup. Qed.

Lemma inter_In (a b : list string) (x : string) :
  In x (filter (fun x => mem x b) (to_set a)) <-> In x a /\ In x b.
Proof.
  rewrite filter_In. unfold to_set. rewrite nodup_In, mem_In. tauto.
Qed.

Lemma inter_size_comm (a b : list string) : inter_size a b = inter_size b a.
Proof.
  unfold inter_size. f_equal. apply Permutation_length.
  apply NoDup_Permutation; try apply inter_NoDup.
  intro x. rewrite !inter_In. tauto.
Qed.

Lemma union_size_comm (a b : list string) : union_size a b = union_size b a.
Proof.
  unfold union_size, to_set. f_equal. apply Permutation_length.
  apply NoDup_Permutation; try apply NoDup_nodup.
  intro x. rewrite !nodup_In, !in_app_iff. tauto.
Qed.

Lemma inter_le_union (a b : list string) :
  (inter_size a b <= union_size a b)%Z.
Proof.
  unfold inter_size, union_size. apply Nat2Z.inj_le.
  apply NoDup_incl_length; [apply inter_NoDup|].
  intros x Hx. apply inter_In in Hx. unfold to_set.
  apply nodup_In, in_or_app. tauto.
Qed.

Lemma inter_le_length (a b : list string) :
  (inter_size a b <= Z.of_nat (List.length a))%Z.
Proof.
  unfold inter_size. apply Nat2Z.inj_le.
  eapply Nat.le_trans; [apply filter_length_le|].
  unfold to_set. apply NoDup_incl_length; [apply NoDup_nodup|].
  intros x Hx. now apply nodup_In in Hx.
Qed.

Lemma union_size_pos (a b : list string) :
  a <> [] -> (0 < union_size a b)%Z.
Proof.
  intro H. destruct a as [|x a]; [congruence|].
  unfold union_size, to_set.
  assert (Hin : In x (nodup string_dec ((x :: a) ++ b)))
    by (apply nodup_In; now left).
  destruct (nodup string_dec ((x :: a) ++ b)); [contradiction|].
  cbn [List.length]. lia.
Qed.

Lemma ratio_within (n d : Z) :
  (0 <= n <= d)%Z -> (0 < d)%Z ->
  (0 <= inject_Z n / inject_Z d <= 1)%Q.
Proof.
  intros [H0 Hle] Hd.
  assert (Hd' : (0 < inject_Z d)%Q)
    by (change 0%Q with (inject_Z 0); now rewrite <- Zlt_Qlt).
  split.
  - apply Qle_shift_div_l; [exact Hd'|].
    rewrite Qmult_0_l. change 0%Q with (inject_Z 0). now rewrite <- Zle_Qle.
  - apply Qle_shift_div_r; [exact Hd'|].
    rewrite Qmult_1_l. now rewrite <- Zle_Qle.
Qed.

End SetFacts.

(** X26.  The similarity of two snippets does not depend on their
    order, and lies between 0 and 1. *)
Theorem snippet_similarity_symmetric_and_bounded
    (snippet1 snippet2 : SemanticSearch.CodeSnippet) :
  Similar._calculate_snippet_similarity snippet1 snippet2
  = Similar._calculate_snippet_similarity snippet2 snippet1
  /\ (0 <= Similar._calculate_snippet_similarity snippet1 snippet2 <= 1)%Q.
Proof.
  split.
  - unfold Similar._calculate_snippet_similarity. cbv zeta.
    rewrite (String.eqb_sym (CodeParser.language snippet2)).
    rewrite (String.eqb_sym (CodeParser.type snippet2)).
    rewrite (inter_size_comm (CodeParser.tags snippet2)).
    rewrite (Z.max_comm (Z.of_nat (List.length (CodeParser.tags snippet2)))).
    destruct (PyStr.split (PyStr.lower (CodeParser.content snippet1)))
      as [|w1 ws1];
      destruct (PyStr.split (PyStr.lower (CodeParser.content snippet2)))
        as [|w2 ws2]; try reflexivity.
    now rewrite (inter_size_comm (w2 :: ws2)), (union_size_comm (w2 :: ws2)).
  - unfold Similar._calculate_snippet_similarity. cbv zeta.
    set (tags1 := CodeParser.tags snippet1).
    set (tags2 := CodeParser.tags snippet2).
    assert (Htags : (0 <? Similar.inter_size tags1 tags2)%Z = true ->
                    (0 <= inject_Z (Similar.inter_size tags1 tags2)
                          / inject_Z
                              (Z.max (Z.of_nat (List.length tags1))
                                 (Z.of_nat (List.length tags2))) <= 1)%Q).
    { intro H. apply Z.ltb_lt in H.
      pose proof (inter_le_length tags1 tags2).
      apply ratio_within; lia. }
    revert Htags.
    generalize (inject_Z (Similar.inter_size tags1 tags2)
                / inject_Z
                    (Z.max (Z.of_nat (List.length tags1))
                       (Z.of_nat (List.length tags2))))%Q.
    intros t Htags.
    assert (Hwords : forall a b : list string,
               a <> [] ->
               (0 <= inject_Z (Similar.inter_size a b)
                     / inject_Z (Similar.union_size a b) <= 1)%Q).
    { intros a b Ha. apply ratio_within; [|now apply union_size_pos].
      split; [unfold Similar.inter_size; lia|apply inter_le_union]. }
    destruct (PyStr.split (PyStr.lower (CodeParser.content snippet1)))
      as [|w1 ws1];
      destruct (PyStr.split (PyStr.lower (CodeParser.content snippet2)))
        as [|w2 ws2];
      try (specialize (Hwords (w1 :: ws1) (w2 :: ws2) ltac:(discriminate));
           revert Hwords;
           generalize (inject_Z (Similar.inter_size (w1 :: ws1) (w2 :: ws2))
                       / inject_Z
                           (Similar.union_size (w1 :: ws1) (w2 :: ws2)))%Q;
           intros w Hwords);
      destruct (String.eqb (CodeParser.language snippet1)
                  (CodeParser.language snippet2));
      destruct (String.eqb (CodeParser.type snippet1)
                  (CodeParser.type snippet2));
      destruct (0 <? Similar.inter_size tags1 tags2)%Z;
      try specialize (Htags eq_refl); lra.
Qed.

(** X27.  The snippets returned as similar to a snippet never include
    the snippet itself: every result is another snippet of the index
    that reaches the threshold, marked as a similarity match with its
    content unmarked; the results are in descending order of score, and
    an ID that is not in the index gives no result. *)
Theorem similar_snippets_exclude_target
    (indexed_snippets : list SemanticSearch.CodeSnippet)
    (snippet_id : string) (top_k : Z) (threshold : Q) :
  let found :=
    Similar.find_similar_snippets indexed_snippets snippet_id top_k
      threshold in
  (forall r, In r found ->
     In (SemanticSearch.snippet r) indexed_snippets
     /\ CodeParser.id (SemanticSearch.snippet r) <> snippet_id
     /\ (threshold <= SemanticSearch.score r)%Q
     /\ SemanticSearch.match_type r = "similarity"%string
     /\ SemanticSearch.highlighted_content r
        = CodeParser.content (SemanticSearch.snippet r))
  /\ StronglySorted (PyList.desc SemanticSearch.score) found
  /\ (existsb (fun s => String.eqb (CodeParser.id s) snippet_id)
        indexed_snippets = false -> found = []).
Proof.
  cbv zeta. unfold Similar.find_similar_snippets.
  destruct (find (fun snippet => String.eqb (CodeParser.id snippet) snippet_id)
              indexed_snippets) as [target|] eqn:Ef.
  - cbv zeta. repeat split.
    + apply py_take_In, sort_desc_In, in_flat_map in H
        as (s & Hs & Hr).
      destruct (String.eqb (CodeParser.id s) snippet_id); [contradiction|].
      cbn [negb] in Hr.
      destruct (Qle_bool threshold
                  (Similar._calculate_snippet_similarity target s));
        [|contradiction].
      destruct Hr as [<-|[]]. exact Hs.
    + apply py_take_In, sort_desc_In, in_flat_map in H
        as (s & Hs & Hr).
      destruct (String.eqb (CodeParser.id s) snippet_id) eqn:E;
        [contradiction|].
      cbn [negb] in Hr.
      destruct (Qle_bool threshold
                  (Similar._calculate_snippet_similarity target s));
        [|contradiction].
      destruct Hr as [<-|[]]. now apply String.eqb_neq in E.
    + apply py_take_In, sort_desc_In, in_flat_map in H
        as (s & Hs & Hr).
      destruct (String.eqb (CodeParser.id s) snippet_id); [contradiction|].
      cbn [negb] in Hr.
      destruct (Qle_bool threshold
                  (Similar._calculate_snippet_similarity target s)) eqn:E;
        [|contradiction].
      destruct Hr as [<-|[]]. now apply Qle_bool_iff in E.
    + apply py_take_In, sort_desc_In, in_flat_map in H
        as (s & Hs & Hr).
      destruct (String.eqb (CodeParser.id s) snippet_id); [contradiction|].
      cbn [negb] in Hr.
      destruct (Qle_bool threshold
                  (Similar._calculate_snippet_similarity target s));
        [|contradiction].
      destruct Hr as [<-|[]]. reflexivity.
    + apply py_take_In, sort_desc_In, in_flat_map in H
        as (s & Hs & Hr).
      destruct (String.eqb (CodeParser.id s) snippet_id); [contradiction|].
      cbn [negb] in Hr.
      destruct (Qle_bool threshold
                  (Similar._calculate_snippet_similarity target s));
        [|contradiction].
      destruct Hr as [<-|[]]. reflexivity.
    + apply py_take_sorted, sort_desc_sorted.
    + intro Hex. apply find_some in Ef as [Hin E].
      assert (Ht : existsb
                     (fun s => String.eqb (CodeParser.id s) snippet_id)
                     indexed_snippets = true)
        by (apply existsb_exists; now exists target).
      congruence.
  - repeat split; try contradiction. constructor.
Qed.

Section StatisticsFacts.
Import PyStr PyList SemanticSearch Similar.

Lemma increment_sum (k : string) (d : list (string * Z)) :
  sum_counts (increment k d) = (sum_counts d + 1)%Z.
Proof.
  induction d as [|[k' n] d IH]; simpl; [reflexivity|].
  destruct (String.eqb k k'); simpl; [lia|]. rewrite IH. lia.
Qed.

Lemma increment_keys_NoDup (k : string) (d : list (string * Z)) :
  NoDup (map fst d) -> NoDup (map fst (increment k d)).
Proof.
  induction d as [|[k' n] d IH]; simpl; intro H.
  - repeat constructor. now intros [].
  - inversion H as [|? ? Hk Hd]; subst.
    destruct (String.eqb k k') eqn:E; simpl; [now constructor|].
    constructor; [|now apply IH].
    intro Hin. apply Hk. apply in_map_iff in Hin as ([k2 n2] & <- & Hin).
    apply in_map_iff.
    clear - Hin E. simpl. induction d as [|[k3 n3] d IH]; simpl in *.
    + destruct Hin as [Hin|[]]. inversion Hin; subst.
      now rewrite String.eqb_refl in E.
    + destruct (String.eqb k k3) eqn:E3; simpl in Hin.
      * destruct Hin as [Hin|Hin].
        -- inversion Hin; subst. exists (k2, n3). split; [reflexivity|now left].
        -- exists (k2, n2). split; [reflexivity|now right].
      * destruct Hin as [Hin|Hin].
        -- inversion Hin; subst. exists (k2, n2). split; [reflexivity|now left].
        -- destruct (IH Hin) as (p & Hp & Hin'). exists p.
           split; [exact Hp|now right].
Qed.

Lemma get_increment_same (k : string) (d : list (string * Z)) :
  get k (increment k d)
  = Some (match get k d with Some n => n + 1 | None => 1 end)%Z.
Proof.
  induction d as [|[k' n] d IH]; simpl.
  - now rewrite String.eqb_refl.
  - destruct (String.eqb k k') eqn:E; simpl; now rewrite E.
Qed.

Lemma get_increment_other (k k0 : string) (d : list (string * Z)) :
  k0 <> k -> get k0 (increment k d) = get k0 d.
Proof.
  intro Hne. induction d as [|[k' n] d IH]; simpl.
  - apply String.eqb_neq in Hne. now rewrite Hne.
  - destruct (String.eqb k k') eqn:E; simpl.
    + apply String.eqb_eq in E. subst.
      apply String.eqb_neq in Hne. now rewrite Hne.
    + now rewrite IH.
Qed.

(** The counting loop, for one of the two dictionaries. *)
Lemma counting_loop {A : Type} (key : A -> string) (l : list A)
    (d : list (string * Z)) :
  let d' := fold_left (fun d x => increment (key x) d) l d in
  sum_counts d' = (sum_counts d + Z.of_nat (List.length l))%Z
  /\ (NoDup (map fst d) -> NoDup (map fst d'))
  /\ forall k,
       (match get k d' with Some n => n | None => 0 end
        = match get k d with Some n => n | None => 0 end
          + Z.of_nat (List.length
                        (filter (fun x => String.eqb k (key x)) l)))%Z.
Proof.
  revert d. induction l as [|x l IH]; intro d; cbv zeta; cbn [fold_left].
  - repeat split; [simpl; lia|trivial|intro k; simpl; lia].
  - destruct (IH (increment (key x) d)) as (Hs & Hn & Hg).
    repeat split.
    + rewrite Hs, increment_sum.
      change (List.length (x :: l)) with (S (List.length l)). lia.
    + intro H. now apply Hn, increment_keys_NoDup.
    + intro k. rewrite Hg. cbn [filter].
      destruct (String.eqb k (key x)) eqn:E.
      * apply String.eqb_eq in E. subst k.
        rewrite get_increment_same.
        change (List.length (x :: ?t)) with (S (List.length t)).
        destruct (get (key x) d);
          cbn [List.length]; rewrite Nat2Z.inj_succ; lia.
      * apply String.eqb_neq in E.
        rewrite get_increment_other by exact E. reflexivity.
Qed.

Lemma stats_fold_split (l : list CodeSnippet)
    (langs tys : list (string * Z)) (q : Q) :
  fold_left
    (fun acc snippet =>
       let '(languages, types, total_quality) := acc in
       (increment (CodeParser.language snippet) languages,
        increment (CodeParser.type snippet) types,
        (total_quality + CodeParser.quality_score snippet)%Q))
    l (langs, tys, q)
  = (fold_left (fun d s => increment (CodeParser.language s) d) l langs,
     fold_left (fun d s => increment (CodeParser.type s) d) l tys,
     fold_left (fun t s => (t + CodeParser.quality_score s)%Q) l q).
Proof.
  revert langs tys q. induction l as [|s l IH]; intros; [reflexivity|].
  cbn [fold_left]. apply IH.
Qed.

End StatisticsFacts.

(** X28.  The statistics count every indexed snippet once per
    dictionary: each language and each type is listed once, the entry of
    a language or type is the number of snippets that have it (a
    missing entry standing for none), and the entries of either
    dictionary add up to the total. *)
Theorem statistics_count_every_snippet
    (indexed_snippets : list SemanticSearch.CodeSnippet) :
  let stats := Similar.get_statistics indexed_snippets in
  Similar.total_snippets stats = Z.of_nat (List.length indexed_snippets)
  /\ Similar.sum_counts (Similar.languages stats)
     = Similar.total_snippets stats
  /\ Similar.sum_counts (Similar.types stats) = Similar.total_snippets stats
  /\ NoDup (map fst (Similar.languages stats))
  /\ NoDup (map fst (Similar.types stats))
  /\ (forall l,
        match Similar.get l (Similar.languages stats) with
        | Some n => n
        | None => 0%Z
        end = Similar.count_language l indexed_snippets)
  /\ (forall t,
        match Similar.get t (Similar.types stats) with
        | Some n => n
        | None => 0%Z
        end = Similar.count_type t indexed_snippets).
Proof.
  cbv zeta. unfold Similar.get_statistics.
  destruct indexed_snippets as [|s l].
  - simpl. repeat split; try constructor.
  - rewrite stats_fold_split.
    cbn [Similar.total_snippets Similar.languages Similar.types].
    destruct (@counting_loop _ CodeParser.language (s :: l) [])
      as (Hs1 & Hn1 & Hg1).
    destruct (@counting_loop _ CodeParser.type (s :: l) [])
      as (Hs2 & Hn2 & Hg2).
    repeat split.
    + rewrite Hs1. change (Similar.sum_counts []) with 0%Z. apply Z.add_0_l.
    + rewrite Hs2. change (Similar.sum_counts []) with 0%Z. apply Z.add_0_l.
    + apply Hn1. constructor.
    + apply Hn2. constructor.
    + intro k. rewrite Hg1. reflexivity.
    + intro k. rewrite Hg2. reflexivity.
Qed.

(* ===================================================================== *)
(** * The search route *)
(* ===================================================================== *)

Section PageFacts.
Import PyList SearchRoute.
Context {A : Type}.

Lemma paginate_nat (results : list A) (p s : nat) :
  paginate results (Z.of_nat (S p)) (Z.of_nat s)
  = firstn s (skipn (p * s) results).
Proof.
  unfold paginate, py_slice. cbv zeta.
  set (n := List.length results).
  replace ((Z.of_nat (S p) - 1) * Z.of_nat s)%Z with (Z.of_nat (p * s))
    by lia.
  replace (Z.of_nat (p * s) + Z.of_nat s)%Z with (Z.of_nat (p * s + s))
    by lia.
  unfold slice_bound.
  destruct (Z.ltb_spec (Z.of_nat (p * s)) 0) as [H|_]; [lia|].
  destruct (Z.ltb_spec (Z.of_nat (p * s + s)) 0) as [H|_]; [lia|].
  destruct (Nat.le_gt_cases (p * s) n) as [Hlo|Hlo].
  - rewrite (Z.min_l (Z.of_nat (p * s))) by lia. rewrite Nat2Z.id.
    destruct (Nat.le_gt_cases (p * s + s) n) as [Hhi|Hhi].
    + rewrite Z.min_l by lia. f_equal. lia.
    + rewrite Z.min_r by lia.
      rewrite !firstn_all2; try reflexivity; rewrite length_skipn; fold n;
        lia.
  - rewrite !Z.min_r by lia. rewrite Z.sub_diag, Nat2Z.id. cbn [Z.to_nat].
    rewrite !(skipn_all2 results) by (fold n; lia).
    now rewrite !firstn_nil.
Qed.

Lemma pages_concat (results : list A) (s k : nat) :
  List.concat (map (fun p => firstn s (skipn (p * s) results)) (seq 0 k))
  = firstn (k * s) results.
Proof.
  induction k as [|k IH]; [reflexivity|].
  rewrite seq_S, map_app, concat_app, IH. cbn [map List.concat Nat.add].
  rewrite app_nil_r, firstn_skipn_comm.
  replace (firstn (k * s) results)
    with (firstn (k * s) (firstn (k * s + s) results))
    by (rewrite firstn_firstn; f_equal; lia).
  rewrite firstn_skipn. f_equal. lia.
Qed.

Lemma pages_cover (results : list A) (page_size : Z) :
  (0 < page_size)%Z ->
  List.concat (map (fun page => paginate results page page_size)
            (pages (Z.to_nat
                      ((Z.of_nat (List.length results) + page_size - 1)
                       / page_size))))
  = results.
Proof.
  intro Hs. unfold pages. rewrite map_map.
  set (n := Z.of_nat (List.length results)).
  set (k := Z.to_nat ((n + page_size - 1) / page_size)).
  set (s := Z.to_nat page_size).
  assert (Hall : firstn (k * s) results = results).
  { apply firstn_all2.
    pose proof (Z.mul_succ_div_gt (n + page_size - 1) page_size Hs) as Hq.
    assert (H0 : (0 <= (n + page_size - 1) / page_size)%Z)
      by (apply Z.div_pos; lia).
    apply Nat2Z.inj_le. rewrite Nat2Z.inj_mul. unfold k, s.
    rewrite !Z2Nat.id by lia. fold n. lia. }
  transitivity (firstn (k * s) results); [|exact Hall].
  rewrite <- (pages_concat results s k).
  rewrite <- seq_shift, map_map.
  apply f_equal, map_ext. intro p. rewrite <- paginate_nat.
  unfold s. now rewrite Z2Nat.id by lia.
Qed.

End PageFacts.

Lemma next_page_iff (n page page_size : Z) :
  (0 < page_size)%Z ->
  ((page - 1) * page_size + page_size <? n)%Z
  = (page <? (n + page_size - 1) / page_size)%Z.
Proof.
  intro Hs.
  pose proof (Z.mul_succ_div_gt (n + page_size - 1) page_size Hs) as Hq.
  pose proof (Z.mul_div_le (n + page_size - 1) page_size Hs) as Hq'.
  revert Hq Hq'. generalize ((n + page_size - 1) / page_size)%Z.
  intros k Hq Hq'.
  destruct (Z.ltb_spec ((page - 1) * page_size + page_size) n),
    (Z.ltb_spec page k); try reflexivity; exfalso; nia.
Qed.

(** X29.  Walking the pages of a search gives every result once: when
    the first page of a request is answered, every page from 1 on is
    answered with the same totals, holds at most [page_size] results,
    announces a next page exactly when its number is below
    [total_pages] and a previous page when it is above 1, and the pages
    1 to [total_pages] put end to end are the complete result list, of
    [total_results] entries. *)
Theorem search_pages_partition_results
    (compile_template : string -> PyExn.result (string -> string))
    (indexed_snippets : list SemanticSearch.CodeSnippet)
    (q query : option string) (languages : option (list string))
    (max_results : Z) (similarity_threshold : Q) (page_size : Z)
    (first : SearchRoute.SearchResponse) :
  (0 < page_size)%Z ->
  SearchRoute.search_code compile_template indexed_snippets q query
    languages max_results similarity_threshold 1 page_size
  = SearchRoute.Response first ->
  let answer page :=
    SearchRoute.search_code compile_template indexed_snippets q query
      languages max_results similarity_threshold page page_size in
  exists all,
    Z.of_nat (List.length all) = SearchRoute.total_results first
    /\ List.concat
         (map (fun page => Notions.page_results (answer page))
            (SearchRoute.pages
               (Z.to_nat (SearchRoute.total_pages first))))
       = all
    /\ forall page,
         (1 <= page)%Z ->
         exists r,
           answer page = SearchRoute.Response r
           /\ SearchRoute.results r = SearchRoute.paginate all page page_size
           /\ SearchRoute.total_results r = SearchRoute.total_results first
           /\ SearchRoute.total_pages r = SearchRoute.total_pages first
           /\ (Z.of_nat (List.length (SearchRoute.results r))
               <= page_size)%Z
           /\ SearchRoute.has_next_page r
              = (page <? SearchRoute.total_pages first)%Z
           /\ SearchRoute.has_previous_page r = (1 <? page)%Z.
Proof.
  intros Hs Hfirst. cbv zeta.
  unfold SearchRoute.search_code, SearchRoute.search_code_body in *.
  destruct (SearchRoute.str_or q query) as [sq|]; [|discriminate].
  destruct (String.eqb sq ""); [discriminate|].
  destruct (SemanticSearch.search compile_template indexed_snippets sq
              max_results similarity_threshold) as [found|e];
    [|discriminate].
  cbv zeta in *.
  destruct (page_size =? 0)%Z eqn:E0; [apply Z.eqb_eq in E0; lia|].
  inversion Hfirst; subst first; clear Hfirst.
  cbn [SearchRoute.total_pages SearchRoute.total_results].
  match goal with
  | |- context [SearchRoute.paginate ?l _ _] => set (all := l)
  end.
  exists all. split; [reflexivity|]. split.
  - etransitivity; [|apply (pages_cover all Hs)].
    apply f_equal, map_ext. intro page. reflexivity.
  - intros page Hp. eexists. split; [reflexivity|].
    cbn [SearchRoute.results SearchRoute.total_results
         SearchRoute.total_pages SearchRoute.has_next_page
         SearchRoute.has_previous_page].
    repeat split.
    + replace page with (Z.of_nat (S (Z.to_nat (page - 1)))) by lia.
      replace page_size with (Z.of_nat (Z.to_nat page_size)) at 1 by lia.
      rewrite paginate_nat.
      pose proof (firstn_le_length (Z.to_nat page_size)
                    (skipn (Z.to_nat (page - 1) * Z.to_nat page_size) all)).
      lia.
    + now apply next_page_iff.
Qed.

Lemma search_pages_partition_results_witness :
  let answer page :=
    SearchRoute.search_code Inputs.rejecting_template Inputs.small_corpus
      (Some "def"%string) None None 50 (1 # 10) page 1 in
  exists all,
    Z.of_nat (List.length all) = 2%Z
    /\ List.concat
         (map (fun page => Notions.page_results (answer page))
            (SearchRoute.pages (Z.to_nat 2)))
       = all
    /\ forall page,
         (1 <= page)%Z ->
         exists r,
           answer page = SearchRoute.Response r
           /\ SearchRoute.results r = SearchRoute.paginate all page 1
           /\ SearchRoute.total_results r = 2%Z
           /\ SearchRoute.total_pages r = 2%Z
           /\ (Z.of_nat (List.length (SearchRoute.results r)) <= 1)%Z
           /\ SearchRoute.has_next_page r = (page <? 2)%Z
           /\ SearchRoute.has_previous_page r = (1 <? page)%Z.
Proof.
  apply (@search_pages_partition_results Inputs.rejecting_template
           Inputs.small_corpus (Some "def"%string) None None 50 (1 # 10) 1
           (match SearchRoute.search_code Inputs.rejecting_template
                    Inputs.small_corpus (Some "def"%string) None None 50
                    (1 # 10) 1 1 with
            | SearchRoute.Response r => r
            | SearchRoute.HTTPException _ =>
                {| SearchRoute.query := ""; SearchRoute.results := [];
                   SearchRoute.total_results := 0; SearchRoute.page := 0;
                   SearchRoute.page_size := 0; SearchRoute.total_pages := 0;
                   SearchRoute.has_next_page := false;
                   SearchRoute.has_previous_page := false |}
            end)).
  - lia.
  - vm_compute. reflexivity.
Defined.

(** X30.  A request that the search route cannot serve is answered with
    status 500, whatever went wrong: a request without query text gets
    500 although the route raises 422 for it, and so does a request for
    pages of size 0. *)
Theorem search_route_failures_are_500
    (compile_template : string -> PyExn.result (string -> string))
    (indexed_snippets : list SemanticSearch.CodeSnippet)
    (q query : option string) (languages : option (list string))
    (max_results : Z) (similarity_threshold : Q) (page page_size : Z) :
  ((q = None \/ q = Some ""%string)
   /\ (query = None \/ query = Some ""%string))
  \/ page_size = 0%Z ->
  SearchRoute.search_code compile_template indexed_snippets q query
    languages max_results similarity_threshold page page_size
  = SearchRoute.HTTPException 500.
Proof.
  intros [[Hq Hquery]|Hsize]; unfold SearchRoute.search_code,
    SearchRoute.search_code_body.
  - destruct Hq as [->| ->], Hquery as [->| ->]; reflexivity.
  - subst page_size.
    destruct (SearchRoute.str_or q query) as [sq|]; [|reflexivity].
    destruct (String.eqb sq ""); [reflexivity|].
    destruct (SemanticSearch.search compile_template indexed_snippets sq
                max_results similarity_threshold); reflexivity.
Qed.

Lemma search_route_failures_are_500_witness :
  SearchRoute.search_code Inputs.rejecting_template Inputs.small_corpus
    None (Some ""%string) None 50 (1 # 10) 1 20
  = SearchRoute.HTTPException 500.
Proof.
  apply (@search_route_failures_are_500 Inputs.rejecting_template
           Inputs.small_corpus None (Some ""%string) None 50 (1 # 10) 1 20).
  left. split; [left; reflexivity|right; reflexivity].
Defined.
